(** * Expense tracker: aggregation, budget evaluation and form handlers

    A shallow embedding of the React components of the expense tracker
    ([Dashboard.tsx], [BudgetTracker.tsx], [ExpenseList.tsx],
    [ExpenseDialog.tsx]) together with the fragment of the JavaScript
    runtime and of the hosted store they rely on.

    - [JS] models what the components use of the language: numbers,
      strings, and the ECMAScript [Date] algorithms (day, year, month
      arithmetic, local time, [setDate], [toISOString], [Date.parse]).
    - [Store] models the two tables of the migration and the queries the
      components issue against them.
    - [Dashboard], [BudgetTracker], [ExpenseDialog], [ExpenseList] follow
      the components function by function; [Effects] lists the calls a
      handler makes and [Page] puts the components side by side.
    - [Examples] holds the sample data the closed statements run on.

    The definitions come first, the facts about them after. *)

From Stdlib Require Import ZArith Bool List String Ascii DecimalString Lia Sorted.
From Stdlib Require Import Permutation PrimFloat SpecFloat FloatOps FloatAxioms.
Import ListNotations.

Set Warnings "-inexact-float".

#[local] Open Scope string_scope.
#[local] Open Scope Z_scope.

(* ================================================================== *)
(** * The JavaScript runtime *)
(* ================================================================== *)

Module JS.

(** ** Numbers

    The aggregation code only ever adds amounts, starting from the
    literal [0].  It is written once over an additive structure; the
    instance at [float] (IEEE 754 binary64, the JavaScript number type)
    is the program as it runs, the instance at [Z] is the same program
    over amounts counted exactly in minor units. *)

Class Arith (A : Type) : Type := {
  zero : A;
  add : A -> A -> A
}.

Class ExactArith (A : Type) {AR : Arith A} : Prop := {
  add_zero_l : forall a : A, add zero a = a;
  add_comm : forall a b : A, add a b = add b a;
  add_assoc : forall a b c : A, add a (add b c) = add (add a b) c
}.

#[export] Instance number : Arith float := {|
  zero := 0%float;
  add := PrimFloat.add
|}.

#[export] Instance minorUnits : Arith Z := {|
  zero := 0%Z;
  add := Z.add
|}.

(** Amounts in minor units add up exactly. *)
#[export] Instance minorUnits_exact : ExactArith Z.
Proof. split; intros; simpl; lia. Qed.

(** The sum of a list of amounts, written by recursion on the list. *)
Fixpoint total {A : Type} {AR : Arith A} (l : list A) : A :=
  match l with
  | [] => zero
  | a :: rest => add a (total rest)
  end.

(** [isNaN x]: a NaN is the only number that differs from itself. *)
Definition isNaN (x : float) : bool := negb (PrimFloat.eqb x x).

(** [Math.min(x, y)] for a [y] that is not NaN. *)
Definition Math_min (x y : float) : float :=
  if PrimFloat.ltb y x then y else x.

(** ** Strings *)

(** [a || b] on strings: the empty string is falsy. *)
Definition orString (a : option string) (b : string) : string :=
  match a with
  | Some EmptyString => b
  | Some s => s
  | None => b
  end.

(** [s.length]: the number of UTF-16 code units of a text.  A text is
    held here as the bytes of its UTF-8 form, the form in which the
    source files and the store carry it: a character of one, two or
    three bytes is one code unit, a character of four bytes is two (a
    surrogate pair).  [pending] is the number of continuation bytes the
    character being read still expects; the second code unit of a
    four-byte character is counted at its first continuation byte, and
    a continuation byte that belongs to no character counts as one. *)
Fixpoint codeUnits (pending : nat) (s : string) : nat :=
  match s with
  | EmptyString => O
  | String c rest =>
      let b := nat_of_ascii c in
      if (b <? 128)%nat then S (codeUnits 0 rest)
      else if (b <? 192)%nat then
        match pending with
        | O => S (codeUnits 0 rest)
        | 3%nat => S (codeUnits 2 rest)
        | S p => codeUnits p rest
        end
      else if (b <? 224)%nat then S (codeUnits 1 rest)
      else if (b <? 240)%nat then S (codeUnits 2 rest)
      else S (codeUnits 3 rest)
  end.

Definition String_length (s : string) : nat := codeUnits 0 s.

(** [String(n)] for an integral number. *)
Definition String_of (n : Z) : string := NilZero.string_of_int (Z.to_int n).

Fixpoint repeatChar (c : ascii) (n : nat) : string :=
  match n with
  | O => EmptyString
  | S k => String c (repeatChar c k)
  end.

(** [s.padStart(len, c)] with a one-character filler. *)
Definition padStart (len : nat) (c : ascii) (s : string) : string :=
  repeatChar c (len - String.length s) ++ s.

(** [s.split(c)[0]]: the part of [s] before the first [c]. *)
Fixpoint splitHead (c : ascii) (s : string) : string :=
  match s with
  | EmptyString => EmptyString
  | String a r => if Ascii.eqb a c then EmptyString else String a (splitHead c r)
  end.

Definition isDigit (a : ascii) : bool :=
  let n := nat_of_ascii a in (48 <=? n)%nat && (n <=? 57)%nat.

(** The value of a string of decimal digits; [None] when a character is
    not a digit or the string is empty. *)
Fixpoint digitsValue (acc : Z) (s : string) : option Z :=
  match s with
  | EmptyString => Some acc
  | String a r =>
      if isDigit a
      then digitsValue (10 * acc + (Z.of_nat (nat_of_ascii a) - 48)) r
      else None
  end.

Definition digits (s : string) : option Z :=
  match s with
  | EmptyString => None
  | _ => digitsValue 0 s
  end.

(** ** Dates (ECMAScript, Date objects: time values and time zones)

    A time value is a number of milliseconds since the epoch, here an
    integer.  The names are those of the language specification. *)

Definition msPerDay : Z := 86400000.
Definition msPerHour : Z := 3600000.
Definition msPerMinute : Z := 60000.
Definition msPerSecond : Z := 1000.

Definition Day (t : Z) : Z := t / msPerDay.
Definition TimeWithinDay (t : Z) : Z := t mod msPerDay.

Definition isLeap (y : Z) : bool :=
  (y mod 4 =? 0) && (negb (y mod 100 =? 0) || (y mod 400 =? 0)).

Definition DaysInYear (y : Z) : Z := if isLeap y then 366 else 365.

Definition DayFromYear (y : Z) : Z :=
  365 * (y - 1970) + (y - 1969) / 4 - (y - 1901) / 100 + (y - 1601) / 400.

Definition TimeFromYear (y : Z) : Z := msPerDay * DayFromYear y.

(** The year of a day number: the largest [y] with [DayFromYear y <= d].
    A year lasts 146097/400 days on average, which locates it within one. *)
Definition yearOfDay (d : Z) : Z :=
  let y0 := 1970 + (400 * d) / 146097 in
  if DayFromYear (y0 + 1) <=? d then y0 + 1
  else if DayFromYear y0 <=? d then y0
  else y0 - 1.

Definition YearFromTime (t : Z) : Z := yearOfDay (Day t).

Definition InLeapYear (t : Z) : Z :=
  if isLeap (YearFromTime t) then 1 else 0.

Definition DayWithinYear (t : Z) : Z := Day t - DayFromYear (YearFromTime t).

(** The day within the year on which month [m] (0 to 11) starts. *)
Definition monthStart (leap m : Z) : Z :=
  match m with
  | 0 => 0
  | 1 => 31
  | 2 => 59 + leap
  | 3 => 90 + leap
  | 4 => 120 + leap
  | 5 => 151 + leap
  | 6 => 181 + leap
  | 7 => 212 + leap
  | 8 => 243 + leap
  | 9 => 273 + leap
  | 10 => 304 + leap
  | _ => 334 + leap
  end.

Definition monthOfYearDay (leap d : Z) : Z :=
  if d <? 31 then 0
  else if d <? 59 + leap then 1
  else if d <? 90 + leap then 2
  else if d <? 120 + leap then 3
  else if d <? 151 + leap then 4
  else if d <? 181 + leap then 5
  else if d <? 212 + leap then 6
  else if d <? 243 + leap then 7
  else if d <? 273 + leap then 8
  else if d <? 304 + leap then 9
  else if d <? 334 + leap then 10
  else 11.

Definition MonthFromTime (t : Z) : Z :=
  monthOfYearDay (InLeapYear t) (DayWithinYear t).

Definition DateFromTime (t : Z) : Z :=
  DayWithinYear t - monthStart (InLeapYear t) (MonthFromTime t) + 1.

Definition HourFromTime (t : Z) : Z := (t / msPerHour) mod 24.
Definition MinFromTime (t : Z) : Z := (t / msPerMinute) mod 60.
Definition SecFromTime (t : Z) : Z := (t / msPerSecond) mod 60.
Definition msFromTime (t : Z) : Z := t mod msPerSecond.

(** [MakeDay year month date]: months outside 0..11 carry into the year,
    and [date] counts from the first of the month without any check. *)
Definition MakeDay (year month date : Z) : Z :=
  let ym := year + month / 12 in
  let mn := month mod 12 in
  DayFromYear ym + monthStart (if isLeap ym then 1 else 0) mn + date - 1.

Definition MakeTime (hour min sec ms : Z) : Z :=
  hour * msPerHour + min * msPerMinute + sec * msPerSecond + ms.

Definition MakeDate (day time : Z) : Z := day * msPerDay + time.

(** The host's time zone.  [offsetAt t] is the local offset from UTC, in
    milliseconds, in force at the time value [t]; [offsetOfLocal l] is the
    offset the host gives to the local wall-clock reading [l] (where a
    transition makes a reading ambiguous or skips it, the host chooses). *)
Record TimeZone : Type := {
  offsetAt : Z -> Z;
  offsetOfLocal : Z -> Z
}.

(** A zone whose offset never changes. *)
Definition fixedZone (off : Z) : TimeZone :=
  {| offsetAt := fun _ => off; offsetOfLocal := fun _ => off |}.

Definition LocalTime (tz : TimeZone) (t : Z) : Z := t + offsetAt tz t.
Definition UTC (tz : TimeZone) (l : Z) : Z := l - offsetOfLocal tz l.

(** [d.getFullYear()], [d.getMonth()], [d.getDate()]: local fields. *)
Definition getFullYear (tz : TimeZone) (t : Z) : Z := YearFromTime (LocalTime tz t).
Definition getMonth (tz : TimeZone) (t : Z) : Z := MonthFromTime (LocalTime tz t).
Definition getDate (tz : TimeZone) (t : Z) : Z := DateFromTime (LocalTime tz t).

(** [d.setDate(dt)]: replaces the day of the month of the local reading,
    keeps its time of day, and converts back. *)
Definition setDate (tz : TimeZone) (t dt : Z) : Z :=
  let l := LocalTime tz t in
  UTC tz (MakeDate (MakeDay (YearFromTime l) (MonthFromTime l) dt) (TimeWithinDay l)).

(** [new Date(year, month, date)]: local midnight of that day; a year
    from 0 to 99 stands for 1900 + year. *)
Definition Date_ymd (tz : TimeZone) (year month date : Z) : Z :=
  let yr := if (0 <=? year) && (year <=? 99) then 1900 + year else year in
  UTC tz (MakeDate (MakeDay yr month date) (MakeTime 0 0 0 0)).

Definition pad2 (n : Z) : string := padStart 2 "0" (String_of n).

(** The year of the ISO format: four digits from 0 to 9999, otherwise a
    sign and six digits. *)
Definition isoYear (y : Z) : string :=
  if (0 <=? y) && (y <=? 9999) then padStart 4 "0" (String_of y)
  else (if y <? 0 then "-" else "+") ++ padStart 6 "0" (String_of (Z.abs y)).

(** [d.toISOString()]: the UTC fields, [YYYY-MM-DDTHH:mm:ss.sssZ]. *)
Definition toISOString (t : Z) : string :=
  isoYear (YearFromTime t) ++ "-" ++ pad2 (MonthFromTime t + 1) ++ "-"
  ++ pad2 (DateFromTime t) ++ "T" ++ pad2 (HourFromTime t) ++ ":"
  ++ pad2 (MinFromTime t) ++ ":" ++ pad2 (SecFromTime t) ++ "."
  ++ padStart 3 "0" (String_of (msFromTime t)) ++ "Z".

(** The date part [YYYY-MM-DD] of the ISO text of day number [d]. *)
Definition isoDateOfDay (d : Z) : string :=
  splitHead "T" (toISOString (d * msPerDay)).

Definition DaysInMonth (y m : Z) : Z :=
  let leap := if isLeap y then 1 else 0 in
  if m =? 11 then 31 else monthStart leap (m + 1) - monthStart leap m.

(** The fields of a date-only ISO string [YYYY-MM-DD], month from 1. *)
Definition dateFields (s : string) : option (Z * Z * Z) :=
  if negb (String.length s =? 10)%nat then None
  else if negb (String.eqb (substring 4 1 s) "-" && String.eqb (substring 7 1 s) "-") then None
  else
    match digits (substring 0 4 s), digits (substring 5 2 s), digits (substring 8 2 s) with
    | Some y, Some m, Some d =>
        if (1 <=? m) && (m <=? 12) && (1 <=? d) && (d <=? DaysInMonth y (m - 1))
        then Some (y, m, d) else None
    | _, _, _ => None
    end.

(** [new Date(s)] for a date-only ISO string: midnight UTC of that day.
    The store renders a [DATE] column in this form.  A text that is not a
    calendar date in this form, which the store never sends, is given no
    time value here (an invalid date). *)
Definition Date_parse (s : string) : option Z :=
  match dateFields s with
  | Some (y, m, d) => Some (MakeDate (MakeDay y (m - 1) d) 0)
  | None => None
  end.

(** [a >= b] on two dates, the first possibly invalid: a comparison of
    time values, false on NaN. *)
Definition Date_ge (a : option Z) (b : Z) : bool :=
  match a with
  | Some t => b <=? t
  | None => false
  end.

(** Whether the text [s] has [len] characters and reads as the number [n]. *)
Definition readsAs (len : nat) (n : Z) (s : string) : bool :=
  (String.length s =? len)%nat
  && match digits s with
     | Some v => v =? n
     | None => false
     end.

(** The integers [lo], [lo + 1], ..., [lo + n - 1]. *)
Definition zrange (lo n : Z) : list Z :=
  map (fun i => lo + Z.of_nat i) (seq 0 (Z.to_nat n)).

(** The day number of the first day of the local month of [now], as
    [new Date(year, month, 1)] computes it. *)
Definition firstDayNumber (tz : TimeZone) (now : Z) : Z :=
  let year := getFullYear tz now in
  MakeDay (if (0 <=? year) && (year <=? 99) then 1900 + year else year)
    (getMonth tz now) 1.

(** The day number of the first day of the month of index [n], where
    month [m] (from 0) of year [y] has index [12 y + m]. *)
Definition monthIndexStart (n : Z) : Z :=
  DayFromYear (n / 12) + monthStart (if isLeap (n / 12) then 1 else 0) (n mod 12).

(** ** Reading a decimal literal

    [float_of_Z] is exact up to 2^53.  [parseFloatPlain] reads the plain
    decimal literals of the examples: leading blanks, an optional sign,
    digits, an optional fraction, and whatever follows ignored; [NaN]
    when no digit is found.  On these it gives what the language's
    [parseFloat] gives, as long as the literal has at most fifteen
    significant digits (the quotient below is then correctly rounded).
    It is not [parseFloat] itself: it reads neither an exponent ("1e3")
    nor "Infinity".  The handlers take [parseFloat] as a parameter; this
    reader only serves the closed examples. *)

Fixpoint float_of_pos (p : positive) : float :=
  match p with
  | xH => 1%float
  | xO q => (2 * float_of_pos q)%float
  | xI q => (2 * float_of_pos q + 1)%float
  end.

Definition float_of_Z (z : Z) : float :=
  match z with
  | Z0 => 0%float
  | Zpos p => float_of_pos p
  | Zneg p => (- float_of_pos p)%float
  end.

Definition isBlank (a : ascii) : bool :=
  let n := nat_of_ascii a in
  (n =? 32)%nat || (n =? 9)%nat || (n =? 10)%nat || (n =? 13)%nat.

Fixpoint skipBlanks (s : string) : string :=
  match s with
  | String a r => if isBlank a then skipBlanks r else s
  | EmptyString => s
  end.

Fixpoint takeDigits (s : string) : string * string :=
  match s with
  | String a r =>
      if isDigit a then let (d, rest) := takeDigits r in (String a d, rest)
      else (EmptyString, s)
  | EmptyString => (EmptyString, EmptyString)
  end.

Definition parseFloatPlain (s : string) : float :=
  let s := skipBlanks s in
  let (negative, s) :=
    match s with
    | String "-" r => (true, r)
    | String "+" r => (false, r)
    | _ => (false, s)
    end in
  let (ip, r) := takeDigits s in
  let fp := match r with String "." r1 => fst (takeDigits r1) | _ => EmptyString end in
  match digitsValue 0 (ip ++ fp) with
  | Some m =>
      if (String.length (ip ++ fp) =? 0)%nat then PrimFloat.nan
      else
        let v := (float_of_Z m / float_of_Z (10 ^ Z.of_nat (String.length fp)))%float in
        if negative then (- v)%float else v
  | None => PrimFloat.nan
  end.

End JS.

(* ================================================================== *)
(** * The hosted store *)
(* ================================================================== *)

Module Store.

(** A row of [expense_categories], as far as the queries select it
    ([name] and [color] are [NOT NULL], [icon] is nullable). *)
Record Category : Type := {
  name : string;
  color : string;
  icon : option string
}.

(** A row of [expenses] as a select with the embedded category returns
    it.  [A] is the type of amounts; [date] is the [DATE] column in its
    text form [YYYY-MM-DD]; a row without category has [None]. *)
Record Expense (A : Type) : Type := {
  id : string;
  user_id : string;
  category_id : option string;
  amount : A;
  description : option string;
  date : string;
  expense_categories : option Category
}.

Arguments id {A} _.
Arguments user_id {A} _.
Arguments category_id {A} _.
Arguments amount {A} _.
Arguments description {A} _.
Arguments date {A} _.
Arguments expense_categories {A} _.

(** A row of [budgets]; the table declares [UNIQUE(user_id, month)]. *)
Record Budget : Type := {
  budget_user_id : string;
  month : string;
  limit_amount : float
}.

(** The answer of the store to a mutation. *)
Inductive Response : Type :=
| Ok
| Error (message : string).

(** The position of a [DATE] value in the calendar order, from its text
    form; the store only holds valid dates. *)
Definition dateOrd (s : string) : Z :=
  match JS.dateFields s with
  | Some (y, m, d) => (y * 12 + (m - 1)) * 31 + (d - 1)
  | None => 0
  end.

(** [.order("date", { ascending: false })]: most recent date first.  The
    store does not say in which order it returns rows of one date; here
    they come in the reverse of the order of the table. *)
Fixpoint insertByDate {A : Type} (r : Expense A) (l : list (Expense A)) : list (Expense A) :=
  match l with
  | [] => [r]
  | x :: rest =>
      if dateOrd (date x) <? dateOrd (date r) then r :: x :: rest
      else x :: insertByDate r rest
  end.

Definition orderByDateDesc {A : Type} (rows : list (Expense A)) : list (Expense A) :=
  fold_right insertByDate [] rows.

(** Most recent first. *)
Definition descending {A : Type} (l : list (Expense A)) : Prop :=
  StronglySorted (fun x y => dateOrd (date y) <= dateOrd (date x)) l.

(** [.limit(n)]. *)
Definition limit {A : Type} (n : nat) (rows : list A) : list A := firstn n rows.

(** [.gte("date", v)]: the rows dated [v] or later, compared as dates. *)
Definition gteDate {A : Type} (v : string) (rows : list (Expense A)) : list (Expense A) :=
  filter (fun r => dateOrd v <=? dateOrd (date r)) rows.

Definition sameKey (user m : string) (b : Budget) : bool :=
  String.eqb (budget_user_id b) user && String.eqb (month b) m.

(** [.upsert(row, { onConflict: "user_id,month" })]: an insert that, when
    a row with the same [(user_id, month)] exists, updates that row with
    the new values instead ([INSERT ... ON CONFLICT ... DO UPDATE]). *)
Fixpoint upsert (row : Budget) (table : list Budget) : list Budget :=
  match table with
  | [] => [row]
  | b :: rest =>
      if sameKey (budget_user_id row) (month row) b then row :: rest
      else b :: upsert row rest
  end.

(** The rows of [budgets] a user may see (row-level security) for one
    month, and [.maybeSingle()]: the row when there is exactly one. *)
Definition budgetsOf (user m : string) (table : list Budget) : list Budget :=
  filter (sameKey user m) table.

Definition maybeSingle {A : Type} (rows : list A) : option A :=
  match rows with
  | [r] => Some r
  | _ => None
  end.

(** [UNIQUE(user_id, month)]: no two rows of the table share a key. *)
Definition keyOf (b : Budget) : string * string := (budget_user_id b, month b).

Definition uniqueKeys (table : list Budget) : Prop := NoDup (map keyOf table).

(** The rows the migration inserts into [expense_categories]. *)
Definition defaultCategories : list Category :=
  [ {| name := "Food & Dining"; color := "#F59E0B"; icon := Some "🍔" |};
    {| name := "Transportation"; color := "#3B82F6"; icon := Some "🚗" |};
    {| name := "Shopping"; color := "#EC4899"; icon := Some "🛍️" |};
    {| name := "Entertainment"; color := "#8B5CF6"; icon := Some "🎬" |};
    {| name := "Bills & Utilities"; color := "#EF4444"; icon := Some "💡" |};
    {| name := "Healthcare"; color := "#10B981"; icon := Some "🏥" |};
    {| name := "Education"; color := "#6366F1"; icon := Some "📚" |};
    {| name := "Travel"; color := "#14B8A6"; icon := Some "✈️" |};
    {| name := "Other"; color := "#6B7280"; icon := Some "📌" |} ].

(** The policies of [expenses] and [budgets], [auth.uid() = user_id]:
    the rows a signed-in user may see, update or delete, and the rows
    the user may insert. *)
Definition ownExpense {A : Type} (uid : string) (r : Expense A) : bool :=
  String.eqb uid (user_id r).

Definition ownBudget (uid : string) (b : Budget) : bool :=
  String.eqb uid (budget_user_id b).

End Store.

(* ================================================================== *)
(** * Dashboard.tsx *)
(* ================================================================== *)

Module Dashboard.
Import JS Store.

Section Aggregation.
Context {A : Type} {AR : Arith A}.

(** The value [categoryMap] holds for a category, [{ amount, color }].
    The fields of the records below carry a prefix, since [amount],
    [color] and [date] already name the columns of the rows. *)
Record CategoryData : Type := {
  data_amount : A;
  data_color : string
}.

(** An entry of [categorySummary], [{ category, amount, color }]. *)
Record CategoryTotal : Type := {
  category : string;
  total_amount : A;
  total_color : string
}.

(** An entry of [dailyTrend], [{ date, amount }]. *)
Record DailyTotal : Type := {
  day_date : string;
  day_amount : A
}.

Record DashboardStats : Type := {
  totalExpenses : A;
  monthlyExpenses : A;
  categorySummary : list CategoryTotal;
  dailyTrend : list DailyTotal
}.

(** [useState] initial value. *)
Definition initialStats : DashboardStats := {|
  totalExpenses := zero;
  monthlyExpenses := zero;
  categorySummary := [];
  dailyTrend := []
|}.

(** [Number(exp.amount)]: the store sends the amount as a number. *)
Definition Number (a : A) : A := a.

(** [expenses.reduce((sum, exp) => sum + Number(exp.amount), 0)]. *)
Definition sumAmounts (expenses : list (Expense A)) : A :=
  fold_left (fun sum exp => add sum (Number (amount exp))) expenses zero.

Definition calcTotalExpenses (expenses : list (Expense A)) : A :=
  sumAmounts expenses.

(** [new Date(now.getFullYear(), now.getMonth(), 1)]. *)
Definition firstDayOfMonth (tz : TimeZone) (now : Z) : Z :=
  Date_ymd tz (getFullYear tz now) (getMonth tz now) 1.

(** The filter [new Date(exp.date) >= firstDayOfMonth], then the sum. *)
Definition calcMonthlyExpenses (tz : TimeZone) (now : Z) (expenses : list (Expense A)) : A :=
  sumAmounts
    (filter (fun exp => Date_ge (Date_parse (date exp)) (firstDayOfMonth tz now)) expenses).

(** A [Map] keeps its keys in the order of their first insertion: an
    association list, where [set] on a key already present replaces the
    value in place. *)
Definition CategoryMap : Type := list (string * CategoryData).

Fixpoint Map_get (m : CategoryMap) (k : string) : option CategoryData :=
  match m with
  | [] => None
  | (k', v) :: rest => if String.eqb k' k then Some v else Map_get rest k
  end.

Fixpoint Map_set (m : CategoryMap) (k : string) (v : CategoryData) : CategoryMap :=
  match m with
  | [] => [(k, v)]
  | (k', v') :: rest =>
      if String.eqb k' k then (k, v) :: rest else (k', v') :: Map_set rest k v
  end.

(** [exp.expense_categories?.name || "Other"]. *)
Definition categoryOf (exp : Expense A) : string :=
  orString (option_map name (expense_categories exp)) "Other".

Definition colorOf (exp : Expense A) : string :=
  orString (option_map color (expense_categories exp)) "#6B7280".

(** The body of [expenses.forEach]. *)
Definition addToCategory (categoryMap : CategoryMap) (exp : Expense A) : CategoryMap :=
  let category := categoryOf exp in
  let color := colorOf exp in
  let current :=
    match Map_get categoryMap category with
    | Some c => c
    | None => {| data_amount := zero; data_color := color |}
    end in
  Map_set categoryMap category
    {| data_amount := add (data_amount current) (Number (amount exp));
       data_color := color |}.

Definition buildCategoryMap (expenses : list (Expense A)) : CategoryMap :=
  fold_left addToCategory expenses [].

(** [Array.from(categoryMap.entries()).map(...)]. *)
Definition calcCategorySummary (expenses : list (Expense A)) : list CategoryTotal :=
  map (fun e : string * CategoryData =>
         {| category := fst e;
            total_amount := data_amount (snd e);
            total_color := data_color (snd e) |})
      (buildCategoryMap expenses).

(** [Array.from({ length: 7 }, (_, i) => ...)]: the clock is read as [now]
    for each of the seven dates. *)
Definition last7Days (tz : TimeZone) (now : Z) : list string :=
  map (fun i =>
         let date := setDate tz now (getDate tz now - (6 - i)) in
         splitHead "T" (toISOString date))
      [0; 1; 2; 3; 4; 5; 6].

Definition calcDailyTrend (tz : TimeZone) (now : Z) (expenses : list (Expense A)) : list DailyTotal :=
  map (fun d =>
         {| day_date := d;
            day_amount :=
              sumAmounts (filter (fun exp => String.eqb (date exp) d) expenses) |})
      (last7Days tz now).

(** The select of [fetchDashboardData]: every row the user may see, most
    recent first, without a limit. *)
Definition query (rows : list (Expense A)) : list (Expense A) :=
  orderByDateDesc rows.

(** [fetchDashboardData]: [expenses] is what the select returned ([None]
    when it returned no data, which leaves the state as it was). *)
Definition fetchDashboardData (tz : TimeZone) (now : Z)
  (expenses : option (list (Expense A))) (stats : DashboardStats) : DashboardStats :=
  match expenses with
  | None => stats
  | Some expenses =>
      {| totalExpenses := calcTotalExpenses expenses;
         monthlyExpenses := calcMonthlyExpenses tz now expenses;
         categorySummary := calcCategorySummary expenses;
         dailyTrend := calcDailyTrend tz now expenses |}
  end.

(** The expenses of one category, in the order of the input. *)
Definition inCategory (k : string) (es : list (Expense A)) : list (Expense A) :=
  filter (fun e => String.eqb (categoryOf e) k) es.

(** The sum of the amounts of the buckets of a summary. *)
Definition sumBuckets (summary : list CategoryTotal) : A :=
  fold_left (fun sum b => add sum (total_amount b)) summary zero.

End Aggregation.

Arguments CategoryData A : clear implicits.
Arguments CategoryTotal A : clear implicits.
Arguments DailyTotal A : clear implicits.
Arguments DashboardStats A : clear implicits.
Arguments CategoryMap A : clear implicits.

(** The figure of the card "Active categories",
    [stats.categorySummary.length]. *)
Definition activeCategories {A : Type} (stats : DashboardStats A) : nat :=
  List.length (categorySummary stats).

(** The distinct texts of a list in the order of their first occurrence,
    given those already [seen]. *)
Fixpoint firstOccurrences (seen l : list string) : list string :=
  match l with
  | [] => []
  | k :: rest =>
      if existsb (String.eqb k) seen then firstOccurrences seen rest
      else k :: firstOccurrences (k :: seen) rest
  end.

End Dashboard.

(* ================================================================== *)
(** * What a handler does to the outside *)
(* ================================================================== *)

Module Effects.

(** The writes an expense form sends ([amount], [description],
    [category_id], [date]). *)
Record ExpenseFields : Type := {
  f_amount : float;
  f_description : string;
  f_category_id : string;
  f_date : string
}.

(** The calls a handler makes, in the order it makes them: messages to
    the user, mutations sent to the store, and the fetches that refresh
    what a component displays. *)
Inductive Effect : Type :=
| toast_error (message : string)
| toast_success (message : string)
| upsert_budget (row : Store.Budget)
| insert_expense (user : string) (fields : ExpenseFields)
| update_expense (id : string) (fields : ExpenseFields)
| delete_expense (id : string)
| fetchBudget_called
| fetchMonthlySpending_called
| fetchExpenses_called
| fetchDashboardData_called
| fetchCategories_called
| subscribed (channel : string)
| onOpenChange_called (open : bool).

Definition isMutation (e : Effect) : bool :=
  match e with
  | upsert_budget _ | insert_expense _ _ | update_expense _ _ | delete_expense _ => true
  | _ => false
  end.

Definition isFetch (e : Effect) : bool :=
  match e with
  | fetchBudget_called | fetchMonthlySpending_called | fetchExpenses_called
  | fetchDashboardData_called => true
  | _ => false
  end.

End Effects.

(* ================================================================== *)
(** * BudgetTracker.tsx *)
(* ================================================================== *)

Module BudgetTracker.
Import JS Store Effects.

Record State : Type := {
  budget : option Budget;
  monthlySpending : float;
  dialogOpen : bool;
  budgetAmount : string
}.

Definition initialState : State := {|
  budget := None;
  monthlySpending := 0%float;
  dialogOpen := false;
  budgetAmount := ""
|}.

(** The template
    [`${now.getFullYear()}-${String(now.getMonth() + 1).padStart(2, "0")}-01`]
    that [fetchBudget], [fetchMonthlySpending] and [handleSetBudget] build. *)
Definition monthKey (tz : TimeZone) (now : Z) : string :=
  String_of (getFullYear tz now) ++ "-" ++ pad2 (getMonth tz now + 1) ++ "-01".

(** The select of [fetchBudget]: the rows of the month the signed-in
    user may see, and [.maybeSingle()]. *)
Definition budgetQuery (tz : TimeZone) (now : Z) (user : string)
  (table : list Budget) : option Budget :=
  maybeSingle (budgetsOf user (monthKey tz now) table).

(** The select of [fetchMonthlySpending]: [.gte("date", firstDayOfMonth)]. *)
Definition spendingQuery {A : Type} (tz : TimeZone) (now : Z)
  (rows : list (Expense A)) : list (Expense A) :=
  let firstDayOfMonth := monthKey tz now in
  gteDate firstDayOfMonth rows.

(** [data.reduce((sum, exp) => sum + Number(exp.amount), 0)]. *)
Definition calcTotal {A : Type} {AR : Arith A} (data : list (Expense A)) : A :=
  fold_left (fun sum exp => add sum (amount exp)) data zero.

(** [fetchMonthlySpending], from what its select returned. *)
Definition fetchMonthlySpending (data : option (list (Expense float))) (st : State) : State :=
  match data with
  | Some data =>
      {| budget := budget st;
         monthlySpending := calcTotal data;
         dialogOpen := dialogOpen st;
         budgetAmount := budgetAmount st |}
  | None => st
  end.

(** The monthly spending the component ends up with for a given table. *)
Definition calcMonthlySpending {A : Type} {AR : Arith A} (tz : TimeZone) (now : Z)
  (rows : list (Expense A)) : A :=
  calcTotal (spendingQuery tz now rows).

Section Handlers.
(** The language's [parseFloat] and the text [toString] gives a number. *)
Variable parseFloat : string -> float.
Variable toString : float -> string.

(** [fetchBudget], from what its select returned. *)
Definition fetchBudget (data : option Budget) (st : State) : State :=
  match data with
  | Some data =>
      {| budget := Some data;
         monthlySpending := monthlySpending st;
         dialogOpen := dialogOpen st;
         budgetAmount := toString (limit_amount data) |}
  | None => st
  end.

(** [isNaN(amount) || amount <= 0]. *)
Definition invalidAmount (amount : float) : bool :=
  isNaN amount || PrimFloat.leb amount 0.

(** [handleSetBudget]: [session] is the signed-in user, if any, and
    [resp] the answer of the store to the upsert when one is sent.  The
    result is the calls made, the table afterwards, and the new state. *)
Definition handleSetBudget (tz : TimeZone) (now : Z) (session : option string)
  (resp : Response) (table : list Budget) (st : State)
  : list Effect * list Budget * State :=
  let amount := parseFloat (budgetAmount st) in
  if invalidAmount amount then
    ([toast_error "Please enter a valid amount"], table, st)
  else
    let month := monthKey tz now in
    match session with
    | None => ([], table, st)
    | Some user =>
        let row := {| budget_user_id := user; month := month; limit_amount := amount |} in
        match resp with
        | Error _ =>
            ([upsert_budget row; toast_error "Failed to set budget"], table, st)
        | Ok =>
            ([upsert_budget row; toast_success "Budget set successfully";
              fetchBudget_called],
             upsert row table,
             {| budget := budget st;
                monthlySpending := monthlySpending st;
                dialogOpen := false;
                budgetAmount := budgetAmount st |})
        end
    end.

End Handlers.

(** The parts of what [handleSetBudget] returns. *)
Definition effectsOf (r : list Effect * list Budget * State) : list Effect := fst (fst r).
Definition tableAfter (r : list Effect * list Budget * State) : list Budget := snd (fst r).
Definition stateAfter (r : list Effect * list Budget * State) : State := snd r.

(** ** What is rendered *)

Definition percentage (st : State) : float :=
  match budget st with
  | Some b => ((monthlySpending st / limit_amount b) * 100)%float
  | None => 0%float
  end.

Definition isOverBudget (st : State) : bool := PrimFloat.ltb 100 (percentage st).

Definition isNearLimit (st : State) : bool :=
  PrimFloat.ltb 80 (percentage st) && PrimFloat.leb (percentage st) 100.

(** The two alerts, with the number each one prints (before [toFixed(2)]). *)
Inductive Alert : Type :=
| exceeded (by_amount : float)
| approaching (remaining : float).

(** The card when a budget is set: the progress bar, the percentage it
    prints (before [toFixed(1)]), and the alerts below it. *)
Record View : Type := {
  progressValue : float;
  progressClass : string;
  percentUsed : float;
  alerts : list Alert
}.

Definition render (st : State) : option View :=
  match budget st with
  | None => None
  | Some b =>
      Some {|
        progressValue := Math_min (percentage st) 100;
        progressClass :=
          if isOverBudget st then "bg-destructive/20"
          else if isNearLimit st then "bg-warning/20" else "";
        percentUsed := percentage st;
        alerts :=
          ((if isOverBudget st
            then [exceeded (monthlySpending st - limit_amount b)%float] else [])
           ++ (if isNearLimit st && negb (isOverBudget st)
               then [approaching (limit_amount b - monthlySpending st)%float] else []))%list
      |}
  end.

(** The state of the card for a budget row and a monthly spending. *)
Definition showing (b : Budget) (spend : float) (open : bool) (text : string) : State :=
  {| budget := Some b; monthlySpending := spend; dialogOpen := open; budgetAmount := text |}.

(** The alerts the card shows ([None]: no budget is set). *)
Definition shown (st : State) : option (list Alert) := option_map alerts (render st).

(** [useEffect(..., [])]: what the component calls when it mounts. *)
Definition onMount : list Effect := [fetchBudget_called; fetchMonthlySpending_called].

End BudgetTracker.

(* ================================================================== *)
(** * ExpenseDialog.tsx *)
(* ================================================================== *)

Module ExpenseDialog.
Import JS Store Effects.

(** The form state: every field is the text of its input. *)
Record FormData : Type := {
  form_amount : string;
  form_description : string;
  form_category_id : string;
  form_date : string
}.

Section Handlers.
(** The language's [parseFloat], and the test behind [z.string().uuid()]. *)
Variable parseFloat : string -> float.
Variable isUuid : string -> bool.

(** The issues of each field of [expenseSchema], by their messages, in
    the order the library reports them. *)
Definition amountIssues (amount : float) : list string :=
  if isNaN amount then ["Expected number, received nan"]
  else if PrimFloat.ltb 0 amount then []
  else ["Amount must be positive"].

(** [min(1)] and [max(200)] compare [description.length], the number of
    UTF-16 code units. *)
Definition descriptionIssues (description : string) : list string :=
  ((if (String_length description <? 1)%nat then ["Description is required"] else [])
   ++ (if (200 <? String_length description)%nat
       then ["String must contain at most 200 character(s)"] else []))%list.

Definition categoryIssues (category_id : string) : list string :=
  if isUuid category_id then [] else ["Please select a category"].

(** [min(1)] on the date only tells the empty text from the others,
    and a text is empty exactly when its bytes are. *)
Definition dateIssues (date : string) : list string :=
  if (String.length date <? 1)%nat then ["Date is required"] else [].

(** [expenseSchema.parse]: the validated fields, or the issues found. *)
Definition expenseSchema_parse (amount : float) (formData : FormData)
  : ExpenseFields + list string :=
  let issues :=
    (amountIssues amount ++ descriptionIssues (form_description formData)
     ++ categoryIssues (form_category_id formData)
     ++ dateIssues (form_date formData))%list in
  match issues with
  | [] =>
      inl {| f_amount := amount;
             f_description := form_description formData;
             f_category_id := form_category_id formData;
             f_date := form_date formData |}
  | _ => inr issues
  end.

(** [handleSubmit]: [expense] is the id of the expense being edited, if
    any; [session] the signed-in user; [resp] the answer of the store to
    the write when one is sent. *)
Definition handleSubmit (formData : FormData) (expense : option string)
  (session : option string) (resp : Response) : list Effect :=
  match expenseSchema_parse (parseFloat (form_amount formData)) formData with
  | inr issues => [toast_error (hd "" issues)]
  | inl validated =>
      match session with
      | None => [toast_error "Not authenticated"]
      | Some user =>
          let write :=
            match expense with
            | Some id => update_expense id validated
            | None => insert_expense user validated
            end in
          match resp with
          | Error message =>
              [write; toast_error (orString (Some message) "Failed to save expense")]
          | Ok =>
              [write;
               toast_success
                 (match expense with
                  | Some _ => "Expense updated successfully"
                  | None => "Expense added successfully"
                  end);
               onOpenChange_called false]
          end
      end
  end.

End Handlers.

(** The shape [8-4-4-4-12] of hexadecimal digits. *)
Definition isHex (a : ascii) : bool :=
  let n := nat_of_ascii a in
  ((48 <=? n) && (n <=? 57) || (65 <=? n) && (n <=? 70) || (97 <=? n) && (n <=? 102))%nat.

Fixpoint allHex (s : string) : bool :=
  match s with
  | EmptyString => true
  | String a r => isHex a && allHex r
  end.

Definition uuidShape (s : string) : bool :=
  (String.length s =? 36)%nat
  && allHex (substring 0 8 s) && String.eqb (substring 8 1 s) "-"
  && allHex (substring 9 4 s) && String.eqb (substring 13 1 s) "-"
  && allHex (substring 14 4 s) && String.eqb (substring 18 1 s) "-"
  && allHex (substring 19 4 s) && String.eqb (substring 23 1 s) "-"
  && allHex (substring 24 12 s).

(** The date a new form starts with,
    [new Date().toISOString().split("T")[0]]. *)
Definition defaultDate (now : Z) : string := splitHead "T" (toISOString now).

Section Form.
(** The text [toString] gives a number. *)
Variable toString : float -> string.

(** The form the effect on [expense] sets: the fields of the expense
    being edited, or the empty form of a new one. *)
Definition formFor (expense : option (Expense float)) (now : Z) : FormData :=
  match expense with
  | Some e =>
      {| form_amount := toString (amount e);
         form_description := orString (description e) "";
         form_category_id := orString (category_id e) "";
         form_date := date e |}
  | None =>
      {| form_amount := "";
         form_description := "";
         form_category_id := "";
         form_date := defaultDate now |}
  end.

End Form.

Definition onMount : list Effect := [fetchCategories_called].

End ExpenseDialog.

(* ================================================================== *)
(** * ExpenseList.tsx *)
(* ================================================================== *)

Module ExpenseList.
Import JS Store Effects.

Section List.
Context {A : Type}.

Record State : Type := {
  expenses : list (Expense A);
  dialogOpen : bool;
  editingExpense : option (Expense A)
}.

Definition initialState : State := {|
  expenses := [];
  dialogOpen := false;
  editingExpense := None
|}.

(** The select of [fetchExpenses]: most recent first, [.limit(50)]. *)
Definition query (rows : list (Expense A)) : list (Expense A) :=
  limit 50 (orderByDateDesc rows).

(** [fetchExpenses], from what its select returned. *)
Definition fetchExpenses (data : option (list (Expense A))) (st : State) : State :=
  match data with
  | Some data =>
      {| expenses := data; dialogOpen := dialogOpen st; editingExpense := editingExpense st |}
  | None => st
  end.

Definition handleEdit (expense : Expense A) (st : State) : State :=
  {| expenses := expenses st; dialogOpen := true; editingExpense := Some expense |}.

Definition handleDialogClose (st : State) : State :=
  {| expenses := expenses st; dialogOpen := false; editingExpense := None |}.

Definition openDialog (st : State) : State :=
  {| expenses := expenses st; dialogOpen := true; editingExpense := editingExpense st |}.

(** What can happen to the component: a fetch completes against some
    content of the table (or returns nothing), or the user opens, edits
    or closes the dialog. *)
Inductive step : State -> State -> Prop :=
| step_fetch : forall rows st, step st (fetchExpenses (Some (query rows)) st)
| step_fetch_failed : forall st, step st (fetchExpenses None st)
| step_edit : forall e st, step st (handleEdit e st)
| step_open : forall st, step st (openDialog st)
| step_close : forall st, step st (handleDialogClose st).

Inductive reachable : State -> Prop :=
| reach_initial : reachable initialState
| reach_step : forall st st', reachable st -> step st st' -> reachable st'.

End List.

Arguments State A : clear implicits.

(** [handleDelete]: [resp] is the answer of the store to the delete. *)
Definition handleDelete (id : string) (resp : Response) : list Effect :=
  match resp with
  | Error _ => [delete_expense id; toast_error "Failed to delete expense"]
  | Ok => [delete_expense id; toast_success "Expense deleted"]
  end.

(** [useEffect(..., [])]: the first fetch and the subscription to the
    changes of the [expenses] table. *)
Definition onMount : list Effect := [fetchExpenses_called; subscribed "expenses-changes"].

(** The callback of the subscription. *)
Definition onPostgresChanges : list Effect := [fetchExpenses_called].

(** What a row of the list shows of an expense, as far as it is text:
    the title, the name of the category, its icon, and the background
    colour of the icon (the colour of the category followed by "20").
    The amount ([toFixed]) and the date ([toLocaleDateString]) are left
    to the host. *)
Record Row : Type := {
  row_title : string;
  row_category : string;
  row_icon : string;
  row_background : string
}.

Definition renderRow {A : Type} (expense : Expense A) : Row :=
  {| row_title := orString (description expense) "Untitled";
     row_category := orString (option_map name (expense_categories expense)) "Other";
     row_icon :=
       orString (match expense_categories expense with
                 | Some c => icon c
                 | None => None
                 end) "💰";
     row_background :=
       match expense_categories expense with
       | Some c => color c
       | None => "undefined"
       end ++ "20" |}.

(** The body of the card: the invitation to add a first expense when the
    list is empty, otherwise one row per expense. *)
Inductive Body : Type :=
| no_expenses_yet
| rows (l : list Row).

Definition renderBody {A : Type} (st : State A) : Body :=
  match expenses st with
  | [] => no_expenses_yet
  | l => rows (map renderRow l)
  end.

End ExpenseList.

(* ================================================================== *)
(** * The page: the components together *)
(* ================================================================== *)

Module Page.
Import Effects.

(** [useEffect(() => { fetchDashboardData(); }, [])] of the dashboard. *)
Definition dashboardOnMount : list Effect := [fetchDashboardData_called].

(** Everything called when the page is first shown. *)
Definition onLoad : list Effect :=
  (dashboardOnMount ++ BudgetTracker.onMount ++ ExpenseList.onMount
   ++ ExpenseDialog.onMount)%list.

(** What the mounted components call when the store announces a change
    of a table: only the expense list has subscribed, and only to
    [expenses]. *)
Definition onStoreChange (table : string) : list Effect :=
  if String.eqb table "expenses" then ExpenseList.onPostgresChanges else [].

(** The calls that follow a handler's run: its own, then those the
    change notification triggers when the store delivers one for the
    table the handler wrote to. *)
Definition thenNotified (handler : list Effect) (table : string) (delivered : bool)
  : list Effect :=
  (handler ++ (if delivered then onStoreChange table else []))%list.

(** The fetches issued after the first mutation of a run of calls. *)
Fixpoint fetchesAfterMutation (run : list Effect) : list Effect :=
  match run with
  | [] => []
  | e :: rest => if isMutation e then filter isFetch rest else fetchesAfterMutation rest
  end.

(** Whether the store's policies let the user [uid] make a call: an
    inserted or upserted row must carry the user's own id; updates and
    deletes only ever reach the user's own rows. *)
Definition allowedFor (uid : string) (e : Effect) : bool :=
  match e with
  | insert_expense user _ => String.eqb uid user
  | upsert_budget row => Store.ownBudget uid row
  | _ => true
  end.

End Page.

(* ================================================================== *)
(** * Sample data *)
(* ================================================================== *)

Module Examples.
Import JS Store.

Definition categoryNamed (n c : string) : Category :=
  {| name := n; color := c; icon := None |}.

Definition expenseOf {A : Type} (i : string) (a : A) (d : string) (c : option Category)
  : Expense A :=
  {| id := i; user_id := "u1"; category_id := None; amount := a;
     description := None; date := d; expense_categories := c |}.

Definition food : Category := categoryNamed "Food" "#F59E0B".
Definition travel : Category := categoryNamed "Travel" "#14B8A6".

(** Three expenses of the first days of March 2024, in whole units. *)
Definition march : list (Expense float) :=
  [ expenseOf "e1" 10%float "2024-03-01" (Some food);
    expenseOf "e2" 5%float "2024-03-01" (Some food);
    expenseOf "e3" 20%float "2024-03-02" (Some travel) ].

(** The same in minor units. *)
Definition marchMinor : list (Expense Z) :=
  [ expenseOf "e1" 1000 "2024-03-01" (Some food);
    expenseOf "e2" 500 "2024-03-01" (Some food);
    expenseOf "e3" 2000 "2024-03-02" None ].

Definition marchMinorReordered : list (Expense Z) :=
  [ expenseOf "e3" 2000 "2024-03-02" None;
    expenseOf "e1" 1000 "2024-03-01" (Some food);
    expenseOf "e2" 500 "2024-03-01" (Some food) ].

(** Amounts of 0.10, 0.20 and 0.30, as the store sends them. *)
Definition tenths : list (Expense float) :=
  [ expenseOf "e1" 0.1%float "2024-03-01" (Some food);
    expenseOf "e2" 0.2%float "2024-03-01" (Some travel);
    expenseOf "e3" 0.3%float "2024-03-02" (Some travel) ].

Definition tenthsReordered : list (Expense float) :=
  [ expenseOf "e3" 0.3%float "2024-03-02" (Some travel);
    expenseOf "e2" 0.2%float "2024-03-01" (Some travel);
    expenseOf "e1" 0.1%float "2024-03-01" (Some food) ].

(** A table of budgets with a row of user u1 for March 2024. *)
Definition budgets : list Budget :=
  [ {| budget_user_id := "u2"; month := "2024-03-01"; limit_amount := 75%float |};
    {| budget_user_id := "u1"; month := "2024-03-01"; limit_amount := 50%float |};
    {| budget_user_id := "u1"; month := "2024-02-01"; limit_amount := 40%float |} ].

(** The budget card with a text typed into the dialog. *)
Definition typed (text : string) : BudgetTracker.State :=
  {| BudgetTracker.budget := None;
     BudgetTracker.monthlySpending := 0%float;
     BudgetTracker.dialogOpen := true;
     BudgetTracker.budgetAmount := text |}.

(** A valid category id and a form of the expense dialog. *)
Definition foodId : string := "3f2504e0-4f89-41d3-9a0c-0305e82c3301".

Definition lunch (description : string) : ExpenseDialog.FormData :=
  {| ExpenseDialog.form_amount := "12.50";
     ExpenseDialog.form_description := description;
     ExpenseDialog.form_category_id := foodId;
     ExpenseDialog.form_date := "2024-03-01" |}.

(** Five hours behind UTC all year. *)
Definition utcMinus5 : TimeZone := fixedZone (-5 * msPerHour).

(** New York around the end of daylight saving time in 2025: four hours
    behind UTC until 2025-11-02T06:00Z (2 a.m. local), five afterwards. *)
Definition newYork2025 : TimeZone := {|
  offsetAt := fun t =>
    if t <? MakeDate (MakeDay 2025 10 2) (MakeTime 6 0 0 0)
    then -4 * msPerHour else -5 * msPerHour;
  offsetOfLocal := fun l =>
    if l <? MakeDate (MakeDay 2025 10 2) (MakeTime 2 0 0 0)
    then -4 * msPerHour else -5 * msPerHour
|}.

(** 2024-03-02T17:00:00Z, noon of March 2 five hours behind UTC. *)
Definition march2 : Z := MakeDate (MakeDay 2024 2 2) (MakeTime 17 0 0 0).

(** 2025-11-04T00:30:00Z, 7:30 p.m. of November 3 in New York. *)
Definition november3Evening : Z := MakeDate (MakeDay 2025 10 4) (MakeTime 0 30 0 0).

(** One expense dated 2025-11-02. *)
Definition november2 : list (Expense float) :=
  [ expenseOf "e1" 42%float "2025-11-02" (Some food) ].



(** 2024-03-05T12:00:00Z. *)
Definition march5 : Z := MakeDate (MakeDay 2024 2 5) (MakeTime 12 0 0 0).

(** A table with 0.10, 0.20 and 0.30 spent on three successive days. *)
Definition tenthsByDay : list (Expense float) :=
  [ expenseOf "e1" 0.1%float "2024-03-01" (Some food);
    expenseOf "e2" 0.2%float "2024-03-02" (Some travel);
    expenseOf "e3" 0.3%float "2024-03-03" (Some travel) ].

(** One cent on 5 March, one cent and four cents on 4 March, most recent
    first, as the select of the dashboard may return them. *)
Definition cents : list (Expense float) :=
  [ expenseOf "e3" 0.01%float "2024-03-05" None;
    expenseOf "e2" 0.01%float "2024-03-04" None;
    expenseOf "e1" 0.04%float "2024-03-04" None ].

(** A description of 101 accented letters: 101 code units, 202 bytes. *)
Definition accented : string := String.concat "" (repeat "é" 101).

End Examples.

(* ================================================================== *)
(** * Sums *)
(* ================================================================== *)

Import JS.

Section Sums.
Import JS.
Context {A : Type} {AR : Arith A}.

Lemma fold_add_snoc {B : Type} (g : B -> A) (l : list B) (x : B) (a : A) :
  fold_left (fun s e => add s (g e)) (l ++ [x]) a
  = add (fold_left (fun s e => add s (g e)) l a) (g x).
Proof. now rewrite fold_left_app. Qed.

Context {EX : ExactArith A}.

Lemma add_zero_r (a : A) : add a zero = a.
Proof. rewrite add_comm. apply add_zero_l. Qed.

Lemma add_swap_r (a b c : A) : add (add a b) c = add (add a c) b.
Proof. rewrite <- !add_assoc. f_equal. apply add_comm. Qed.

Lemma fold_add_acc {B : Type} (g : B -> A) (l : list B) (a : A) :
  fold_left (fun s e => add s (g e)) l a = add a (total (map g l)).
Proof.
  revert a. induction l as [|x l IH]; intros a; simpl.
  - now rewrite add_zero_r.
  - rewrite IH. now rewrite add_assoc.
Qed.

Lemma fold_add_total {B : Type} (g : B -> A) (l : list B) :
  fold_left (fun s e => add s (g e)) l zero = total (map g l).
Proof. rewrite fold_add_acc. apply add_zero_l. Qed.

Lemma total_app (l1 l2 : list A) : total (l1 ++ l2) = add (total l1) (total l2).
Proof.
  induction l1 as [|a l1 IH]; simpl.
  - now rewrite add_zero_l.
  - now rewrite IH, add_assoc.
Qed.

Lemma total_Permutation (l1 l2 : list A) :
  Permutation l1 l2 -> total l1 = total l2.
Proof.
  induction 1 as [|x l l' _ IH|x y l|l l' l'' _ IH1 _ IH2]; simpl.
  - reflexivity.
  - now rewrite IH.
  - rewrite !add_assoc. f_equal. apply add_comm.
  - now rewrite IH1.
Qed.

End Sums.

(* ================================================================== *)
(** * Dashboard: total spend and the category summary *)
(* ================================================================== *)

Section CategoryMapFacts.
Import JS Store Dashboard.
Context {A : Type} {AR : Arith A}.

Lemma Map_get_set (m : CategoryMap A) (k k' : string) (v : CategoryData A) :
  Map_get (Map_set m k v) k' = if String.eqb k k' then Some v else Map_get m k'.
Proof.
  induction m as [|[k0 v0] m IH]; simpl.
  - reflexivity.
  - destruct (String.eqb_spec k0 k) as [->|Hne]; simpl.
    + destruct (String.eqb_spec k k'); reflexivity.
    + rewrite IH. destruct (String.eqb_spec k0 k') as [->|Hne'].
      * destruct (String.eqb_spec k k') as [->|]; [congruence | reflexivity].
      * reflexivity.
Qed.

Lemma Map_set_keys (m : CategoryMap A) (k : string) (v : CategoryData A) :
  map fst (Map_set m k v)
  = match Map_get m k with
    | Some _ => map fst m
    | None => (map fst m ++ [k])%list
    end.
Proof.
  induction m as [|[k0 v0] m IH]; simpl.
  - reflexivity.
  - destruct (String.eqb_spec k0 k) as [->|Hne]; simpl.
    + reflexivity.
    + rewrite IH. now destruct (Map_get m k).
Qed.

Lemma Map_get_None (m : CategoryMap A) (k : string) :
  Map_get m k = None <-> ~ In k (map fst m).
Proof.
  induction m as [|[k0 v0] m IH]; simpl.
  - tauto.
  - destruct (String.eqb_spec k0 k) as [->|Hne].
    + split; [discriminate | intros H; exfalso; apply H; now left].
    + rewrite IH. tauto.
Qed.

Lemma Map_get_In (m : CategoryMap A) (k : string) (v : CategoryData A) :
  NoDup (map fst m) -> (In (k, v) m <-> Map_get m k = Some v).
Proof.
  induction m as [|[k0 v0] m IH]; simpl; intros Hnd.
  - split; [tauto | discriminate].
  - inversion Hnd as [|? ? Hnotin Hnd']; subst.
    destruct (String.eqb_spec k0 k) as [->|Hne].
    + split.
      * intros [Heq | Hin]; [congruence |].
        exfalso. apply Hnotin. now apply (in_map fst) in Hin.
      * intros Heq. left. congruence.
    + rewrite <- (IH Hnd'). split; [intros [Heq|]; [congruence | assumption] | tauto].
Qed.

Lemma buildCategoryMap_snoc (es : list (Expense A)) (e : Expense A) :
  buildCategoryMap (es ++ [e]) = addToCategory (buildCategoryMap es) e.
Proof. unfold buildCategoryMap. now rewrite fold_left_app. Qed.

Lemma sumAmounts_snoc (es : list (Expense A)) (e : Expense A) :
  sumAmounts (es ++ [e]) = add (sumAmounts es) (amount e).
Proof. unfold sumAmounts. now rewrite fold_left_app. Qed.

Lemma inCategory_snoc (k : string) (es : list (Expense A)) (e : Expense A) :
  inCategory k (es ++ [e])
  = if String.eqb (categoryOf e) k then (inCategory k es ++ [e])%list else inCategory k es.
Proof.
  unfold inCategory. rewrite filter_app. simpl.
  destruct (String.eqb (categoryOf e) k); [reflexivity | apply app_nil_r].
Qed.

(** What the map holds for a category: nothing when no expense has it,
    otherwise the left-to-right sum of the amounts of its expenses and
    the colour of the last of them. *)
Lemma buildCategoryMap_get (es : list (Expense A)) (k : string) :
  Map_get (buildCategoryMap es) k
  = match inCategory k es with
    | [] => None
    | e :: rest =>
        Some {| data_amount := sumAmounts (inCategory k es);
                data_color := colorOf (last rest e) |}
    end.
Proof.
  induction es as [|e es IH] using rev_ind.
  - reflexivity.
  - rewrite buildCategoryMap_snoc, inCategory_snoc.
    unfold addToCategory. rewrite Map_get_set.
    destruct (String.eqb_spec (categoryOf e) k) as [Heq|Hne].
    + subst k. rewrite IH.
      destruct (inCategory (categoryOf e) es) as [|e0 rest] eqn:Hin.
      * reflexivity.
      * cbn [app data_amount]. rewrite last_last.
        change (e0 :: rest ++ [e])%list with ((e0 :: rest) ++ [e])%list.
        now rewrite sumAmounts_snoc.
    + exact IH.
Qed.

Lemma buildCategoryMap_NoDup (es : list (Expense A)) :
  NoDup (map fst (buildCategoryMap es)).
Proof.
  induction es as [|e es IH] using rev_ind.
  - constructor.
  - rewrite buildCategoryMap_snoc. unfold addToCategory. rewrite Map_set_keys.
    destruct (Map_get (buildCategoryMap es) (categoryOf e)) eqn:Hget.
    + exact IH.
    + apply Map_get_None in Hget.
      apply NoDup_rev in IH. rewrite <- (rev_involutive (_ ++ _)).
      apply NoDup_rev. rewrite rev_app_distr. simpl.
      constructor; [|exact IH]. now rewrite <- in_rev.
Qed.

Lemma calcCategorySummary_keys (es : list (Expense A)) :
  map category (calcCategorySummary es) = map fst (buildCategoryMap es).
Proof. unfold calcCategorySummary. rewrite map_map. reflexivity. Qed.

Lemma inCategory_nonempty (k : string) (es : list (Expense A)) :
  inCategory k es <> [] <-> exists e, In e es /\ categoryOf e = k.
Proof.
  unfold inCategory. split.
  - destruct (filter _ es) as [|e rest] eqn:Hf; [congruence | intros _].
    assert (Hin : In e (filter (fun e => String.eqb (categoryOf e) k) es))
      by (rewrite Hf; now left).
    apply filter_In in Hin. destruct Hin as [Hin Heq].
    exists e. split; [assumption | now apply String.eqb_eq].
  - intros [e [Hin Heq]] Hnil.
    assert (Hin' : In e (filter (fun e => String.eqb (categoryOf e) k) es))
      by (apply filter_In; split; [assumption | now apply String.eqb_eq]).
    rewrite Hnil in Hin'. exact Hin'.
Qed.

(** The buckets are exactly the categories of the expenses. *)
Lemma calcCategorySummary_covers (es : list (Expense A)) (k : string) :
  In k (map category (calcCategorySummary es))
  <-> exists e, In e es /\ categoryOf e = k.
Proof.
  rewrite calcCategorySummary_keys, <- inCategory_nonempty.
  pose proof (Map_get_None (buildCategoryMap es) k) as Hnone.
  rewrite buildCategoryMap_get in Hnone.
  destruct (inCategory k es) as [|e rest].
  - split; [intros Hin; exfalso; now apply (proj1 Hnone) | congruence].
  - split; [discriminate | intros _].
    destruct (in_dec string_dec k (map fst (buildCategoryMap es))) as [|Hn]; [assumption|].
    apply Hnone in Hn. discriminate.
Qed.

(** The amount of a bucket is the left-to-right sum of the amounts of
    the expenses of its category. *)
Lemma calcCategorySummary_amount (es : list (Expense A)) (b : CategoryTotal A) :
  In b (calcCategorySummary es) ->
  total_amount b = sumAmounts (inCategory (category b) es).
Proof.
  unfold calcCategorySummary. intros Hin.
  apply in_map_iff in Hin. destruct Hin as [[k v] [Hb Hin]]. subst b. simpl.
  apply (Map_get_In _ _ _ (buildCategoryMap_NoDup es)) in Hin.
  rewrite buildCategoryMap_get in Hin.
  destruct (inCategory k es); [discriminate|]. now inversion Hin.
Qed.

End CategoryMapFacts.

Section ExactTotals.
Import JS Store Dashboard.
Context {A : Type} {AR : Arith A} {EX : ExactArith A}.

Lemma Map_set_total (m : CategoryMap A) (k c : string) (x : A) :
  total (map (fun e => data_amount (snd e))
           (Map_set m k
              {| data_amount :=
                   add (data_amount
                          match Map_get m k with
                          | Some cur => cur
                          | None => {| data_amount := zero; data_color := c |}
                          end) x;
                 data_color := c |}))
  = add (total (map (fun e => data_amount (snd e)) m)) x.
Proof.
  induction m as [|[k0 v0] m IH]; simpl.
  - now rewrite add_zero_r.
  - destruct (String.eqb_spec k0 k) as [->|Hne]; simpl.
    + apply add_swap_r.
    + rewrite IH. apply add_assoc.
Qed.

Lemma buildCategoryMap_total (es : list (Expense A)) :
  total (map (fun e => data_amount (snd e)) (buildCategoryMap es))
  = total (map amount es).
Proof.
  induction es as [|e es IH] using rev_ind.
  - reflexivity.
  - rewrite buildCategoryMap_snoc. unfold addToCategory, Number.
    rewrite Map_set_total, IH, map_app, total_app. simpl.
    now rewrite add_zero_r.
Qed.

Lemma sumBuckets_total (es : list (Expense A)) :
  sumBuckets (calcCategorySummary es) = total (map amount es).
Proof.
  unfold sumBuckets. rewrite fold_add_total.
  unfold calcCategorySummary. rewrite map_map. simpl.
  apply buildCategoryMap_total.
Qed.

Lemma calcTotalExpenses_total (es : list (Expense A)) :
  calcTotalExpenses es = total (map amount es).
Proof. unfold calcTotalExpenses, sumAmounts, Number. apply fold_add_total. Qed.

End ExactTotals.

(** Two numbers are distinct when the comparison [==] tells them apart
    and the first is not a NaN. *)
Lemma float_distinct (x y : float) :
  PrimFloat.eqb x y = false -> PrimFloat.eqb x x = true -> x <> y.
Proof. intros Hxy Hxx Heq. subst y. congruence. Qed.

(** Distinct keys: two entries with the same key are the same entry. *)
Lemma NoDup_map_same {B C : Type} (f : B -> C) (l : list B) (x y : B) :
  NoDup (map f l) -> In x l -> In y l -> f x = f y -> x = y.
Proof.
  induction l as [|z l IH]; simpl; intros Hnd Hx Hy Heq; [contradiction|].
  inversion Hnd as [|? ? Hnot Hnd']; subst.
  destruct Hx as [->|Hx], Hy as [->|Hy].
  - reflexivity.
  - exfalso. apply Hnot. rewrite Heq. now apply in_map.
  - exfalso. apply Hnot. rewrite <- Heq. now apply in_map.
  - now apply IH.
Qed.

(** C1, as amended.  On every arithmetic, the numbers the code adds
    included: the buckets of the category summary carry pairwise
    distinct names; every expense has exactly one bucket, that of its
    category name ("Other" when it has no category or an empty name);
    every bucket has at least one expense, and its amount is the sum,
    from 0 and from left to right, of the amounts of the expenses of its
    category.  When amounts add up exactly (an associative and
    commutative addition with unit 0, as for amounts in minor units),
    the amounts of the buckets add up to the total spend. *)
Theorem category_summary_partition {A : Type} {AR : JS.Arith A}
  (expenses : list (Store.Expense A)) :
  let summary := Dashboard.calcCategorySummary expenses in
  NoDup (map Dashboard.category summary)
  /\ (forall e, In e expenses ->
        exists b, In b summary
                  /\ Dashboard.category b = Dashboard.categoryOf e
                  /\ forall b', In b' summary ->
                       Dashboard.category b' = Dashboard.categoryOf e -> b' = b)
  /\ (forall b, In b summary ->
        Dashboard.inCategory (Dashboard.category b) expenses <> []
        /\ Dashboard.total_amount b
           = fold_left (fun sum exp => JS.add sum (Store.amount exp))
               (Dashboard.inCategory (Dashboard.category b) expenses) JS.zero)
  /\ (JS.ExactArith A ->
        Dashboard.sumBuckets summary = Dashboard.calcTotalExpenses expenses).
Proof.
  intros summary.
  assert (Hnd : NoDup (map Dashboard.category summary))
    by (unfold summary; rewrite calcCategorySummary_keys; apply buildCategoryMap_NoDup).
  split; [exact Hnd|]. split; [|split].
  - intros e Hin.
    assert (Hk : In (Dashboard.categoryOf e) (map Dashboard.category summary))
      by (apply calcCategorySummary_covers; now exists e).
    apply in_map_iff in Hk. destruct Hk as [b [Hb Hinb]].
    exists b. split; [exact Hinb|]. split; [exact Hb|].
    intros b' Hinb' Hb'.
    apply (NoDup_map_same Dashboard.category summary b' b Hnd Hinb' Hinb). congruence.
  - intros b Hin. split.
    + apply inCategory_nonempty. apply calcCategorySummary_covers.
      now apply in_map.
    + exact (calcCategorySummary_amount _ _ Hin).
  - intros EX. unfold summary. now rewrite sumBuckets_total, calcTotalExpenses_total.
Qed.

(** The partition on the numbers 0.1, 0.2 and 0.3, where the second and
    the third expense share a bucket, and the sum on three expenses in
    minor units, one of them without category. *)
Lemma category_summary_partition_witness :
  NoDup (map Dashboard.category (Dashboard.calcCategorySummary Examples.tenths))
  /\ Dashboard.sumBuckets (Dashboard.calcCategorySummary Examples.marchMinor)
     = Dashboard.calcTotalExpenses Examples.marchMinor
  /\ map Dashboard.category (Dashboard.calcCategorySummary Examples.marchMinor)
     = ["Food"; "Other"]
  /\ Dashboard.calcTotalExpenses Examples.marchMinor = 3500.
Proof.
  split.
  - exact (proj1 (category_summary_partition Examples.tenths)).
  - split.
    + exact (proj2 (proj2 (proj2 (category_summary_partition Examples.marchMinor)))
               minorUnits_exact).
    + split; reflexivity.
Defined.

(** C1, as stated, fails on JavaScript numbers: with amounts 0.10 (Food),
    0.20 and 0.30 (Travel) the buckets hold 0.1 and 0.5, which add up to
    0.6, while the total spend is 0.6000000000000001. *)
Lemma category_summary_partition_fails_on_numbers :
  map (fun b => (Dashboard.category b, Dashboard.total_amount b))
      (Dashboard.calcCategorySummary Examples.tenths)
  = [("Food", 0.1%float); ("Travel", 0.5%float)]
  /\ Dashboard.sumBuckets (Dashboard.calcCategorySummary Examples.tenths)
     <> Dashboard.calcTotalExpenses Examples.tenths.
Proof.
  split.
  - vm_compute. reflexivity.
  - apply float_distinct; vm_compute; reflexivity.
Qed.

(** C5, as amended.  On every arithmetic, the numbers the code adds
    included, the total spend of a sequence (empty or not) is the sum of
    its amounts from 0 and from left to right: 0 for the empty sequence,
    and the total so far plus the amount of the expense that comes
    last.  When amounts add up exactly, it is the sum of the amounts of
    the expenses, the same for every reordering of the sequence. *)
Theorem total_spend_exact {A : Type} {AR : JS.Arith A}
  (expenses expenses' : list (Store.Expense A)) (e : Store.Expense A) :
  Dashboard.calcTotalExpenses (@nil (Store.Expense A)) = JS.zero
  /\ Dashboard.calcTotalExpenses (expenses ++ [e])
     = JS.add (Dashboard.calcTotalExpenses expenses) (Store.amount e)
  /\ Dashboard.calcTotalExpenses expenses
     = fold_left (fun sum exp => JS.add sum (Store.amount exp)) expenses JS.zero
  /\ (JS.ExactArith A ->
        Dashboard.calcTotalExpenses expenses = JS.total (map Store.amount expenses)
        /\ (Permutation expenses expenses' ->
            Dashboard.calcTotalExpenses expenses = Dashboard.calcTotalExpenses expenses')).
Proof.
  split; [reflexivity|]. split; [apply sumAmounts_snoc|]. split; [reflexivity|].
  intros EX. split.
  - apply calcTotalExpenses_total.
  - intros Hperm. rewrite !calcTotalExpenses_total.
    apply total_Permutation. now apply Permutation_map.
Qed.

(** The total of the numbers 0.1, 0.2 and 0.3 is the total of the first
    two plus 0.3; the total of three expenses in minor units, in two
    orders. *)
Lemma total_spend_exact_witness :
  Dashboard.calcTotalExpenses Examples.tenths
  = (Dashboard.calcTotalExpenses (firstn 2 Examples.tenths) + 0.3)%float
  /\ Dashboard.calcTotalExpenses Examples.marchMinor = 3500
  /\ Dashboard.calcTotalExpenses Examples.marchMinor
     = Dashboard.calcTotalExpenses Examples.marchMinorReordered.
Proof.
  split.
  - exact (proj1 (proj2 (total_spend_exact (firstn 2 Examples.tenths) []
                           (Examples.expenseOf "e3" 0.3%float "2024-03-02"
                              (Some Examples.travel))))).
  - split.
    + exact (proj1 (proj2 (proj2 (proj2
               (total_spend_exact Examples.marchMinor Examples.marchMinorReordered
                  (Examples.expenseOf "e0" 0 "2024-03-01" None))))
               minorUnits_exact)).
    + apply (proj2 (proj2 (proj2 (proj2
               (total_spend_exact Examples.marchMinor Examples.marchMinorReordered
                  (Examples.expenseOf "e0" 0 "2024-03-01" None))))
               minorUnits_exact)).
      unfold Examples.marchMinor, Examples.marchMinorReordered.
      eapply perm_trans; [| apply perm_swap].
      apply perm_skip. apply perm_swap.
Defined.

(** C5, as stated, fails on JavaScript numbers: the amounts 0.1, 0.2, 0.3
    add up to 0.6000000000000001 in this order and to 0.6 in the reverse
    order. *)
Lemma total_spend_depends_on_order :
  Examples.tenths <> []
  /\ Permutation Examples.tenths Examples.tenthsReordered
  /\ Dashboard.calcTotalExpenses Examples.tenths
     <> Dashboard.calcTotalExpenses Examples.tenthsReordered.
Proof.
  split; [discriminate|]. split.
  - unfold Examples.tenths, Examples.tenthsReordered.
    eapply perm_trans; [apply perm_skip, perm_swap|].
    eapply perm_trans; [apply perm_swap|].
    apply perm_skip, perm_swap.
  - apply float_distinct; vm_compute; reflexivity.
Qed.

(* ================================================================== *)
(** * BudgetTracker: the evaluation of the budget *)
(* ================================================================== *)

Section NumberOrder.
Import SpecFloat.

Lemma compare_cont_Eq_antisym (m1 m2 : positive) :
  Pos.compare_cont Eq m2 m1 = CompOpp (Pos.compare_cont Eq m1 m2).
Proof. exact (Pos.compare_antisym m1 m2). Qed.

Lemma SFcompare_antisym (x y : spec_float) :
  SFcompare y x = option_map CompOpp (SFcompare x y).
Proof.
  destruct x as [sx|sx| |sx mx ex], y as [sy|sy| |sy my ey]; simpl;
    try reflexivity;
    try (destruct sx; destruct sy; reflexivity);
    try (destruct sx; reflexivity);
    try (destruct sy; reflexivity).
  destruct sx, sy; simpl; try reflexivity;
    rewrite (Z.compare_antisym ex ey), (compare_cont_Eq_antisym mx my);
    destruct (ex ?= ey)%Z; simpl; try reflexivity;
    destruct (Pos.compare_cont Eq mx my); reflexivity.
Qed.

(** [p <= q] excludes [q < p]. *)
Lemma number_le_not_gt (p q : float) :
  PrimFloat.leb p q = true -> PrimFloat.ltb q p = false.
Proof.
  rewrite FloatAxioms.leb_spec, FloatAxioms.ltb_spec.
  unfold SFleb, SFltb. rewrite (SFcompare_antisym (Prim2SF p) (Prim2SF q)).
  destruct (SFcompare (Prim2SF p) (Prim2SF q)) as [[| |]|]; simpl; congruence.
Qed.

(** Below a number with the same exponent and a smaller mantissa. *)
Lemma finite_above (m1 m2 : positive) (e : Z) (x : spec_float) :
  (m2 < m1)%positive ->
  SFltb (S754_finite false m1 e) x = true -> SFltb (S754_finite false m2 e) x = true.
Proof.
  intros Hm. unfold SFltb.
  destruct x as [s|s| |s m e']; try (destruct s); cbn [SFcompare];
    try discriminate; try reflexivity.
  destruct (Z.compare_spec e e') as [He|He|He]; try discriminate; try reflexivity.
  change (Pos.compare_cont Eq m1 m) with (Pos.compare m1 m).
  change (Pos.compare_cont Eq m2 m) with (Pos.compare m2 m).
  destruct (Pos.compare_spec m1 m) as [Hm1|Hm1|Hm1]; try discriminate.
  intros _.
  destruct (Pos.compare_spec m2 m) as [Hm'|Hm'|Hm']; try reflexivity; lia.
Qed.

(** A number above 100 is above 80. *)
Lemma number_above_100_above_80 (p : float) :
  PrimFloat.ltb 100 p = true -> PrimFloat.ltb 80 p = true.
Proof.
  rewrite !FloatAxioms.ltb_spec.
  replace (Prim2SF 100) with (S754_finite false 7036874417766400 (-46))
    by (vm_compute; reflexivity).
  replace (Prim2SF 80) with (S754_finite false 5629499534213120 (-46))
    by (vm_compute; reflexivity).
  apply finite_above. vm_compute. reflexivity.
Qed.

End NumberOrder.

Section BudgetEvaluation.
Import Store BudgetTracker.

Lemma shown_cases (b : Budget) (spend : float) (open : bool) (text : string) :
  shown (showing b spend open text)
  = Some (if isOverBudget (showing b spend open text)
          then [exceeded (spend - limit_amount b)%float]
          else if isNearLimit (showing b spend open text)
               then [approaching (limit_amount b - spend)%float]
               else []).
Proof.
  unfold shown, render. simpl.
  destruct (isOverBudget _); [|destruct (isNearLimit _)]; simpl;
    try reflexivity.
  now destruct (isNearLimit _).
Qed.

End BudgetEvaluation.

(** C2, as amended.  For every budget limit and monthly spending, the
    percentage is the number [spend / limit * 100], each operation
    rounded as the language rounds it; the card shows the overage
    [spend - limit] exactly when the percentage is above 100, the
    remaining [limit - spend] exactly when it is above 80 and at most
    100, and no alert otherwise: in particular whenever the percentage
    is not above 80, as it is when the quotient [spend / limit] is the
    number [0.8], which gives the percentage 80. *)
Theorem budget_evaluation (b : Store.Budget) (spend : float) (open : bool) (text : string) :
  let st := BudgetTracker.showing b spend open text in
  let p := BudgetTracker.percentage st in
  p = (spend / Store.limit_amount b * 100)%float
  /\ BudgetTracker.isOverBudget st = PrimFloat.ltb 100 p
  /\ BudgetTracker.isNearLimit st = (PrimFloat.ltb 80 p && PrimFloat.leb p 100)
  /\ (BudgetTracker.shown st = Some [BudgetTracker.exceeded (spend - Store.limit_amount b)%float]
      <-> PrimFloat.ltb 100 p = true)
  /\ (BudgetTracker.shown st = Some [BudgetTracker.approaching (Store.limit_amount b - spend)%float]
      <-> PrimFloat.ltb 80 p = true /\ PrimFloat.leb p 100 = true)
  /\ (BudgetTracker.shown st = Some []
      <-> PrimFloat.ltb 100 p = false
          /\ ~ (PrimFloat.ltb 80 p = true /\ PrimFloat.leb p 100 = true))
  /\ (PrimFloat.ltb 80 p = false -> BudgetTracker.shown st = Some [])
  /\ ((spend / Store.limit_amount b)%float = 0.8%float ->
      p = 80%float /\ BudgetTracker.shown st = Some []).
Proof.
  intros st p.
  assert (Hp : p = (spend / Store.limit_amount b * 100)%float) by reflexivity.
  assert (Hover : BudgetTracker.isOverBudget st = PrimFloat.ltb 100 p) by reflexivity.
  assert (Hnear : BudgetTracker.isNearLimit st
                  = (PrimFloat.ltb 80 p && PrimFloat.leb p 100)) by reflexivity.
  assert (Hshown := shown_cases b spend open text). fold st in Hshown.
  rewrite Hover, Hnear in Hshown.
  split; [exact Hp|]. split; [exact Hover|]. split; [exact Hnear|].
  split; [|split; [|split; [|split]]].
  - split.
    + rewrite Hshown. destruct (PrimFloat.ltb 100 p); [reflexivity|].
      destruct (PrimFloat.ltb 80 p && PrimFloat.leb p 100); intros H; discriminate H.
    + intros H. rewrite Hshown, H. reflexivity.
  - split.
    + intros H. rewrite Hshown in H. destruct (PrimFloat.ltb 100 p); [discriminate H|].
      destruct (PrimFloat.ltb 80 p); [|discriminate H].
      destruct (PrimFloat.leb p 100); [split; reflexivity | discriminate H].
    + intros [H80 H100]. rewrite Hshown, (number_le_not_gt _ _ H100), H80, H100.
      reflexivity.
  - split.
    + intros H. rewrite Hshown in H. split.
      * destruct (PrimFloat.ltb 100 p); [discriminate H | reflexivity].
      * intros [H80 H100].
        rewrite (number_le_not_gt _ _ H100), H80, H100 in H. discriminate H.
    + intros [Hnot Hnn]. rewrite Hshown, Hnot.
      destruct (PrimFloat.ltb 80 p); [|reflexivity].
      destruct (PrimFloat.leb p 100); [|reflexivity].
      exfalso. apply Hnn. now split.
  - intros H80. rewrite Hshown, H80.
    destruct (PrimFloat.ltb 100 p) eqn:H100; [|reflexivity].
    apply number_above_100_above_80 in H100. congruence.
  - intros Hratio. rewrite Hshown, Hp, Hratio.
    split; vm_compute; reflexivity.
Qed.

(** The ratio 0.8 is reached, for instance by 80 spent of 100. *)
Lemma budget_evaluation_witness :
  BudgetTracker.percentage
    (BudgetTracker.showing {| Store.budget_user_id := "u1"; Store.month := "2024-03-01";
                              Store.limit_amount := 100%float |} 80%float false "")
  = 80%float
  /\ BudgetTracker.shown
       (BudgetTracker.showing {| Store.budget_user_id := "u1"; Store.month := "2024-03-01";
                                 Store.limit_amount := 100%float |} 80%float false "")
     = Some [].
Proof.
  apply (budget_evaluation
           {| Store.budget_user_id := "u1"; Store.month := "2024-03-01";
              Store.limit_amount := 100%float |} 80%float false "").
  vm_compute. reflexivity.
Defined.

(** The two examples of the specification: 85 of 100 is near the limit
    with 15 remaining; 120 of 100 is over by 20, and the bar stops at 100. *)
Example budget_85_of_100 :
  BudgetTracker.render
    (BudgetTracker.showing {| Store.budget_user_id := "u1"; Store.month := "2024-03-01";
                Store.limit_amount := 100%float |} 85%float false "")
  = Some {| BudgetTracker.progressValue := 85%float;
            BudgetTracker.progressClass := "bg-warning/20";
            BudgetTracker.percentUsed := 85%float;
            BudgetTracker.alerts := [BudgetTracker.approaching 15%float] |}.
Proof. vm_compute. reflexivity. Qed.

Example budget_120_of_100 :
  BudgetTracker.render
    (BudgetTracker.showing {| Store.budget_user_id := "u1"; Store.month := "2024-03-01";
                Store.limit_amount := 100%float |} 120%float false "")
  = Some {| BudgetTracker.progressValue := 100%float;
            BudgetTracker.progressClass := "bg-destructive/20";
            BudgetTracker.percentUsed := 120%float;
            BudgetTracker.alerts := [BudgetTracker.exceeded 20%float] |}.
Proof. vm_compute. reflexivity. Qed.

(** C2, as stated, fails at the boundary: 8.96 is 80 percent of 11.20
    in decimal arithmetic, but the quotient of the two numbers is
    0.8000000000000002, not the number 0.8, so the percentage is
    80.00000000000001, not 80, and the card shows the remaining
    amount. *)
Example budget_896_of_1120 :
  (896 * 100 = 1120 * 80)%Z
  /\ parseFloatPlain "8.96" = 8.96%float
  /\ parseFloatPlain "11.20" = 11.2%float
  /\ (8.96 / 11.2)%float = 0.80000000000000016%float
  /\ BudgetTracker.percentage
       (BudgetTracker.showing
          {| Store.budget_user_id := "u1"; Store.month := "2024-03-01";
             Store.limit_amount := 11.2%float |} 8.96%float false "")
     = 80.000000000000014%float
  /\ BudgetTracker.shown
       (BudgetTracker.showing
          {| Store.budget_user_id := "u1"; Store.month := "2024-03-01";
             Store.limit_amount := 11.2%float |} 8.96%float false "")
     = Some [BudgetTracker.approaching (11.2 - 8.96)%float].
Proof.
  split; [reflexivity|].
  split; [vm_compute; reflexivity|].
  split; [vm_compute; reflexivity|].
  split; [vm_compute; reflexivity|].
  split; vm_compute; reflexivity.
Qed.

(* ================================================================== *)
(** * Dashboard: the daily trend and the spend of the month *)
(* ================================================================== *)

Section DateFacts.

Lemma monthOfYearDay_range (leap d : Z) : 0 <= monthOfYearDay leap d <= 11.
Proof.
  unfold monthOfYearDay.
  repeat match goal with |- context [if ?c then _ else _] => destruct c end; lia.
Qed.

(** [yearOfDay d] is the year of day number [d]: the year that starts on
    or before it and whose successor starts after it. *)
Lemma yearOfDay_spec (d : Z) :
  DayFromYear (yearOfDay d) <= d < DayFromYear (yearOfDay d + 1).
Proof.
  unfold yearOfDay.
  set (y0 := 1970 + 400 * d / 146097).
  assert (Hy0 : 146097 * (y0 - 1970) <= 400 * d < 146097 * (y0 - 1970) + 146097).
  { unfold y0. pose proof (Z.div_mod (400 * d) 146097 ltac:(lia)).
    pose proof (Z.mod_pos_bound (400 * d) 146097 ltac:(lia)). lia. }
  clearbody y0.
  destruct (Z.leb_spec (DayFromYear (y0 + 1)) d) as [H1|H1].
  - split; [assumption|]. unfold DayFromYear in *.
    Z.to_euclidean_division_equations. lia.
  - destruct (Z.leb_spec (DayFromYear y0) d) as [H2|H2].
    + split; assumption.
    + split.
      * unfold DayFromYear in *. Z.to_euclidean_division_equations. lia.
      * replace (y0 - 1 + 1) with y0 by lia. assumption.
Qed.

(** A year is followed by the next after its 365 or 366 days. *)
Lemma DayFromYear_next (y : Z) : DayFromYear (y + 1) = DayFromYear y + DaysInYear y.
Proof.
  unfold DayFromYear, DaysInYear, isLeap.
  assert (H4 : (y + 1 - 1969) / 4 - (y - 1969) / 4 = if y mod 4 =? 0 then 1 else 0).
  { destruct (Z.eqb_spec (y mod 4) 0); Z.to_euclidean_division_equations; lia. }
  assert (H100 : (y + 1 - 1901) / 100 - (y - 1901) / 100 = if y mod 100 =? 0 then 1 else 0).
  { destruct (Z.eqb_spec (y mod 100) 0); Z.to_euclidean_division_equations; lia. }
  assert (H400 : (y + 1 - 1601) / 400 - (y - 1601) / 400 = if y mod 400 =? 0 then 1 else 0).
  { destruct (Z.eqb_spec (y mod 400) 0); Z.to_euclidean_division_equations; lia. }
  assert (Hd1 : y mod 400 = 0 -> y mod 100 = 0)
    by (intros; Z.to_euclidean_division_equations; lia).
  assert (Hd2 : y mod 100 = 0 -> y mod 4 = 0)
    by (intros; Z.to_euclidean_division_equations; lia).
  revert H4 H100 H400.
  destruct (Z.eqb_spec (y mod 4) 0), (Z.eqb_spec (y mod 100) 0), (Z.eqb_spec (y mod 400) 0);
    cbn [andb orb negb]; lia.
Qed.

Lemma DayWithinYear_range (t : Z) : 0 <= DayWithinYear t < DaysInYear (YearFromTime t).
Proof.
  unfold DayWithinYear, YearFromTime.
  pose proof (yearOfDay_spec (Day t)) as H. rewrite DayFromYear_next in H. lia.
Qed.

(** The day of the month lies within its month. *)
Lemma DateFromTime_range (t : Z) :
  1 <= DateFromTime t <= DaysInMonth (YearFromTime t) (MonthFromTime t).
Proof.
  pose proof (DayWithinYear_range t) as Hd.
  unfold DateFromTime, MonthFromTime, DaysInMonth, InLeapYear, DaysInYear in *.
  set (d := DayWithinYear t) in *. clearbody d.
  destruct (isLeap (YearFromTime t)); unfold monthOfYearDay;
    repeat match goal with
           | |- context [if ?a <? ?b then _ else _] => destruct (Z.ltb_spec a b)
           end; cbn; lia.
Qed.

(** Setting the day of the month moves the day number by the difference
    to the current day of the month. *)
Lemma MakeDay_of_fields (t dt : Z) :
  MakeDay (YearFromTime t) (MonthFromTime t) dt = Day t + (dt - DateFromTime t).
Proof.
  unfold MakeDay, DateFromTime, DayWithinYear, InLeapYear.
  pose proof (monthOfYearDay_range (InLeapYear t) (DayWithinYear t)) as Hm.
  fold (MonthFromTime t) in Hm.
  rewrite (Z.div_small (MonthFromTime t) 12) by lia.
  rewrite (Z.mod_small (MonthFromTime t) 12) by lia.
  rewrite Z.add_0_r. lia.
Qed.

Lemma Day_shift (t k : Z) : Day (t - k * msPerDay) = Day t - k.
Proof.
  unfold Day. replace (t - k * msPerDay) with (t + (- k) * msPerDay) by lia.
  rewrite Z.div_add by (unfold msPerDay; lia). lia.
Qed.

Lemma MakeDate_Day (t k : Z) :
  MakeDate (Day t - k) (TimeWithinDay t) = t - k * msPerDay.
Proof.
  unfold MakeDate, Day, TimeWithinDay.
  pose proof (Z.div_mod t msPerDay) as H. unfold msPerDay in *. lia.
Qed.

(** In a zone of constant offset, [setDate] with the current day of the
    month less [k] goes back [k] times 24 hours. *)
Lemma setDate_fixedZone (off t k : Z) :
  setDate (fixedZone off) t (getDate (fixedZone off) t - k) = t - k * msPerDay.
Proof.
  unfold setDate, getDate, UTC, LocalTime. cbn [fixedZone offsetAt offsetOfLocal].
  rewrite MakeDay_of_fields.
  replace (Day (t + off) + (DateFromTime (t + off) - k - DateFromTime (t + off)))
    with (Day (t + off) - k) by lia.
  rewrite MakeDate_Day. lia.
Qed.

Lemma string_app_assoc (x y z : string) : ((x ++ y) ++ z = x ++ (y ++ z))%string.
Proof. induction x as [|a x IH]; simpl; [reflexivity | now rewrite IH]. Qed.

Lemma splitHead_app (c : ascii) (s r1 r2 : string) :
  splitHead c (s ++ String c r1) = splitHead c (s ++ String c r2).
Proof.
  induction s as [|a s IH]; simpl.
  - now rewrite Ascii.eqb_refl.
  - destruct (Ascii.eqb a c); [reflexivity | now rewrite IH].
Qed.

(** The date part of [toISOString] only depends on the day number. *)
Lemma isoDate_of_Day (t : Z) :
  splitHead "T" (toISOString t) = splitHead "T" (toISOString (Day t * msPerDay)).
Proof.
  assert (HD : Day (Day t * msPerDay) = Day t)
    by (unfold Day; apply Z.div_mul; unfold msPerDay; lia).
  unfold toISOString.
  assert (HY : YearFromTime (Day t * msPerDay) = YearFromTime t)
    by (unfold YearFromTime; now rewrite HD).
  assert (HW : DayWithinYear (Day t * msPerDay) = DayWithinYear t)
    by (unfold DayWithinYear; now rewrite HD, HY).
  assert (HL : InLeapYear (Day t * msPerDay) = InLeapYear t)
    by (unfold InLeapYear; now rewrite HY).
  assert (HM : MonthFromTime (Day t * msPerDay) = MonthFromTime t)
    by (unfold MonthFromTime; now rewrite HL, HW).
  assert (HDt : DateFromTime (Day t * msPerDay) = DateFromTime t)
    by (unfold DateFromTime; now rewrite HW, HL, HM).
  rewrite HY, HM, HDt.
  set (d := (isoYear (YearFromTime t) ++ "-" ++ pad2 (MonthFromTime t + 1) ++ "-"
             ++ pad2 (DateFromTime t))%string).
  assert (Hassoc : forall r : string,
    (isoYear (YearFromTime t) ++ "-" ++ pad2 (MonthFromTime t + 1) ++ "-"
     ++ pad2 (DateFromTime t) ++ "T" ++ r)%string = (d ++ String "T" r)%string).
  { intros r. unfold d. rewrite !string_app_assoc. reflexivity. }
  rewrite !Hassoc. apply splitHead_app.
Qed.

End DateFacts.

Section TrendFacts.
Import Store Dashboard.
Context {A : Type} {AR : Arith A}.

(** In a zone of constant offset the seven dates are those of the seven
    day numbers that end with the UTC day of [now]. *)
Lemma last7Days_fixedZone (off now : Z) :
  last7Days (fixedZone off) now
  = map (fun i => isoDateOfDay (Day now - 6 + i)) [0; 1; 2; 3; 4; 5; 6].
Proof.
  unfold last7Days. apply map_ext. intros i.
  rewrite setDate_fixedZone, isoDate_of_Day, Day_shift.
  unfold isoDateOfDay. do 3 f_equal. lia.
Qed.

Lemma calcDailyTrend_dates (tz : TimeZone) (now : Z) (expenses : list (Expense A)) :
  map day_date (calcDailyTrend tz now expenses) = last7Days tz now.
Proof. unfold calcDailyTrend. rewrite map_map. cbn [day_date]. apply map_id. Qed.

Lemma calcDailyTrend_amounts (tz : TimeZone) (now : Z) (expenses : list (Expense A))
  (entry : DailyTotal A) :
  In entry (calcDailyTrend tz now expenses) ->
  day_amount entry
  = sumAmounts (filter (fun exp => String.eqb (date exp) (day_date entry)) expenses).
Proof.
  unfold calcDailyTrend. intros Hin. apply in_map_iff in Hin.
  destruct Hin as [d [Hd _]]. now subst entry.
Qed.

End TrendFacts.


(** C3 at the end of daylight saving time.  At 7:30 p.m. of 3 November
    2025 in New York the seven dates skip 2 November, so an expense of
    that day, made within the last seven days, is counted in no entry:
    every amount of the trend is 0. *)
Theorem daily_trend_skips_a_day :
  Dashboard.last7Days Examples.newYork2025 Examples.november3Evening
  = ["2025-10-28"; "2025-10-29"; "2025-10-30"; "2025-10-31"; "2025-11-01";
     "2025-11-03"; "2025-11-04"]
  /\ map Dashboard.day_amount
       (Dashboard.calcDailyTrend Examples.newYork2025 Examples.november3Evening
          Examples.november2)
     = [0; 0; 0; 0; 0; 0; 0]%float
  /\ getDate Examples.newYork2025 Examples.november3Evening = 3
  /\ Dashboard.last7Days (fixedZone (-5 * msPerHour)) Examples.november3Evening
     = ["2025-10-29"; "2025-10-30"; "2025-10-31"; "2025-11-01"; "2025-11-02";
        "2025-11-03"; "2025-11-04"].
Proof.
  split; [vm_compute; reflexivity|].
  split; [vm_compute; reflexivity|].
  split; vm_compute; reflexivity.
Qed.

Section MonthFacts.
Import Store Dashboard.

Lemma firstDayOfMonth_fixedZone (off now : Z) :
  firstDayOfMonth (fixedZone off) now
  = firstDayNumber (fixedZone off) now * msPerDay - off.
Proof.
  unfold firstDayOfMonth, firstDayNumber, Date_ymd, UTC, MakeDate, MakeTime.
  cbn [fixedZone offsetOfLocal]. lia.
Qed.

(** The dashboard's test [new Date(exp.date) >= firstDayOfMonth] for an
    expense of day number [d], in a zone of constant offset of less than
    a day: east of Greenwich and at UTC it compares the days, west of it
    the first day of the month fails the test. *)
Lemma month_filter_fixedZone (off now d : Z) :
  - msPerDay < off < msPerDay ->
  Date_ge (Some (MakeDate d 0)) (firstDayOfMonth (fixedZone off) now)
  = if 0 <=? off then firstDayNumber (fixedZone off) now <=? d
    else firstDayNumber (fixedZone off) now <? d.
Proof.
  intros Hoff. rewrite firstDayOfMonth_fixedZone.
  unfold Date_ge, MakeDate. unfold msPerDay in *.
  destruct (0 <=? off) eqn:Hsign.
  - apply Z.leb_le in Hsign.
    destruct (firstDayNumber (fixedZone off) now <=? d) eqn:Hcmp.
    + apply Z.leb_le in Hcmp. apply Z.leb_le. lia.
    + apply Z.leb_gt in Hcmp. apply Z.leb_gt. lia.
  - apply Z.leb_gt in Hsign.
    destruct (firstDayNumber (fixedZone off) now <? d) eqn:Hcmp.
    + apply Z.ltb_lt in Hcmp. apply Z.leb_le. lia.
    + apply Z.ltb_ge in Hcmp. apply Z.leb_gt. lia.
Qed.

Lemma Date_parse_midnight (s : string) (t : Z) :
  Date_parse s = Some t -> exists d, t = MakeDate d 0.
Proof.
  unfold Date_parse. destruct (dateFields s) as [[[y m] d]|]; [|discriminate].
  intros H. inversion H. eexists. reflexivity.
Qed.

End MonthFacts.

(** C4 five hours behind UTC.  On 2 March 2024, with expenses of 10 and
    5 dated 2024-03-01 and one of 20 dated 2024-03-02, the dashboard's
    spend of the month is 20: the instant test leaves out the expenses of
    the first day of the month, which the budget tracker's date test on
    the same rows, and the dashboard at UTC, both count (35). *)
Theorem dashboard_month_drops_first_day :
  Dashboard.monthlyExpenses
    (Dashboard.fetchDashboardData Examples.utcMinus5 Examples.march2
       (Some Examples.march) Dashboard.initialStats) = 20%float
  /\ BudgetTracker.calcMonthlySpending Examples.utcMinus5 Examples.march2 Examples.march
     = 35%float
  /\ Dashboard.monthlyExpenses
       (Dashboard.fetchDashboardData (fixedZone 0) Examples.march2
          (Some Examples.march) Dashboard.initialStats) = 35%float
  /\ BudgetTracker.monthKey Examples.utcMinus5 Examples.march2 = "2024-03-01"
  /\ toISOString (Dashboard.firstDayOfMonth Examples.utcMinus5 Examples.march2)
     = "2024-03-01T05:00:00.000Z"
  /\ option_map toISOString (Date_parse "2024-03-01") = Some "2024-03-01T00:00:00.000Z".
Proof.
  split; [vm_compute; reflexivity|].
  split; [vm_compute; reflexivity|].
  split; [vm_compute; reflexivity|].
  split; [vm_compute; reflexivity|].
  split; vm_compute; reflexivity.
Qed.

(** The dashboard's spend of the month in a zone of constant offset of
    less than a day: the expenses whose date is a valid date-only text
    and whose day is on or after the first day of the month when the
    zone is at or east of UTC, strictly after it when the zone is west. *)
Theorem dashboard_month_fixedZone {A : Type} {AR : Arith A} (off now : Z)
  (expenses : list (Store.Expense A)) :
  - msPerDay < off < msPerDay ->
  Dashboard.calcMonthlyExpenses (fixedZone off) now expenses
  = Dashboard.sumAmounts
      (filter (fun exp =>
                 match Date_parse (Store.date exp) with
                 | Some t =>
                     if 0 <=? off then firstDayNumber (fixedZone off) now <=? Day t
                     else firstDayNumber (fixedZone off) now <? Day t
                 | None => false
                 end) expenses).
Proof.
  intros Hoff. unfold Dashboard.calcMonthlyExpenses. f_equal.
  apply filter_ext. intros exp.
  destruct (Date_parse (Store.date exp)) as [t|] eqn:Hparse; [|reflexivity].
  destruct (Date_parse_midnight _ _ Hparse) as [d ->].
  rewrite (month_filter_fixedZone off now d Hoff).
  replace (Day (MakeDate d 0)) with d; [reflexivity|].
  unfold Day, MakeDate. rewrite Z.add_0_r. symmetry. apply Z.div_mul.
  unfold msPerDay. lia.
Qed.

(** Five hours behind UTC on 2 March 2024, only the expense of 2 March counts. *)
Lemma dashboard_month_fixedZone_witness :
  Dashboard.calcMonthlyExpenses Examples.utcMinus5 Examples.march2 Examples.marchMinor
  = 2000.
Proof.
  unfold Examples.utcMinus5.
  rewrite (dashboard_month_fixedZone (-5 * msPerHour) Examples.march2 Examples.marchMinor).
  - vm_compute. reflexivity.
  - vm_compute. split; reflexivity.
Defined.

(* ================================================================== *)
(** * BudgetTracker: setting the budget *)
(* ================================================================== *)

Section UpsertFacts.
Import Store.

Lemma sameKey_keyOf (user m : string) (b : Budget) :
  sameKey user m b = true <-> keyOf b = (user, m).
Proof.
  unfold sameKey, keyOf. rewrite andb_true_iff, !String.eqb_eq.
  split; [intros [-> ->]; reflexivity | intros H; inversion H; auto].
Qed.

Lemma budgetsOf_absent (user m : string) (table : list Budget) :
  ~ In (user, m) (map keyOf table) -> budgetsOf user m table = [].
Proof.
  induction table as [|b table IH]; simpl; intros Hnot; [reflexivity|].
  destruct (sameKey user m b) eqn:Hkey.
  - exfalso. apply Hnot. left. now apply sameKey_keyOf.
  - apply IH. tauto.
Qed.

Lemma upsert_keys (row : Budget) (table : list Budget) :
  map keyOf (upsert row table)
  = if existsb (sameKey (budget_user_id row) (month row)) table
    then map keyOf table else (map keyOf table ++ [keyOf row])%list.
Proof.
  induction table as [|b table IH]; simpl; [reflexivity|].
  destruct (sameKey (budget_user_id row) (month row) b) eqn:Hkey; simpl.
  - f_equal. symmetry. now apply sameKey_keyOf.
  - rewrite IH. now destruct (existsb _ table).
Qed.

(** The upsert keeps the keys of the table distinct. *)
Lemma upsert_uniqueKeys (row : Budget) (table : list Budget) :
  uniqueKeys table -> uniqueKeys (upsert row table).
Proof.
  unfold uniqueKeys. rewrite upsert_keys.
  destruct (existsb _ table) eqn:Hex; [trivial|]. intros Hnd.
  apply NoDup_rev in Hnd. rewrite <- (rev_involutive (_ ++ _)).
  apply NoDup_rev. rewrite rev_app_distr. simpl.
  constructor; [|exact Hnd]. rewrite <- in_rev. intros Hin.
  apply in_map_iff in Hin. destruct Hin as [b [Hb Hin]].
  assert (Htrue : existsb (sameKey (budget_user_id row) (month row)) table = true).
  { apply existsb_exists. exists b. split; [assumption|]. now apply sameKey_keyOf. }
  congruence.
Qed.

(** After an upsert the table holds exactly one row of the key, the one
    just sent. *)
Lemma upsert_budgetsOf (row : Budget) (table : list Budget) :
  uniqueKeys table ->
  budgetsOf (budget_user_id row) (month row) (upsert row table) = [row].
Proof.
  unfold uniqueKeys.
  assert (Hrow : sameKey (budget_user_id row) (month row) row = true)
    by now apply sameKey_keyOf.
  induction table as [|b table IH]; simpl; intros Hnd.
  - now rewrite Hrow.
  - inversion Hnd as [|? ? Hnotin Hnd']; subst.
    destruct (sameKey (budget_user_id row) (month row) b) eqn:Hkey; simpl.
    + rewrite Hrow. f_equal. apply budgetsOf_absent.
      apply sameKey_keyOf in Hkey. now rewrite <- Hkey.
    + rewrite Hkey. now apply IH.
Qed.

End UpsertFacts.

Section MonthKeyFacts.

Lemma zrange_In (lo n z : Z) :
  lo <= z < lo + n -> In z (zrange lo n).
Proof.
  intros H. unfold zrange. apply in_map_iff.
  exists (Z.to_nat (z - lo)). split; [lia|]. apply in_seq. lia.
Qed.

Lemma dateFields_key (sy sm : string) :
  String.length sy = 4%nat -> String.length sm = 2%nat ->
  dateFields (sy ++ "-" ++ sm ++ "-01")
  = match digits sy, digits sm with
    | Some y, Some m =>
        if (1 <=? m) && (m <=? 12) && (1 <=? DaysInMonth y (m - 1))
        then Some (y, m, 1) else None
    | _, _ => None
    end.
Proof.
  destruct sy as [|a [|b [|c [|d [|? ?]]]]]; try discriminate.
  destruct sm as [|e [|f [|? ?]]]; try discriminate. intros _ _.
  unfold dateFields.
  cbn -[digits DaysInMonth Z.leb].
  change (digits "01") with (Some 1).
  destruct (digits (String a (String b (String c (String d ""))))) as [y|]; [|reflexivity].
  destruct (digits (String e (String f ""))) as [m|]; [|reflexivity].
  replace (1 <=? 1) with true by reflexivity. rewrite andb_true_r. reflexivity.
Qed.

Lemma DaysInMonth_pos (y m : Z) : 0 <= m <= 11 -> 1 <= DaysInMonth y m.
Proof.
  intros H. unfold DaysInMonth.
  assert (Hc : m = 0 \/ m = 1 \/ m = 2 \/ m = 3 \/ m = 4 \/ m = 5 \/ m = 6
               \/ m = 7 \/ m = 8 \/ m = 9 \/ m = 10 \/ m = 11) by lia.
  destruct (isLeap y);
    repeat (destruct Hc as [->|Hc]; [vm_compute; discriminate|]);
    subst; vm_compute; discriminate.
Qed.

(** [String(year)] is the four digits of a year from 1000 to 9999, and
    the padded month its two digits. *)
Lemma year_text_all :
  forallb (fun y => readsAs 4 y (String_of y)) (zrange 1000 9000) = true.
Proof. vm_compute. reflexivity. Qed.

Lemma month_text_all :
  forallb (fun m => readsAs 2 (m + 1) (pad2 (m + 1))) (zrange 0 12) = true.
Proof. vm_compute. reflexivity. Qed.

Lemma readsAs_spec (len : nat) (n : Z) (s : string) :
  readsAs len n s = true -> String.length s = len /\ digits s = Some n.
Proof.
  unfold readsAs. intros H. apply andb_true_iff in H. destruct H as [Hlen Hval].
  apply Nat.eqb_eq in Hlen. split; [assumption|].
  destruct (digits s) as [v|]; [|discriminate].
  apply Z.eqb_eq in Hval. now subst.
Qed.

Lemma monthKey_fields (tz : TimeZone) (now : Z) :
  1000 <= getFullYear tz now <= 9999 ->
  dateFields (BudgetTracker.monthKey tz now)
  = Some (getFullYear tz now, getMonth tz now + 1, 1).
Proof.
  intros Hy. unfold BudgetTracker.monthKey.
  pose proof (monthOfYearDay_range (InLeapYear (LocalTime tz now))
                (DayWithinYear (LocalTime tz now))) as Hm.
  fold (MonthFromTime (LocalTime tz now)) in Hm. fold (getMonth tz now) in Hm.
  assert (HinY : In (getFullYear tz now) (zrange 1000 9000)) by (apply zrange_In; lia).
  assert (HinM : In (getMonth tz now) (zrange 0 12)) by (apply zrange_In; lia).
  pose proof (proj1 (forallb_forall _ _) year_text_all _ HinY) as HY.
  pose proof (proj1 (forallb_forall _ _) month_text_all _ HinM) as HM.
  apply readsAs_spec in HY, HM. destruct HY as [HYlen HYval], HM as [HMlen HMval].
  rewrite (dateFields_key _ _ HYlen HMlen), HYval, HMval.
  replace (getMonth tz now + 1 - 1) with (getMonth tz now) by lia.
  pose proof (DaysInMonth_pos (getFullYear tz now) (getMonth tz now) Hm) as Hd.
  destruct (Z.leb_spec 1 (getMonth tz now + 1)); [|lia].
  destruct (Z.leb_spec (getMonth tz now + 1) 12); [|lia].
  destruct (Z.leb_spec 1 (DaysInMonth (getFullYear tz now) (getMonth tz now))); [|lia].
  reflexivity.
Qed.

End MonthKeyFacts.

(** C6.  Two budgets set one after the other by the same user in the
    same month, each with a valid amount and accepted by the store,
    leave exactly one row for that user and month, which carries the
    second amount and is the one [fetchBudget] then reads; the keys of
    the table stay distinct; and the month key reads as the first day of
    the month of [now] (for a four-digit year). *)
Theorem set_budget_twice (parseFloat : string -> float) (tz : TimeZone) (now1 now2 : Z)
  (user : string) (table : list Store.Budget) (st1 st2 : BudgetTracker.State) :
  Store.uniqueKeys table ->
  BudgetTracker.invalidAmount (parseFloat (BudgetTracker.budgetAmount st1)) = false ->
  BudgetTracker.invalidAmount (parseFloat (BudgetTracker.budgetAmount st2)) = false ->
  BudgetTracker.monthKey tz now1 = BudgetTracker.monthKey tz now2 ->
  1000 <= getFullYear tz now2 <= 9999 ->
  let table1 :=
    BudgetTracker.tableAfter
      (BudgetTracker.handleSetBudget parseFloat tz now1 (Some user) Store.Ok table st1) in
  let table2 :=
    BudgetTracker.tableAfter
      (BudgetTracker.handleSetBudget parseFloat tz now2 (Some user) Store.Ok table1 st2) in
  Store.budgetsOf user (BudgetTracker.monthKey tz now2) table2
  = [ {| Store.budget_user_id := user;
         Store.month := BudgetTracker.monthKey tz now2;
         Store.limit_amount := parseFloat (BudgetTracker.budgetAmount st2) |} ]
  /\ BudgetTracker.budgetQuery tz now2 user table2
     = Some {| Store.budget_user_id := user;
               Store.month := BudgetTracker.monthKey tz now2;
               Store.limit_amount := parseFloat (BudgetTracker.budgetAmount st2) |}
  /\ Store.uniqueKeys table2
  /\ dateFields (BudgetTracker.monthKey tz now2)
     = Some (getFullYear tz now2, getMonth tz now2 + 1, 1).
Proof.
  intros Huniq Hv1 Hv2 Hkey Hyear table1 table2.
  assert (Hrows :
    Store.budgetsOf user (BudgetTracker.monthKey tz now2) table2
    = [ {| Store.budget_user_id := user;
           Store.month := BudgetTracker.monthKey tz now2;
           Store.limit_amount := parseFloat (BudgetTracker.budgetAmount st2) |} ]).
  { unfold table2, table1, BudgetTracker.handleSetBudget, BudgetTracker.tableAfter.
    rewrite Hv1, Hv2. cbn [fst snd].
    apply (upsert_budgetsOf
             {| Store.budget_user_id := user;
                Store.month := BudgetTracker.monthKey tz now2;
                Store.limit_amount := parseFloat (BudgetTracker.budgetAmount st2) |}).
    now apply upsert_uniqueKeys. }
  split; [exact Hrows|]. split; [|split].
  - unfold BudgetTracker.budgetQuery. now rewrite Hrows.
  - unfold table2, table1, BudgetTracker.handleSetBudget, BudgetTracker.tableAfter.
    rewrite Hv1, Hv2. cbn [fst snd].
    now apply upsert_uniqueKeys, upsert_uniqueKeys.
  - now apply monthKey_fields.
Qed.

(** User u1, who has a budget of 50 for March 2024, sets 100 and then
    250.50 on 2 March. *)
Lemma set_budget_twice_witness :
  Store.budgetsOf "u1" "2024-03-01"
    (BudgetTracker.tableAfter
       (BudgetTracker.handleSetBudget parseFloatPlain Examples.utcMinus5 Examples.march2
          (Some "u1") Store.Ok
          (BudgetTracker.tableAfter
             (BudgetTracker.handleSetBudget parseFloatPlain Examples.utcMinus5
                Examples.march2 (Some "u1") Store.Ok Examples.budgets
                (Examples.typed "100")))
          (Examples.typed "250.50")))
  = [ {| Store.budget_user_id := "u1"; Store.month := "2024-03-01";
         Store.limit_amount := 250.5%float |} ].
Proof.
  refine (proj1 (set_budget_twice parseFloatPlain Examples.utcMinus5 Examples.march2
                   Examples.march2 "u1" Examples.budgets (Examples.typed "100")
                   (Examples.typed "250.50") _ _ _ _ _)).
  - unfold Store.uniqueKeys. simpl.
    repeat constructor; simpl; intuition discriminate.
  - vm_compute. reflexivity.
  - vm_compute. reflexivity.
  - reflexivity.
  - vm_compute. split; discriminate.
Defined.

(** C7, as amended.  For every text submitted as budget amount: when
    [parseFloat] gives NaN or a number that is not above 0, the handler
    only calls [toast.error], sends nothing to the store, and leaves the
    table and the state as they were; otherwise, when a user is signed
    in, the first thing it does is send the upsert of that user, the
    month key and the parsed amount; with nobody signed in it returns
    without any call. *)
Theorem set_budget_validation (parseFloat : string -> float) (tz : TimeZone) (now : Z)
  (session : option string) (resp : Store.Response) (table : list Store.Budget)
  (st : BudgetTracker.State) :
  let amount := parseFloat (BudgetTracker.budgetAmount st) in
  let result := BudgetTracker.handleSetBudget parseFloat tz now session resp table st in
  (isNaN amount = true \/ PrimFloat.leb amount 0 = true ->
     result = ([Effects.toast_error "Please enter a valid amount"], table, st))
  /\ (isNaN amount = false /\ PrimFloat.leb amount 0 = false ->
      forall user, session = Some user ->
      hd_error (BudgetTracker.effectsOf result)
      = Some (Effects.upsert_budget
                {| Store.budget_user_id := user;
                   Store.month := BudgetTracker.monthKey tz now;
                   Store.limit_amount := amount |}))
  /\ (isNaN amount = false /\ PrimFloat.leb amount 0 = false ->
      session = None -> result = ([], table, st)).
Proof.
  intros amount result. unfold result, BudgetTracker.handleSetBudget.
  fold amount. unfold BudgetTracker.invalidAmount.
  split; [|split].
  - intros [H | H]; rewrite H; [reflexivity | now rewrite orb_true_r].
  - intros [Hnan Hle] user ->. rewrite Hnan, Hle. simpl. now destruct resp.
  - intros [Hnan Hle] ->. now rewrite Hnan, Hle.
Qed.

(** The texts "-5" and "abc" are rejected, "100" is sent. *)
Lemma set_budget_validation_witness :
  BudgetTracker.handleSetBudget parseFloatPlain Examples.utcMinus5 Examples.march2
    (Some "u1") Store.Ok Examples.budgets (Examples.typed "-5")
  = ([Effects.toast_error "Please enter a valid amount"], Examples.budgets,
     Examples.typed "-5")
  /\ BudgetTracker.handleSetBudget parseFloatPlain Examples.utcMinus5 Examples.march2
       (Some "u1") Store.Ok Examples.budgets (Examples.typed "abc")
     = ([Effects.toast_error "Please enter a valid amount"], Examples.budgets,
        Examples.typed "abc")
  /\ hd_error
       (BudgetTracker.effectsOf
          (BudgetTracker.handleSetBudget parseFloatPlain Examples.utcMinus5
             Examples.march2 (Some "u1") Store.Ok Examples.budgets
             (Examples.typed "100")))
     = Some (Effects.upsert_budget
               {| Store.budget_user_id := "u1"; Store.month := "2024-03-01";
                  Store.limit_amount := 100%float |}).
Proof.
  split; [|split].
  - apply (set_budget_validation parseFloatPlain Examples.utcMinus5 Examples.march2
             (Some "u1") Store.Ok Examples.budgets (Examples.typed "-5")).
    right. vm_compute. reflexivity.
  - apply (set_budget_validation parseFloatPlain Examples.utcMinus5 Examples.march2
             (Some "u1") Store.Ok Examples.budgets (Examples.typed "abc")).
    left. vm_compute. reflexivity.
  - apply (set_budget_validation parseFloatPlain Examples.utcMinus5 Examples.march2
             (Some "u1") Store.Ok Examples.budgets (Examples.typed "100")).
    + split; vm_compute; reflexivity.
    + reflexivity.
Defined.

(** C7, as stated, fails when nobody is signed in: the amount 100 is
    valid, yet no upsert is sent, and nothing is shown to the user. *)
Lemma set_budget_without_session :
  isNaN (parseFloatPlain "100") = false
  /\ PrimFloat.leb (parseFloatPlain "100") 0 = false
  /\ BudgetTracker.handleSetBudget parseFloatPlain Examples.utcMinus5 Examples.march2
       None Store.Ok Examples.budgets (Examples.typed "100")
     = ([], Examples.budgets, Examples.typed "100").
Proof.
  split; [vm_compute; reflexivity|].
  split; vm_compute; reflexivity.
Qed.

(* ================================================================== *)
(** * ExpenseDialog: the validation of the form *)
(* ================================================================== *)

Section TextLength.

Lemma codeUnits_le (s : string) : forall pending, (codeUnits pending s <= String.length s)%nat.
Proof.
  induction s as [|c s IH]; intros pending; cbn [codeUnits String.length]; [lia|].
  pose proof (IH 0%nat). pose proof (IH 1%nat). pose proof (IH 2%nat). pose proof (IH 3%nat).
  destruct (nat_of_ascii c <? 128)%nat; [lia|].
  destruct (nat_of_ascii c <? 192)%nat.
  - destruct pending as [|[|[|[|p]]]]; try lia.
    + pose proof (IH (S (S (S p)))). lia.
  - destruct (nat_of_ascii c <? 224)%nat; [lia|].
    destruct (nat_of_ascii c <? 240)%nat; lia.
Qed.

(** A text has at most as many code units as bytes, and none only when
    it is empty. *)
Lemma String_length_le (s : string) : (String_length s <= String.length s)%nat.
Proof. apply codeUnits_le. Qed.

Lemma String_length_zero (s : string) : String_length s = 0%nat <-> s = "".
Proof.
  split; [|intros ->; reflexivity].
  destruct s as [|c s]; [reflexivity|]. unfold String_length. cbn [codeUnits].
  destruct (nat_of_ascii c <? 128)%nat; [discriminate|].
  destruct (nat_of_ascii c <? 192)%nat; [discriminate|].
  destruct (nat_of_ascii c <? 224)%nat; [discriminate|].
  destruct (nat_of_ascii c <? 240)%nat; discriminate.
Qed.

End TextLength.

(** Code units and bytes: an accented letter is one code unit in two
    bytes, the money bag of the expense list two code units in four
    bytes; the description of 101 accented letters has 101 code units
    and is saved. *)
Example accented_description_saved :
  String_length "é" = 1%nat /\ String.length "é" = 2%nat
  /\ String_length "💰" = 2%nat /\ String.length "💰" = 4%nat
  /\ String_length Examples.accented = 101%nat
  /\ String.length Examples.accented = 202%nat
  /\ ExpenseDialog.handleSubmit parseFloatPlain ExpenseDialog.uuidShape
       (Examples.lunch Examples.accented) None (Some "u1") Store.Ok
     = [Effects.insert_expense "u1"
          {| Effects.f_amount := 12.5%float; Effects.f_description := Examples.accented;
             Effects.f_category_id := Examples.foodId; Effects.f_date := "2024-03-01" |};
        Effects.toast_success "Expense added successfully";
        Effects.onOpenChange_called false].
Proof. repeat (split; [vm_compute; reflexivity|]). vm_compute. reflexivity. Qed.

(** C8, as amended.  The description is required.  For every submission
    whose amount, category and date are valid: an empty description is
    rejected, the handler only calls [toast.error] with "Description is
    required" and sends nothing to the store; a description whose
    [length] is from 1 to 200 passes, and with a user signed in the
    handler first sends the insert (or the update of the expense being
    edited) with that description. *)
Theorem expense_description_required (parseFloat : string -> float)
  (isUuid : string -> bool) (formData : ExpenseDialog.FormData)
  (expense session : option string) (resp : Store.Response) :
  ExpenseDialog.amountIssues (parseFloat (ExpenseDialog.form_amount formData)) = [] ->
  ExpenseDialog.categoryIssues isUuid (ExpenseDialog.form_category_id formData) = [] ->
  ExpenseDialog.dateIssues (ExpenseDialog.form_date formData) = [] ->
  let fields :=
    {| Effects.f_amount := parseFloat (ExpenseDialog.form_amount formData);
       Effects.f_description := ExpenseDialog.form_description formData;
       Effects.f_category_id := ExpenseDialog.form_category_id formData;
       Effects.f_date := ExpenseDialog.form_date formData |} in
  (ExpenseDialog.form_description formData = "" ->
     ExpenseDialog.handleSubmit parseFloat isUuid formData expense session resp
     = [Effects.toast_error "Description is required"])
  /\ ((1 <= String_length (ExpenseDialog.form_description formData) <= 200)%nat ->
      forall user, session = Some user ->
      hd_error (ExpenseDialog.handleSubmit parseFloat isUuid formData expense session resp)
      = Some match expense with
             | Some id => Effects.update_expense id fields
             | None => Effects.insert_expense user fields
             end).
Proof.
  intros Hamount Hcategory Hdate fields.
  unfold ExpenseDialog.handleSubmit, ExpenseDialog.expenseSchema_parse.
  rewrite Hamount, Hcategory, Hdate. split.
  - intros Hempty. rewrite Hempty. reflexivity.
  - intros [Hmin Hmax] user ->. unfold ExpenseDialog.descriptionIssues.
    destruct (Nat.ltb_spec (String_length (ExpenseDialog.form_description formData)) 1);
      [lia|].
    destruct (Nat.ltb_spec 200 (String_length (ExpenseDialog.form_description formData)));
      [lia|].
    simpl. destruct resp; reflexivity.
Qed.

(** A new expense of 12.50 without description. *)
Lemma expense_description_required_witness :
  ExpenseDialog.handleSubmit parseFloatPlain ExpenseDialog.uuidShape (Examples.lunch "")
    None (Some "u1") Store.Ok
  = [Effects.toast_error "Description is required"].
Proof.
  apply (expense_description_required parseFloatPlain ExpenseDialog.uuidShape
           (Examples.lunch "") None (Some "u1") Store.Ok);
    vm_compute; reflexivity.
Defined.

(** C8, as stated, fails: a new expense of 12.50 with a valid category
    and date and an empty description is rejected, and nothing is sent
    to the store; with the description "Lunch" the same form is saved. *)
Lemma expense_without_description_rejected :
  ExpenseDialog.handleSubmit parseFloatPlain ExpenseDialog.uuidShape (Examples.lunch "")
    None (Some "u1") Store.Ok
  = [Effects.toast_error "Description is required"]
  /\ ExpenseDialog.handleSubmit parseFloatPlain ExpenseDialog.uuidShape
       (Examples.lunch "Lunch") None (Some "u1") Store.Ok
     = [Effects.insert_expense "u1"
          {| Effects.f_amount := 12.5%float; Effects.f_description := "Lunch";
             Effects.f_category_id := Examples.foodId; Effects.f_date := "2024-03-01" |};
        Effects.toast_success "Expense added successfully";
        Effects.onOpenChange_called false].
Proof. split; vm_compute; reflexivity. Qed.

(* ================================================================== *)
(** * The fetches that follow a mutation *)
(* ================================================================== *)

(** C9, as amended.  After a budget upsert the store accepted, the
    handler calls [fetchBudget], and no other fetch.  The handlers that
    create, update or delete an expense call no fetch at all; when the
    store delivers its change notification for [expenses], the expense
    list is fetched again, and nothing else: neither the dashboard,
    which fetches when it mounts only, nor the monthly spending of the
    budget card. *)
Theorem refetch_after_mutation :
  (forall parseFloat tz now user table st,
     BudgetTracker.invalidAmount (parseFloat (BudgetTracker.budgetAmount st)) = false ->
     Page.fetchesAfterMutation
       (BudgetTracker.effectsOf
          (BudgetTracker.handleSetBudget parseFloat tz now (Some user) Store.Ok table st))
     = [Effects.fetchBudget_called])
  /\ (forall id resp, filter Effects.isFetch (ExpenseList.handleDelete id resp) = [])
  /\ (forall parseFloat isUuid formData expense session resp,
        filter Effects.isFetch
          (ExpenseDialog.handleSubmit parseFloat isUuid formData expense session resp)
        = [])
  /\ (forall handler delivered,
        filter Effects.isFetch handler = [] ->
        filter Effects.isFetch (Page.thenNotified handler "expenses" delivered)
        = if delivered then [Effects.fetchExpenses_called] else [])
  /\ filter Effects.isFetch Page.onLoad
     = [Effects.fetchDashboardData_called; Effects.fetchBudget_called;
        Effects.fetchMonthlySpending_called; Effects.fetchExpenses_called].
Proof.
  split; [|split; [|split; [|split]]].
  - intros parseFloat tz now user table st Hvalid.
    unfold BudgetTracker.handleSetBudget. rewrite Hvalid. reflexivity.
  - intros id [|message]; reflexivity.
  - intros parseFloat isUuid formData expense session resp.
    unfold ExpenseDialog.handleSubmit.
    destruct (ExpenseDialog.expenseSchema_parse _ _ _) as [validated|issues];
      [|reflexivity].
    destruct session as [user|]; [|reflexivity].
    destruct resp, expense; reflexivity.
  - intros handler delivered Hnone. unfold Page.thenNotified.
    rewrite filter_app, Hnone. now destruct delivered.
  - reflexivity.
Qed.

(** A budget of 100 set by user u1. *)
Lemma refetch_after_mutation_witness :
  Page.fetchesAfterMutation
    (BudgetTracker.effectsOf
       (BudgetTracker.handleSetBudget parseFloatPlain Examples.utcMinus5 Examples.march2
          (Some "u1") Store.Ok Examples.budgets (Examples.typed "100")))
  = [Effects.fetchBudget_called].
Proof.
  apply (proj1 refetch_after_mutation). vm_compute. reflexivity.
Defined.

(** C9, as stated, fails: a delete the store accepted is followed by no
    fetch when no change notification arrives, and by the fetch of the
    expense list alone when one does; the dashboard's figures are not
    fetched again in either case. *)
Lemma delete_without_dashboard_refetch :
  Page.fetchesAfterMutation
    (Page.thenNotified (ExpenseList.handleDelete "e1" Store.Ok) "expenses" false) = []
  /\ Page.fetchesAfterMutation
       (Page.thenNotified (ExpenseList.handleDelete "e1" Store.Ok) "expenses" true)
     = [Effects.fetchExpenses_called]
  /\ Page.fetchesAfterMutation
       (Page.thenNotified
          (ExpenseDialog.handleSubmit parseFloatPlain ExpenseDialog.uuidShape
             (Examples.lunch "Lunch") None (Some "u1") Store.Ok) "expenses" true)
     = [Effects.fetchExpenses_called].
Proof. split; [|split]; vm_compute; reflexivity. Qed.

(* ================================================================== *)
(** * ExpenseList: fifty rows at most *)
(* ================================================================== *)

Section OrderFacts.
Import Store.
Context {A : Type}.

Lemma insertByDate_Permutation (r : Expense A) (l : list (Expense A)) :
  Permutation (insertByDate r l) (r :: l).
Proof.
  induction l as [|x l IH]; simpl; [reflexivity|].
  destruct (dateOrd (date x) <? dateOrd (date r)); [reflexivity|].
  rewrite IH. apply perm_swap.
Qed.

Lemma orderByDateDesc_Permutation (rows : list (Expense A)) :
  Permutation (orderByDateDesc rows) rows.
Proof.
  induction rows as [|r rows IH]; simpl; [reflexivity|].
  rewrite insertByDate_Permutation. now apply perm_skip.
Qed.

Lemma insertByDate_descending (r : Expense A) (l : list (Expense A)) :
  descending l -> descending (insertByDate r l).
Proof.
  unfold descending. induction l as [|x l IH]; simpl; intros Hs.
  - repeat constructor.
  - inversion Hs as [|? ? Hl Hx]; subst.
    destruct (Z.ltb_spec (dateOrd (date x)) (dateOrd (date r))) as [Hlt|Hge].
    + constructor; [assumption|]. constructor; [lia|].
      eapply Forall_impl; [|exact Hx]. simpl. intros; lia.
    + constructor; [now apply IH|].
      eapply Permutation_Forall.
      * symmetry. apply insertByDate_Permutation.
      * now constructor.
Qed.

Lemma orderByDateDesc_descending (rows : list (Expense A)) :
  descending (orderByDateDesc rows).
Proof.
  induction rows as [|r rows IH]; simpl.
  - constructor.
  - now apply insertByDate_descending.
Qed.


Lemma reachable_at_most_50 (st : ExpenseList.State A) :
  ExpenseList.reachable st -> (List.length (ExpenseList.expenses st) <= 50)%nat.
Proof.
  induction 1 as [|st st' _ IH Hstep].
  - simpl. lia.
  - destruct Hstep; simpl; try assumption.
    unfold ExpenseList.query, limit. apply firstn_le_length.
Qed.

End OrderFacts.



(* ================================================================== *)
(** * Dashboard: the shape of the category summary *)
(* ================================================================== *)

Section SummaryShape.
Import Store Dashboard.
Context {A : Type} {AR : Arith A}.

Lemma last_in {B : Type} (l : list B) (d : B) : l <> [] -> In (last l d) l.
Proof.
  induction l as [|a l IH]; [congruence|]. intros _.
  destruct l as [|b l]; [now left|].
  right. apply IH. discriminate.
Qed.

Lemma last_in_cons {B : Type} (rest : list B) (e : B) : In (last rest e) (e :: rest).
Proof.
  destruct rest as [|x rest]; [now left|].
  right. apply last_in. discriminate.
Qed.

Lemma inCategory_last (k : string) (es : list (Expense A)) (e : Expense A)
  (rest : list (Expense A)) :
  inCategory k es = e :: rest ->
  In (last rest e) es /\ categoryOf (last rest e) = k.
Proof.
  intros Heq.
  assert (Hin : In (last rest e) (inCategory k es))
    by (rewrite Heq; apply last_in_cons).
  unfold inCategory in Hin. apply filter_In in Hin. destruct Hin as [Hin Hk].
  split; [assumption | now apply String.eqb_eq].
Qed.

(** What a bucket holds, read off the map. *)
Lemma calcCategorySummary_bucket (es : list (Expense A)) (b : CategoryTotal A) :
  In b (calcCategorySummary es) ->
  exists e rest,
    inCategory (category b) es = e :: rest
    /\ total_amount b = sumAmounts (e :: rest)
    /\ total_color b = colorOf (last rest e).
Proof.
  unfold calcCategorySummary. intros Hin.
  apply in_map_iff in Hin. destruct Hin as [[k v] [Hb Hin]]. subst b. simpl.
  apply (Map_get_In _ _ _ (buildCategoryMap_NoDup es)) in Hin.
  rewrite buildCategoryMap_get in Hin.
  destruct (inCategory k es) as [|e rest]; [discriminate|].
  inversion Hin. subst v. exists e, rest. simpl. auto.
Qed.

Lemma keys_firstOccurrences (es : list (Expense A)) (m : CategoryMap A)
  (seen : list string) :
  (forall k, In k seen <-> In k (map fst m)) ->
  map fst (fold_left addToCategory es m)
  = (map fst m ++ firstOccurrences seen (map categoryOf es))%list.
Proof.
  revert m seen. induction es as [|e es IH]; intros m seen Hseen; simpl.
  - now rewrite app_nil_r.
  - destruct (existsb (String.eqb (categoryOf e)) seen) eqn:Hex.
    + apply existsb_exists in Hex. destruct Hex as [k [Hk Heq]].
      apply String.eqb_eq in Heq. subst k. apply Hseen in Hk.
      rewrite (IH (addToCategory m e) seen).
      * unfold addToCategory. rewrite Map_set_keys.
        destruct (Map_get m (categoryOf e)) eqn:Hget; [reflexivity|].
        apply Map_get_None in Hget. contradiction.
      * intros k. rewrite Hseen. unfold addToCategory. rewrite Map_set_keys.
        destruct (Map_get m (categoryOf e)) eqn:Hget; [reflexivity|].
        apply Map_get_None in Hget. contradiction.
    + assert (Hnot : ~ In (categoryOf e) (map fst m)).
      { intros Hin. apply Hseen in Hin.
        assert (Htrue : existsb (String.eqb (categoryOf e)) seen = true).
        { apply existsb_exists. exists (categoryOf e).
          split; [assumption | apply String.eqb_refl]. }
        congruence. }
      apply Map_get_None in Hnot.
      rewrite (IH (addToCategory m e) (categoryOf e :: seen)).
      * unfold addToCategory. rewrite Map_set_keys, Hnot.
        now rewrite <- app_assoc.
      * intros k. unfold addToCategory. rewrite Map_set_keys, Hnot.
        rewrite in_app_iff. simpl. rewrite Hseen. tauto.
Qed.

End SummaryShape.

(** On every arithmetic, JavaScript numbers included: the buckets of the
    category summary carry pairwise distinct names; a name has a bucket
    exactly when some expense resolves to it; the amount of a bucket is
    the left-to-right sum, from 0, of the amounts of the expenses of its
    category in the order of the input, and its colour is that of the
    last of them. *)
Theorem category_summary_structure {A : Type} {AR : Arith A}
  (expenses : list (Store.Expense A)) :
  NoDup (map Dashboard.category (Dashboard.calcCategorySummary expenses))
  /\ (forall k,
        In k (map Dashboard.category (Dashboard.calcCategorySummary expenses))
        <-> exists e, In e expenses /\ Dashboard.categoryOf e = k)
  /\ (forall b, In b (Dashboard.calcCategorySummary expenses) ->
        exists e rest,
          Dashboard.inCategory (Dashboard.category b) expenses = e :: rest
          /\ Dashboard.total_amount b = Dashboard.sumAmounts (e :: rest)
          /\ Dashboard.total_color b = Dashboard.colorOf (last rest e)).
Proof.
  split; [|split].
  - rewrite calcCategorySummary_keys. apply buildCategoryMap_NoDup.
  - apply calcCategorySummary_covers.
  - apply calcCategorySummary_bucket.
Qed.

(** The buckets come in the order in which their categories first occur
    in the input, and the figure "Active categories" never exceeds the
    number of expenses. *)
Theorem category_summary_first_seen {A : Type} {AR : Arith A}
  (tz : TimeZone) (now : Z) (expenses : list (Store.Expense A))
  (stats : Dashboard.DashboardStats A) :
  map Dashboard.category (Dashboard.calcCategorySummary expenses)
  = Dashboard.firstOccurrences [] (map Dashboard.categoryOf expenses)
  /\ (Dashboard.activeCategories
        (Dashboard.fetchDashboardData tz now (Some expenses) stats)
      <= List.length expenses)%nat.
Proof.
  split.
  - rewrite calcCategorySummary_keys. unfold Dashboard.buildCategoryMap.
    rewrite (keys_firstOccurrences expenses [] []); [reflexivity|].
    intros k. simpl. tauto.
  - unfold Dashboard.activeCategories. cbn [Dashboard.fetchDashboardData Dashboard.categorySummary].
    rewrite <- (length_map Dashboard.category), <- (length_map Dashboard.categoryOf expenses).
    apply NoDup_incl_length.
    + rewrite calcCategorySummary_keys. apply buildCategoryMap_NoDup.
    + intros k Hin. apply calcCategorySummary_covers in Hin.
      destruct Hin as [e [Hin Heq]]. subst k. now apply in_map.
Qed.

(** When every expense carries one of the categories the migration
    inserts, or none, every bucket of the summary has the name and the
    colour of one of those nine categories (an expense without category
    falls in with "Other" and takes its colour), and there are at most
    nine buckets. *)
Theorem category_summary_of_seeded {A : Type} {AR : Arith A}
  (expenses : list (Store.Expense A)) :
  (forall e, In e expenses ->
     forall c, Store.expense_categories e = Some c -> In c Store.defaultCategories) ->
  (forall b, In b (Dashboard.calcCategorySummary expenses) ->
     In (Dashboard.category b, Dashboard.total_color b)
        (map (fun c => (Store.name c, Store.color c)) Store.defaultCategories))
  /\ (List.length (Dashboard.calcCategorySummary expenses) <= 9)%nat.
Proof.
  intros Hseed.
  assert (Hpair : forall e, In e expenses ->
            In (Dashboard.categoryOf e, Dashboard.colorOf e)
               (map (fun c => (Store.name c, Store.color c)) Store.defaultCategories)).
  { intros e Hin. specialize (Hseed e Hin).
    unfold Dashboard.categoryOf, Dashboard.colorOf.
    destruct (Store.expense_categories e) as [c|].
    - specialize (Hseed c eq_refl). simpl in Hseed.
      repeat (destruct Hseed as [<-|Hseed]; [simpl; tauto|]). destruct Hseed.
    - simpl. tauto. }
  split.
  - intros b Hb. destruct (calcCategorySummary_bucket expenses b Hb)
      as [e [rest [Hcat [_ Hcol]]]].
    destruct (inCategory_last _ _ _ _ Hcat) as [Hin Hk].
    rewrite Hcol, <- Hk. now apply Hpair.
  - rewrite <- (length_map Dashboard.category).
    change 9%nat with (List.length (map Store.name Store.defaultCategories)).
    apply NoDup_incl_length.
    + rewrite calcCategorySummary_keys. apply buildCategoryMap_NoDup.
    + intros k Hin. apply calcCategorySummary_covers in Hin.
      destruct Hin as [e [Hin Heq]]. subst k.
      apply Hpair in Hin. apply in_map_iff in Hin.
      destruct Hin as [c [Hc Hinc]].
      assert (Hn : Store.name c = Dashboard.categoryOf e) by congruence.
      rewrite <- Hn. now apply in_map.
Qed.

(** Expenses with the seeded categories "Food & Dining" and "Other" and
    one without category: two buckets. *)
Lemma category_summary_of_seeded_witness :
  (List.length
     (Dashboard.calcCategorySummary
        [ Examples.expenseOf "e1" 10%float "2024-03-01"
            (Some {| Store.name := "Food & Dining"; Store.color := "#F59E0B";
                     Store.icon := Some "🍔" |});
          Examples.expenseOf "e2" 5%float "2024-03-01" None;
          Examples.expenseOf "e3" 7%float "2024-03-02"
            (Some {| Store.name := "Other"; Store.color := "#6B7280";
                     Store.icon := Some "📌" |}) ]) <= 9)%nat.
Proof.
  apply category_summary_of_seeded.
  intros e [<-|[<-|[<-|[]]]] c Hc; inversion Hc; subst; simpl; tauto.
Defined.

(* ================================================================== *)
(** * Dashboard: an empty table *)
(* ================================================================== *)

(** Without expenses.  When the select returns no data the figures stay
    as they were; when it returns an empty list they are reset: both
    totals are 0, there is no category, and the trend still has its
    seven days, each with 0.  For every list the trend has seven
    entries, whatever the time zone. *)
Theorem dashboard_without_expenses {A : Type} {AR : Arith A} (tz : TimeZone) (now : Z)
  (expenses : list (Store.Expense A)) (stats : Dashboard.DashboardStats A) :
  Dashboard.fetchDashboardData tz now None stats = stats
  /\ Dashboard.fetchDashboardData tz now (Some []) stats
     = {| Dashboard.totalExpenses := zero;
          Dashboard.monthlyExpenses := zero;
          Dashboard.categorySummary := [];
          Dashboard.dailyTrend :=
            map (fun d => {| Dashboard.day_date := d; Dashboard.day_amount := zero |})
                (Dashboard.last7Days tz now) |}
  /\ List.length
       (Dashboard.dailyTrend (Dashboard.fetchDashboardData tz now (Some expenses) stats))
     = 7%nat
  /\ Dashboard.activeCategories (Dashboard.fetchDashboardData tz now (Some []) stats)
     = 0%nat.
Proof.
  split; [reflexivity|]. split; [reflexivity|]. split; [|reflexivity].
  cbn [Dashboard.fetchDashboardData Dashboard.dailyTrend].
  unfold Dashboard.calcDailyTrend, Dashboard.last7Days. now rewrite !length_map.
Qed.

(* ================================================================== *)
(** * The two figures of the month *)
(* ================================================================== *)

Section CalendarOrder.

Lemma DaysInMonth_range (y m : Z) : 0 <= m <= 11 -> 1 <= DaysInMonth y m <= 31.
Proof.
  intros H. unfold DaysInMonth.
  assert (Hc : m = 0 \/ m = 1 \/ m = 2 \/ m = 3 \/ m = 4 \/ m = 5 \/ m = 6
               \/ m = 7 \/ m = 8 \/ m = 9 \/ m = 10 \/ m = 11) by lia.
  destruct (isLeap y);
    repeat (destruct Hc as [->|Hc]; [vm_compute; split; discriminate|]);
    subst; vm_compute; split; discriminate.
Qed.

Lemma monthIndexStart_next (n : Z) :
  monthIndexStart (n + 1) = monthIndexStart n + DaysInMonth (n / 12) (n mod 12).
Proof.
  unfold monthIndexStart, DaysInMonth.
  pose proof (Z.mod_pos_bound n 12 ltac:(lia)) as Hm.
  destruct (Z.eqb_spec (n mod 12) 11) as [H11|H11].
  - assert (Hq : (n + 1) / 12 = n / 12 + 1) by (Z.to_euclidean_division_equations; lia).
    assert (Hr : (n + 1) mod 12 = 0) by (Z.to_euclidean_division_equations; lia).
    rewrite Hq, Hr, H11, DayFromYear_next. unfold DaysInYear.
    destruct (isLeap (n / 12)); destruct (isLeap (n / 12 + 1)); simpl; lia.
  - assert (Hq : (n + 1) / 12 = n / 12) by (Z.to_euclidean_division_equations; lia).
    assert (Hr : (n + 1) mod 12 = n mod 12 + 1) by (Z.to_euclidean_division_equations; lia).
    rewrite Hq, Hr. lia.
Qed.

Lemma monthIndexStart_lt (n1 n2 : Z) :
  n1 < n2 ->
  monthIndexStart n1 + DaysInMonth (n1 / 12) (n1 mod 12) <= monthIndexStart n2.
Proof.
  intros Hlt. 
  assert (Hgen : forall k : nat, 
     monthIndexStart n1 + DaysInMonth (n1 / 12) (n1 mod 12) <= monthIndexStart (n1 + 1 + Z.of_nat k)).
  { induction k as [|k IH].
    - rewrite Z.add_0_r, monthIndexStart_next. lia.
    - replace (n1 + 1 + Z.of_nat (S k)) with (n1 + 1 + Z.of_nat k + 1) by lia.
      rewrite monthIndexStart_next.
      pose proof (DaysInMonth_range ((n1 + 1 + Z.of_nat k) / 12) ((n1 + 1 + Z.of_nat k) mod 12)
                    ltac:(pose proof (Z.mod_pos_bound (n1 + 1 + Z.of_nat k) 12); lia)).
      lia. }
  specialize (Hgen (Z.to_nat (n2 - n1 - 1))).
  replace (n1 + 1 + Z.of_nat (Z.to_nat (n2 - n1 - 1))) with n2 in Hgen by lia.
  exact Hgen.
Qed.

Lemma MakeDay_monthIndex (y m d : Z) :
  0 <= m <= 11 -> MakeDay y m d = monthIndexStart (y * 12 + m) + d - 1.
Proof.
  intros Hm. unfold MakeDay, monthIndexStart.
  assert (Hq : (y * 12 + m) / 12 = y) by (Z.to_euclidean_division_equations; lia).
  assert (Hr : (y * 12 + m) mod 12 = m) by (Z.to_euclidean_division_equations; lia).
  rewrite Hq, Hr, (Z.div_small m 12), (Z.mod_small m 12) by lia.
  rewrite Z.add_0_r. reflexivity.
Qed.

(** Calendar order and day numbers agree on valid dates. *)
Lemma MakeDay_order (y1 m1 d1 y2 m2 d2 : Z) :
  0 <= m1 <= 11 -> 1 <= d1 <= DaysInMonth y1 m1 ->
  0 <= m2 <= 11 -> 1 <= d2 <= DaysInMonth y2 m2 ->
  (MakeDay y1 m1 d1 <= MakeDay y2 m2 d2
   <-> (y1 * 12 + m1) * 31 + (d1 - 1) <= (y2 * 12 + m2) * 31 + (d2 - 1)).
Proof.
  intros Hm1 Hd1 Hm2 Hd2.
  rewrite !MakeDay_monthIndex by assumption.
  pose proof (DaysInMonth_range y1 m1 Hm1) as Hr1.
  pose proof (DaysInMonth_range y2 m2 Hm2) as Hr2.
  assert (Hq1 : (y1 * 12 + m1) / 12 = y1) by (Z.to_euclidean_division_equations; lia).
  assert (Hmod1 : (y1 * 12 + m1) mod 12 = m1) by (Z.to_euclidean_division_equations; lia).
  assert (Hq2 : (y2 * 12 + m2) / 12 = y2) by (Z.to_euclidean_division_equations; lia).
  assert (Hmod2 : (y2 * 12 + m2) mod 12 = m2) by (Z.to_euclidean_division_equations; lia).
  destruct (Z.lt_trichotomy (y1 * 12 + m1) (y2 * 12 + m2)) as [Hlt|[Heq|Hgt]].
  - pose proof (monthIndexStart_lt _ _ Hlt) as H. rewrite Hq1, Hmod1 in H. lia.
  - rewrite Heq. lia.
  - pose proof (monthIndexStart_lt _ _ Hgt) as H. rewrite Hq2, Hmod2 in H. lia.
Qed.

Lemma dateFields_valid (s : string) (y m d : Z) :
  dateFields s = Some (y, m, d) ->
  1 <= m <= 12 /\ 1 <= d <= DaysInMonth y (m - 1).
Proof.
  unfold dateFields.
  destruct (negb (String.length s =? 10)%nat); [discriminate|].
  destruct (negb _); [discriminate|].
  destruct (digits (substring 0 4 s)) as [y'|]; [|discriminate].
  destruct (digits (substring 5 2 s)) as [m'|]; [|discriminate].
  destruct (digits (substring 8 2 s)) as [d'|]; [|discriminate].
  destruct ((1 <=? m') && (m' <=? 12) && (1 <=? d') && (d' <=? DaysInMonth y' (m' - 1)))
    eqn:Hok; [|discriminate].
  intros H. inversion H. subst.
  repeat (apply andb_true_iff in Hok; destruct Hok as [Hok ?]).
  apply Z.leb_le in Hok. repeat match goal with H : (_ <=? _) = true |- _ =>
    apply Z.leb_le in H end. lia.
Qed.

(** On rows with valid dates, the dashboard's test of the month and the
    store's test [date >= key] agree when the zone is at or east of UTC;
    west of UTC the dashboard's test is the strict one. *)
Lemma month_tests_agree (off now : Z) (s : string) :
  - msPerDay < off < msPerDay ->
  1000 <= getFullYear (fixedZone off) now <= 9999 ->
  dateFields s <> None ->
  Date_ge (Date_parse s) (Dashboard.firstDayOfMonth (fixedZone off) now)
  = if 0 <=? off
    then Store.dateOrd (BudgetTracker.monthKey (fixedZone off) now) <=? Store.dateOrd s
    else Store.dateOrd (BudgetTracker.monthKey (fixedZone off) now) <? Store.dateOrd s.
Proof.
  intros Hoff Hyear Hvalid.
  unfold Store.dateOrd. rewrite (monthKey_fields _ _ Hyear). unfold Date_parse.
  destruct (dateFields s) as [[[y m] d]|] eqn:Hs; [|congruence].
  destruct (dateFields_valid _ _ _ _ Hs) as [Hm Hd].
  rewrite (month_filter_fixedZone off now _ Hoff).
  pose proof (monthOfYearDay_range (InLeapYear (LocalTime (fixedZone off) now))
                (DayWithinYear (LocalTime (fixedZone off) now))) as HM.
  fold (MonthFromTime (LocalTime (fixedZone off) now)) in HM.
  fold (getMonth (fixedZone off) now) in HM.
  assert (Hfirst : firstDayNumber (fixedZone off) now
                   = MakeDay (getFullYear (fixedZone off) now) (getMonth (fixedZone off) now) 1).
  { unfold firstDayNumber.
    destruct (Z.leb_spec 0 (getFullYear (fixedZone off) now));
      destruct (Z.leb_spec (getFullYear (fixedZone off) now) 99); simpl; try reflexivity; lia. }
  rewrite Hfirst.
  pose proof (DaysInMonth_range (getFullYear (fixedZone off) now)
                (getMonth (fixedZone off) now) HM) as HD1.
  pose proof (MakeDay_order (getFullYear (fixedZone off) now) (getMonth (fixedZone off) now) 1
                y (m - 1) d HM ltac:(lia) ltac:(lia) Hd) as Hle.
  pose proof (MakeDay_order y (m - 1) d
                (getFullYear (fixedZone off) now) (getMonth (fixedZone off) now) 1
                ltac:(lia) Hd HM ltac:(lia)) as Hge.
  replace (getMonth (fixedZone off) now + 1 - 1) with (getMonth (fixedZone off) now) by lia.
  destruct (0 <=? off).
  - destruct (Z.leb_spec (MakeDay (getFullYear (fixedZone off) now)
                            (getMonth (fixedZone off) now) 1) (MakeDay y (m - 1) d));
      [apply eq_sym, Z.leb_le | apply eq_sym, Z.leb_gt]; lia.
  - destruct (Z.ltb_spec (MakeDay (getFullYear (fixedZone off) now)
                            (getMonth (fixedZone off) now) 1) (MakeDay y (m - 1) d));
      [apply eq_sym, Z.ltb_lt | apply eq_sym, Z.ltb_ge]; lia.
Qed.

End CalendarOrder.

Section SameRows.
Import Store Dashboard.
Context {A : Type} {AR : Arith A}.

Lemma filter_Permutation {B : Type} (f : B -> bool) (l l' : list B) :
  Permutation l l' -> Permutation (filter f l) (filter f l').
Proof.
  induction 1 as [|x l l' _ IH|x y l|l l' l'' _ IH1 _ IH2]; simpl.
  - constructor.
  - destruct (f x); [now constructor | assumption].
  - destruct (f x), (f y); try apply Permutation_refl. apply perm_swap.
  - now apply perm_trans with (filter f l').
Qed.

(** The rows the dashboard counts for the month are, in another order,
    those the store's test of the date lets through. *)
Lemma month_rows_fixedZone (off now : Z) (rows : list (Expense A)) :
  - msPerDay < off < msPerDay ->
  1000 <= getFullYear (fixedZone off) now <= 9999 ->
  (forall r, In r rows -> dateFields (date r) <> None) ->
  Permutation
    (filter (fun exp => Date_ge (Date_parse (date exp))
                          (firstDayOfMonth (fixedZone off) now)) (query rows))
    (filter (fun r =>
               if 0 <=? off
               then dateOrd (BudgetTracker.monthKey (fixedZone off) now) <=? dateOrd (date r)
               else dateOrd (BudgetTracker.monthKey (fixedZone off) now) <? dateOrd (date r))
            rows).
Proof.
  intros Hoff Hyear Hvalid. unfold query.
  apply perm_trans with
    (filter (fun exp => Date_ge (Date_parse (date exp))
                          (firstDayOfMonth (fixedZone off) now)) rows).
  - apply filter_Permutation, orderByDateDesc_Permutation.
  - erewrite filter_ext_in; [apply Permutation_refl|].
    intros r Hr. cbv beta.
    now rewrite (month_tests_agree off now _ Hoff Hyear (Hvalid r Hr)).
Qed.

Context {EX : ExactArith A}.

Lemma sumAmounts_Permutation (l l' : list (Expense A)) :
  Permutation l l' -> sumAmounts l = sumAmounts l'.
Proof.
  intros Hperm. change (calcTotalExpenses l = calcTotalExpenses l').
  rewrite !calcTotalExpenses_total.
  apply total_Permutation. now apply Permutation_map.
Qed.

End SameRows.

(** The two figures of the month, each on the rows of its own select: the
    dashboard's on all rows, most recent first; the budget card's on the
    rows dated on or after the first of the month, in the order of the
    table.  In a zone of constant offset of less than a day, in a year
    of four digits and on a table with valid dates: at or east of UTC
    the rows the dashboard counts are those the budget card fetches, in
    another order; west of UTC they are the rows dated strictly after
    the first day of the month.  When amounts add up exactly the
    figures are then the same sums; on the numbers the code adds they
    are sums of the same amounts in two orders. *)
Theorem month_figures_agree {A : Type} {AR : Arith A} (off now : Z)
  (rows : list (Store.Expense A)) :
  - msPerDay < off < msPerDay ->
  1000 <= getFullYear (fixedZone off) now <= 9999 ->
  (forall r, In r rows -> dateFields (Store.date r) <> None) ->
  let counted :=
    filter (fun exp => Date_ge (Date_parse (Store.date exp))
                         (Dashboard.firstDayOfMonth (fixedZone off) now))
           (Dashboard.query rows) in
  let later :=
    filter (fun r => Store.dateOrd (BudgetTracker.monthKey (fixedZone off) now)
                     <? Store.dateOrd (Store.date r)) rows in
  Dashboard.calcMonthlyExpenses (fixedZone off) now (Dashboard.query rows)
  = fold_left (fun sum exp => add sum (Store.amount exp)) counted zero
  /\ BudgetTracker.calcMonthlySpending (fixedZone off) now rows
     = fold_left (fun sum exp => add sum (Store.amount exp))
         (BudgetTracker.spendingQuery (fixedZone off) now rows) zero
  /\ (0 <= off ->
      Permutation counted (BudgetTracker.spendingQuery (fixedZone off) now rows)
      /\ (ExactArith A ->
          Dashboard.calcMonthlyExpenses (fixedZone off) now (Dashboard.query rows)
          = BudgetTracker.calcMonthlySpending (fixedZone off) now rows))
  /\ (off < 0 ->
      Permutation counted later
      /\ (ExactArith A ->
          Dashboard.calcMonthlyExpenses (fixedZone off) now (Dashboard.query rows)
          = BudgetTracker.calcTotal later)).
Proof.
  intros Hoff Hyear Hvalid counted later.
  pose proof (month_rows_fixedZone off now rows Hoff Hyear Hvalid) as Hperm.
  fold counted in Hperm.
  split; [reflexivity|]. split; [reflexivity|]. split; intros Hsign.
  - assert (Hrows : Permutation counted
                      (BudgetTracker.spendingQuery (fixedZone off) now rows)).
    { destruct (Z.leb_spec 0 off); [exact Hperm | lia]. }
    split; [exact Hrows|]. intros EX.
    exact (sumAmounts_Permutation _ _ Hrows).
  - assert (Hrows : Permutation counted later).
    { destruct (Z.leb_spec 0 off); [lia | exact Hperm]. }
    split; [exact Hrows|]. intros EX.
    exact (sumAmounts_Permutation _ _ Hrows).
Qed.

(** Two hours east of UTC on 2 March 2024, both figures are 3500. *)
Lemma month_figures_agree_witness :
  Dashboard.calcMonthlyExpenses (fixedZone (2 * msPerHour)) Examples.march2
    (Dashboard.query Examples.marchMinor)
  = BudgetTracker.calcMonthlySpending (fixedZone (2 * msPerHour)) Examples.march2
      Examples.marchMinor.
Proof.
  refine (proj2 (proj1 (proj2 (proj2
            (month_figures_agree (2 * msPerHour) Examples.march2 Examples.marchMinor
               _ _ _))) _) minorUnits_exact).
  - vm_compute. split; reflexivity.
  - vm_compute. split; discriminate.
  - intros r [<-|[<-|[<-|[]]]]; vm_compute; discriminate.
  - vm_compute. discriminate.
Defined.

(** On the numbers the code adds the two figures can differ: at UTC on
    5 March 2024, with 0.10, 0.20 and 0.30 spent on the first three days
    of the month, the dashboard adds 0.3, 0.2 and 0.1 and shows 0.6, the
    budget card adds 0.1, 0.2 and 0.3 and holds 0.6000000000000001. *)
Example month_figures_differ_on_numbers :
  map Store.amount (Dashboard.query Examples.tenthsByDay)
  = [0.3%float; 0.2%float; 0.1%float]
  /\ map Store.amount
       (BudgetTracker.spendingQuery (fixedZone 0) Examples.march5 Examples.tenthsByDay)
     = [0.1%float; 0.2%float; 0.3%float]
  /\ Dashboard.calcMonthlyExpenses (fixedZone 0) Examples.march5
       (Dashboard.query Examples.tenthsByDay)
     = 0.6%float
  /\ BudgetTracker.calcMonthlySpending (fixedZone 0) Examples.march5 Examples.tenthsByDay
     = 0.60000000000000009%float.
Proof.
  split; [vm_compute; reflexivity|]. split; [vm_compute; reflexivity|].
  split; vm_compute; reflexivity.
Qed.

(* ================================================================== *)
(** * Dates as text: from the clock to the form and back *)
(* ================================================================== *)

Section IsoText.

Lemma isDigit_not_T (a : ascii) : isDigit a = true -> Ascii.eqb a "T" = false.
Proof.
  destruct a as [[] [] [] [] [] [] [] []]; vm_compute; intros H;
    first [reflexivity | discriminate H].
Qed.

Lemma digitsValue_head (acc : Z) (a : ascii) (r : string) (v : Z) :
  digitsValue acc (String a r) = Some v ->
  isDigit a = true
  /\ digitsValue (10 * acc + (Z.of_nat (nat_of_ascii a) - 48)) r = Some v.
Proof.
  simpl. destruct (isDigit a); [auto | discriminate].
Qed.

(** The date part of the ISO text of three fields already rendered. *)
Lemma isoText_fields (sy sm sd r : string) (y m d : Z) :
  readsAs 4 y sy = true -> readsAs 2 m sm = true -> readsAs 2 d sd = true ->
  splitHead "T" (sy ++ "-" ++ sm ++ "-" ++ sd ++ "T" ++ r) = sy ++ "-" ++ sm ++ "-" ++ sd
  /\ dateFields (sy ++ "-" ++ sm ++ "-" ++ sd)
     = if (1 <=? m) && (m <=? 12) && (1 <=? d) && (d <=? DaysInMonth y (m - 1))
       then Some (y, m, d) else None.
Proof.
  intros Hy Hm Hd.
  apply readsAs_spec in Hy, Hm, Hd.
  destruct Hy as [Hly Hy], Hm as [Hlm Hm], Hd as [Hld Hd].
  destruct sy as [|a [|b [|c [|e [|? ?]]]]]; try discriminate.
  destruct sm as [|f [|g [|? ?]]]; try discriminate.
  destruct sd as [|h [|i [|? ?]]]; try discriminate.
  split.
  - unfold digits in Hy, Hm, Hd.
    apply digitsValue_head in Hy. destruct Hy as [Ha Hy].
    apply digitsValue_head in Hy. destruct Hy as [Hb Hy].
    apply digitsValue_head in Hy. destruct Hy as [Hc Hy].
    apply digitsValue_head in Hy. destruct Hy as [He _].
    apply digitsValue_head in Hm. destruct Hm as [Hf Hm].
    apply digitsValue_head in Hm. destruct Hm as [Hg _].
    apply digitsValue_head in Hd. destruct Hd as [Hh Hd].
    apply digitsValue_head in Hd. destruct Hd as [Hi _].
    cbn [append splitHead].
    rewrite (isDigit_not_T a Ha), (isDigit_not_T b Hb), (isDigit_not_T c Hc),
      (isDigit_not_T e He), (isDigit_not_T f Hf), (isDigit_not_T g Hg),
      (isDigit_not_T h Hh), (isDigit_not_T i Hi).
    reflexivity.
  - unfold dateFields. cbn -[digits DaysInMonth Z.leb].
    rewrite Hy, Hm, Hd. reflexivity.
Qed.

Lemma isoYear_text_all :
  forallb (fun y => readsAs 4 y (isoYear y)) (zrange 0 10000) = true.
Proof. vm_compute. reflexivity. Qed.

Lemma day_text_all :
  forallb (fun d => readsAs 2 d (pad2 d)) (zrange 1 31) = true.
Proof. vm_compute. reflexivity. Qed.

Lemma toISOString_date (t : Z) :
  0 <= YearFromTime t <= 9999 ->
  splitHead "T" (toISOString t)
  = isoYear (YearFromTime t) ++ "-" ++ pad2 (MonthFromTime t + 1) ++ "-"
    ++ pad2 (DateFromTime t)
  /\ dateFields (splitHead "T" (toISOString t))
     = Some (YearFromTime t, MonthFromTime t + 1, DateFromTime t).
Proof.
  intros Hy.
  pose proof (monthOfYearDay_range (InLeapYear t) (DayWithinYear t)) as Hm.
  fold (MonthFromTime t) in Hm.
  pose proof (DateFromTime_range t) as Hd.
  pose proof (DaysInMonth_range (YearFromTime t) (MonthFromTime t) Hm) as Hdim.
  assert (HY : readsAs 4 (YearFromTime t) (isoYear (YearFromTime t)) = true).
  { apply (proj1 (forallb_forall _ _) isoYear_text_all). apply zrange_In. lia. }
  assert (HM : readsAs 2 (MonthFromTime t + 1) (pad2 (MonthFromTime t + 1)) = true).
  { apply (proj1 (forallb_forall _ _) month_text_all (MonthFromTime t)).
    apply zrange_In. lia. }
  assert (HD : readsAs 2 (DateFromTime t) (pad2 (DateFromTime t)) = true).
  { apply (proj1 (forallb_forall _ _) day_text_all). apply zrange_In. lia. }
  destruct (isoText_fields _ _ _
              (pad2 (HourFromTime t) ++ ":" ++ pad2 (MinFromTime t) ++ ":"
               ++ pad2 (SecFromTime t) ++ "." ++ padStart 3 "0" (String_of (msFromTime t))
               ++ "Z") _ _ _ HY HM HD) as [Hsplit Hfields].
  unfold toISOString. rewrite Hsplit. split; [reflexivity|].
  rewrite Hfields.
  replace (MonthFromTime t + 1 - 1) with (MonthFromTime t) by lia.
  destruct (Z.leb_spec 1 (MonthFromTime t + 1)); [|lia].
  destruct (Z.leb_spec (MonthFromTime t + 1) 12); [|lia].
  destruct (Z.leb_spec 1 (DateFromTime t)); [|lia].
  destruct (Z.leb_spec (DateFromTime t) (DaysInMonth (YearFromTime t) (MonthFromTime t)));
    [reflexivity | lia].
Qed.

Lemma Date_parse_isoDate (t : Z) :
  0 <= YearFromTime t <= 9999 ->
  Date_parse (splitHead "T" (toISOString t)) = Some (Day t * msPerDay).
Proof.
  intros Hy. unfold Date_parse. rewrite (proj2 (toISOString_date t Hy)).
  replace (MonthFromTime t + 1 - 1) with (MonthFromTime t) by lia.
  rewrite MakeDay_of_fields. unfold MakeDate. f_equal. lia.
Qed.

Lemma DayFromYear_mono (y1 y2 : Z) : y1 <= y2 -> DayFromYear y1 <= DayFromYear y2.
Proof. unfold DayFromYear. intros H. Z.to_euclidean_division_equations. lia. Qed.

Lemma yearOfDay_near (d k : Z) :
  0 <= k <= 365 -> yearOfDay d - 1 <= yearOfDay (d - k) <= yearOfDay d.
Proof.
  intros Hk.
  pose proof (yearOfDay_spec d) as Hd. pose proof (yearOfDay_spec (d - k)) as Hdk.
  pose proof (DayFromYear_next (yearOfDay d - 1)) as Hprev.
  replace (yearOfDay d - 1 + 1) with (yearOfDay d) in Hprev by lia.
  assert (Hlen : 365 <= DaysInYear (yearOfDay d - 1))
    by (unfold DaysInYear; destruct (isLeap _); lia).
  split.
  - destruct (Z.le_gt_cases (yearOfDay d - 1) (yearOfDay (d - k))) as [|Hlt]; [assumption|].
    pose proof (DayFromYear_mono (yearOfDay (d - k) + 1) (yearOfDay d - 1) ltac:(lia)). lia.
  - destruct (Z.le_gt_cases (yearOfDay (d - k)) (yearOfDay d)) as [|Hgt]; [assumption|].
    pose proof (DayFromYear_mono (yearOfDay d + 1) (yearOfDay (d - k)) ltac:(lia)). lia.
Qed.

Lemma dateFields_length (s : string) (f : Z * Z * Z) :
  dateFields s = Some f -> String.length s = 10%nat.
Proof.
  unfold dateFields. destruct (Nat.eqb_spec (String.length s) 10); [auto | discriminate].
Qed.

Lemma isoDateOfDay_injective (d1 d2 : Z) :
  0 <= yearOfDay d1 <= 9999 -> 0 <= yearOfDay d2 <= 9999 ->
  isoDateOfDay d1 = isoDateOfDay d2 -> d1 = d2.
Proof.
  intros H1 H2 Heq. unfold isoDateOfDay in Heq.
  assert (HD : forall d, Day (d * msPerDay) = d)
    by (intros d; unfold Day; apply Z.div_mul; unfold msPerDay; lia).
  assert (Hp1 := Date_parse_isoDate (d1 * msPerDay)).
  assert (Hp2 := Date_parse_isoDate (d2 * msPerDay)).
  unfold YearFromTime in Hp1, Hp2. rewrite HD in Hp1, Hp2.
  specialize (Hp1 H1). specialize (Hp2 H2). rewrite Heq, Hp2 in Hp1.
  inversion Hp1 as [Hmul]. unfold msPerDay in Hmul. lia.
Qed.

Lemma last7Days_NoDup (off now : Z) :
  1 <= YearFromTime now <= 9999 ->
  NoDup (Dashboard.last7Days (fixedZone off) now).
Proof.
  intros Hy. rewrite last7Days_fixedZone.
  assert (Hinj : forall i j, 0 <= i <= 6 -> 0 <= j <= 6 ->
            isoDateOfDay (Day now - 6 + i) = isoDateOfDay (Day now - 6 + j) -> i = j).
  { intros i j Hi Hj Heq.
    pose proof (yearOfDay_near (Day now) (6 - i) ltac:(lia)) as Hyi.
    pose proof (yearOfDay_near (Day now) (6 - j) ltac:(lia)) as Hyj.
    unfold YearFromTime in Hy.
    replace (Day now - (6 - i)) with (Day now - 6 + i) in Hyi by lia.
    replace (Day now - (6 - j)) with (Day now - 6 + j) in Hyj by lia.
    apply isoDateOfDay_injective in Heq; lia. }
  cbn [map].
  repeat (constructor;
          [ cbn [In]; intros Hin;
            repeat (destruct Hin as [Hin|Hin];
                    [apply Hinj in Hin; lia|]); exact Hin
          | ]).
  constructor.
Qed.

End IsoText.

(** The date a new form starts with reads back: in a year from 0 to
    9999 it has the ten characters [YYYY-MM-DD] of the UTC date of the
    clock, passes the form's test of the date, and [new Date] of it is
    midnight UTC of that same day. *)
Theorem default_date_reads_back (now : Z) :
  0 <= YearFromTime now <= 9999 ->
  dateFields (ExpenseDialog.defaultDate now)
  = Some (YearFromTime now, MonthFromTime now + 1, DateFromTime now)
  /\ String.length (ExpenseDialog.defaultDate now) = 10%nat
  /\ ExpenseDialog.dateIssues (ExpenseDialog.defaultDate now) = []
  /\ Date_parse (ExpenseDialog.defaultDate now) = Some (Day now * msPerDay).
Proof.
  intros Hy. unfold ExpenseDialog.defaultDate.
  pose proof (proj2 (toISOString_date now Hy)) as Hfields.
  pose proof (dateFields_length _ _ Hfields) as Hlen.
  split; [exact Hfields|]. split; [exact Hlen|]. split.
  - unfold ExpenseDialog.dateIssues. now rewrite Hlen.
  - now apply Date_parse_isoDate.
Qed.

(** At 2024-03-02T17:00Z the form starts with 2024-03-02. *)
Lemma default_date_reads_back_witness :
  dateFields (ExpenseDialog.defaultDate Examples.march2) = Some (2024, 3, 2).
Proof.
  refine (proj1 (default_date_reads_back Examples.march2 _)).
  vm_compute. split; discriminate.
Defined.


Section TrendTotals.
Import Store Dashboard.
Context {A : Type} {AR : Arith A}.

(** Among entries with distinct keys, at most one has a given key. *)
Lemma one_entry_per_key {B : Type} (f : B -> string) (k : string) (l : list B) :
  NoDup (map f l) ->
  (List.length (filter (fun x => String.eqb k (f x)) l) <= 1)%nat.
Proof.
  induction l as [|x l IH]; simpl; intros Hnd; [lia|].
  inversion Hnd as [|? ? Hnot Hnd']; subst. specialize (IH Hnd').
  destruct (String.eqb_spec k (f x)) as [->|Hne]; [|exact IH].
  assert (Hnone : filter (fun y => String.eqb (f x) (f y)) l = []).
  { clear IH Hnd Hnd'. induction l as [|y l IHl]; simpl; [reflexivity|].
    destruct (String.eqb_spec (f x) (f y)) as [Heq|_].
    - exfalso. apply Hnot. left. now symmetry.
    - apply IHl. intros Hin. apply Hnot. now right. }
  rewrite Hnone. simpl. lia.
Qed.

Context {EX : ExactArith A}.

Lemma add_interchange (a b c d : A) :
  add (add a b) (add c d) = add (add a c) (add b d).
Proof. now rewrite add_assoc, (add_swap_r a b c), <- add_assoc. Qed.

Lemma total_map_add {B : Type} (f g : B -> A) (l : list B) :
  total (map (fun x => add (f x) (g x)) l) = add (total (map f l)) (total (map g l)).
Proof.
  induction l as [|x l IH]; simpl.
  - now rewrite add_zero_l.
  - rewrite IH. apply add_interchange.
Qed.

Lemma total_no_match (s : string) (a : A) (ds : list string) :
  ~ In s ds -> total (map (fun d => if String.eqb s d then a else zero) ds) = zero.
Proof.
  induction ds as [|d ds IH]; simpl; intros Hnot; [reflexivity|].
  destruct (String.eqb_spec s d) as [->|_].
  - exfalso. apply Hnot. now left.
  - rewrite IH; [apply add_zero_l|]. intros Hin. apply Hnot. now right.
Qed.

Lemma total_one_match (s : string) (a : A) (ds : list string) :
  NoDup ds ->
  total (map (fun d => if String.eqb s d then a else zero) ds)
  = if existsb (String.eqb s) ds then a else zero.
Proof.
  induction 1 as [|d ds Hnot Hnd IH]; simpl; [reflexivity|].
  destruct (String.eqb_spec s d) as [->|Hne]; simpl.
  - rewrite (total_no_match d a ds Hnot). apply add_zero_r.
  - rewrite IH. apply add_zero_l.
Qed.

(** The sums per day add up to the sum over the expenses of those days. *)
Lemma per_day_totals (ds : list string) (es : list (Expense A)) :
  NoDup ds ->
  total (map (fun d => sumAmounts (filter (fun e => String.eqb (date e) d) es)) ds)
  = sumAmounts (filter (fun e => existsb (String.eqb (date e)) ds) es).
Proof.
  intros Hnd.
  assert (Hsum : forall l : list (Expense A), sumAmounts l = total (map amount l))
    by (intros l; exact (calcTotalExpenses_total l)).
  rewrite Hsum.
  rewrite (map_ext _ (fun d => total (map amount
                        (filter (fun e => String.eqb (date e) d) es))))
    by (intros d; apply Hsum).
  induction es as [|e es IH].
  - simpl. clear Hnd. induction ds as [|d ds IHd]; simpl; [reflexivity|].
    rewrite IHd. apply add_zero_l.
  - rewrite (map_ext _ (fun d => add (if String.eqb (date e) d then amount e else zero)
                                   (total (map amount
                                      (filter (fun e0 => String.eqb (date e0) d) es))))).
    + rewrite total_map_add, IH, (total_one_match _ _ _ Hnd). simpl.
      destruct (existsb (String.eqb (date e)) ds); simpl;
        [reflexivity | apply add_zero_l].
    + intros d. simpl. destruct (String.eqb (date e) d); simpl;
        [reflexivity | now rewrite add_zero_l].
Qed.

End TrendTotals.

(** In a zone of constant offset and a year from 1 to 9999, on every
    arithmetic, the numbers the code adds included: the seven days of
    the trend are pairwise distinct, so every expense is counted in one
    bar at most, and in one exactly when its date is one of the seven.
    When amounts add up exactly, the bars add up to the spend of the
    expenses dated within the seven days. *)
Theorem trend_counts_once {A : Type} {AR : Arith A} (off now : Z)
  (expenses : list (Store.Expense A)) (stats : Dashboard.DashboardStats A) :
  1 <= YearFromTime now <= 9999 ->
  let shown := Dashboard.fetchDashboardData (fixedZone off) now (Some expenses) stats in
  let counting (e : Store.Expense A) :=
    filter (fun d => String.eqb (Store.date e) (Dashboard.day_date d))
           (Dashboard.dailyTrend shown) in
  NoDup (map Dashboard.day_date (Dashboard.dailyTrend shown))
  /\ (forall e, In e expenses ->
        (List.length (counting e) <= 1)%nat
        /\ (counting e <> []
            <-> In (Store.date e) (Dashboard.last7Days (fixedZone off) now)))
  /\ (ExactArith A ->
        total (map Dashboard.day_amount (Dashboard.dailyTrend shown))
        = Dashboard.calcTotalExpenses
            (filter (fun e => existsb (String.eqb (Store.date e))
                                (Dashboard.last7Days (fixedZone off) now)) expenses)).
Proof.
  intros Hy shown counting. unfold counting, shown.
  cbn [Dashboard.fetchDashboardData Dashboard.dailyTrend].
  pose proof (last7Days_NoDup off now Hy) as Hnd.
  split; [rewrite calcDailyTrend_dates; exact Hnd|]. split.
  - intros e _. split.
    + apply one_entry_per_key. rewrite calcDailyTrend_dates. exact Hnd.
    + unfold Dashboard.calcDailyTrend.
      generalize (Dashboard.last7Days (fixedZone off) now) as ds.
      induction ds as [|d ds IH]; simpl; [tauto|].
      destruct (String.eqb_spec (Store.date e) d) as [->|Hne].
      * split; [intros _; now left | discriminate].
      * rewrite IH. split; [tauto | intros [Heq|Hin]; [congruence | assumption]].
  - intros EX. unfold Dashboard.calcDailyTrend. rewrite map_map.
    cbn [Dashboard.day_amount]. now apply per_day_totals.
Qed.

(** Five hours west of UTC on 2 March 2024, on the numbers 10, 5 and 20. *)
Lemma trend_counts_once_witness :
  NoDup (map Dashboard.day_date
           (Dashboard.dailyTrend
              (Dashboard.fetchDashboardData Examples.utcMinus5 Examples.march2
                 (Some Examples.march) Dashboard.initialStats))).
Proof.
  refine (proj1 (trend_counts_once (-5 * msPerHour) Examples.march2 Examples.march
                   Dashboard.initialStats _)).
  vm_compute. split; discriminate.
Defined.

(** On the numbers the code adds the bars need not add up to the total:
    at UTC on 5 March 2024, one cent spent that day and one and four
    cents the day before give the bars 0.05 and 0.01, which add up to
    0.060000000000000005, while the total spend is 0.06. *)
Example trend_bars_on_numbers :
  map Dashboard.day_amount
    (Dashboard.dailyTrend
       (Dashboard.fetchDashboardData (fixedZone 0) Examples.march5
          (Some Examples.cents) Dashboard.initialStats))
  = [0%float; 0%float; 0%float; 0%float; 0%float; 0.05%float; 0.01%float]
  /\ total (map Dashboard.day_amount
              (Dashboard.dailyTrend
                 (Dashboard.fetchDashboardData (fixedZone 0) Examples.march5
                    (Some Examples.cents) Dashboard.initialStats)))
     = 0.060000000000000005%float
  /\ Dashboard.totalExpenses
       (Dashboard.fetchDashboardData (fixedZone 0) Examples.march5
          (Some Examples.cents) Dashboard.initialStats)
     = 0.06%float
  /\ PrimFloat.ltb 0.06 0.060000000000000005 = true.
Proof.
  split; [vm_compute; reflexivity|]. split; [vm_compute; reflexivity|].
  split; vm_compute; reflexivity.
Qed.

(* ================================================================== *)
(** * ExpenseDialog: what the form sends *)
(* ================================================================== *)

Section SubmitFacts.
Import Effects ExpenseDialog.
Variable parseFloat : string -> float.
Variable isUuid : string -> bool.

Lemma amountIssues_nil (a : float) :
  amountIssues a = [] -> isNaN a = false /\ PrimFloat.ltb 0 a = true.
Proof.
  unfold amountIssues. destruct (isNaN a); [discriminate|].
  destruct (PrimFloat.ltb 0 a); [auto | discriminate].
Qed.

Lemma descriptionIssues_nil (d : string) :
  descriptionIssues d = [] -> (1 <= String_length d <= 200)%nat.
Proof.
  unfold descriptionIssues.
  destruct (Nat.ltb_spec (String_length d) 1); [discriminate|].
  destruct (Nat.ltb_spec 200 (String_length d)); [discriminate|]. lia.
Qed.

Lemma categoryIssues_nil (c : string) : categoryIssues isUuid c = [] -> isUuid c = true.
Proof. unfold categoryIssues. destruct (isUuid c); [auto | discriminate]. Qed.

Lemma dateIssues_nil (d : string) : dateIssues d = [] -> (1 <= String.length d)%nat.
Proof.
  unfold dateIssues. destruct (Nat.ltb_spec (String.length d) 1); [discriminate | auto].
Qed.

(** What passes the schema. *)
Lemma expenseSchema_parse_inl (a : float) (formData : FormData) (v : ExpenseFields) :
  expenseSchema_parse isUuid a formData = inl v ->
  v = {| f_amount := a;
         f_description := form_description formData;
         f_category_id := form_category_id formData;
         f_date := form_date formData |}
  /\ isNaN a = false /\ PrimFloat.ltb 0 a = true
  /\ (1 <= String_length (form_description formData) <= 200)%nat
  /\ isUuid (form_category_id formData) = true
  /\ (1 <= String.length (form_date formData))%nat.
Proof.
  unfold expenseSchema_parse.
  destruct (amountIssues a ++ descriptionIssues (form_description formData)
            ++ categoryIssues isUuid (form_category_id formData)
            ++ dateIssues (form_date formData))%list eqn:Hissues; [|discriminate].
  intros H. inversion H. split; [reflexivity|].
  apply app_eq_nil in Hissues. destruct Hissues as [Ha Hissues].
  apply app_eq_nil in Hissues. destruct Hissues as [Hd Hissues].
  apply app_eq_nil in Hissues. destruct Hissues as [Hc Hdt].
  destruct (amountIssues_nil _ Ha).
  repeat split; auto using categoryIssues_nil, dateIssues_nil;
    now apply descriptionIssues_nil.
Qed.

End SubmitFacts.

(** Whatever is typed and whatever the store answers, the expense form
    sends at most one write, and only when somebody is signed in and
    every field passed the schema: the amount is a number above 0, the
    [length] of the description is from 1 to 200, the category passes
    the uuid test and the date is not empty.  The write carries exactly the
    fields of the form, an insert carries the id of the signed-in user
    (so the insert policy admits it), and the dialog is closed only
    after a write the store accepted. *)
Theorem submit_sends_only_valid (parseFloat : string -> float) (isUuid : string -> bool)
  (formData : ExpenseDialog.FormData) (expense session : option string)
  (resp : Store.Response) :
  let sent := ExpenseDialog.handleSubmit parseFloat isUuid formData expense session resp in
  let amount := parseFloat (ExpenseDialog.form_amount formData) in
  let fields :=
    {| Effects.f_amount := amount;
       Effects.f_description := ExpenseDialog.form_description formData;
       Effects.f_category_id := ExpenseDialog.form_category_id formData;
       Effects.f_date := ExpenseDialog.form_date formData |} in
  (List.length (filter Effects.isMutation sent) <= 1)%nat
  /\ (forall e, In e sent -> Effects.isMutation e = true ->
        exists user,
          session = Some user
          /\ e = match expense with
                 | Some id => Effects.update_expense id fields
                 | None => Effects.insert_expense user fields
                 end
          /\ Page.allowedFor user e = true
          /\ isNaN amount = false /\ PrimFloat.ltb 0 amount = true
          /\ (1 <= String_length (ExpenseDialog.form_description formData) <= 200)%nat
          /\ isUuid (ExpenseDialog.form_category_id formData) = true
          /\ (1 <= String.length (ExpenseDialog.form_date formData))%nat)
  /\ (In (Effects.onOpenChange_called false) sent ->
        resp = Store.Ok /\ filter Effects.isMutation sent <> []).
Proof.
  intros sent amount fields. unfold sent, ExpenseDialog.handleSubmit.
  fold amount.
  destruct (ExpenseDialog.expenseSchema_parse isUuid amount formData)
    as [validated|issues] eqn:Hparse.
  - destruct (expenseSchema_parse_inl isUuid _ _ _ Hparse)
      as [Hv [Hnan [Hpos [Hdesc [Hcat Hdate]]]]].
    fold fields in Hv. subst validated.
    destruct session as [user|].
    + assert (Hallowed : Page.allowedFor user
                (match expense with
                 | Some id => Effects.update_expense id fields
                 | None => Effects.insert_expense user fields
                 end) = true).
      { destruct expense; simpl; [reflexivity | apply String.eqb_refl]. }
      split; [|split].
      * destruct resp, expense; simpl; lia.
      * intros e Hin Hmut. exists user.
        assert (He : e = match expense with
                         | Some id => Effects.update_expense id fields
                         | None => Effects.insert_expense user fields
                         end).
        { destruct resp; simpl in Hin;
            repeat (destruct Hin as [<-|Hin];
                    [first [reflexivity | discriminate Hmut]|]); destruct Hin. }
        rewrite He. repeat split; auto; apply Hdesc.
      * intros Hin. destruct resp as [|message].
        -- split; [reflexivity|]. destruct expense; simpl; discriminate.
        -- exfalso. simpl in Hin.
           destruct Hin as [Hin|[Hin|[]]]; [destruct expense|]; discriminate Hin.
    + split; [simpl; lia|]. split.
      * intros e [<-|[]] Hmut. discriminate Hmut.
      * intros [Hin|[]]. discriminate Hin.
  - split; [simpl; lia|]. split.
    + intros e [<-|[]] Hmut. discriminate Hmut.
    + intros [Hin|[]]. discriminate Hin.
Qed.

(** A form that fails the schema gets exactly one message, that of the
    first failing field in the order amount, description, category,
    date, and nothing else happens, signed in or not. *)
Theorem submit_first_message (parseFloat : string -> float) (isUuid : string -> bool)
  (formData : ExpenseDialog.FormData) (expense session : option string)
  (resp : Store.Response) (issues : list string) :
  ExpenseDialog.expenseSchema_parse isUuid
    (parseFloat (ExpenseDialog.form_amount formData)) formData = inr issues ->
  let amount := parseFloat (ExpenseDialog.form_amount formData) in
  ExpenseDialog.handleSubmit parseFloat isUuid formData expense session resp
  = [Effects.toast_error
       (if isNaN amount then "Expected number, received nan"
        else if negb (PrimFloat.ltb 0 amount) then "Amount must be positive"
        else if (String_length (ExpenseDialog.form_description formData) =? 0)%nat
        then "Description is required"
        else if (200 <? String_length (ExpenseDialog.form_description formData))%nat
        then "String must contain at most 200 character(s)"
        else if negb (isUuid (ExpenseDialog.form_category_id formData))
        then "Please select a category"
        else "Date is required")].
Proof.
  intros Hparse amount. unfold ExpenseDialog.handleSubmit. fold amount.
  fold amount in Hparse. rewrite Hparse. f_equal. f_equal.
  unfold ExpenseDialog.expenseSchema_parse in Hparse.
  unfold ExpenseDialog.amountIssues, ExpenseDialog.descriptionIssues,
    ExpenseDialog.categoryIssues, ExpenseDialog.dateIssues in Hparse.
  destruct (isNaN amount); [now inversion Hparse|].
  destruct (PrimFloat.ltb 0 amount); [|now inversion Hparse].
  cbn [negb app] in *.
  destruct (String_length (ExpenseDialog.form_description formData)) as [|n];
    [now inversion Hparse|].
  change (S n <? 1)%nat with false in Hparse. change (S n =? 0)%nat with false.
  cbn [app] in Hparse.
  destruct (200 <? S n)%nat; [now inversion Hparse|].
  destruct (isUuid (ExpenseDialog.form_category_id formData)); [|now inversion Hparse].
  cbn [negb app] in *.
  destruct (String.length (ExpenseDialog.form_date formData) <? 1)%nat;
    [now inversion Hparse | discriminate Hparse].
Qed.

(** A description of 101 accented letters and no category: the
    description passes, the first message is that of the category. *)
Lemma submit_first_message_witness :
  ExpenseDialog.handleSubmit parseFloatPlain ExpenseDialog.uuidShape
    {| ExpenseDialog.form_amount := "12.50";
       ExpenseDialog.form_description := Examples.accented;
       ExpenseDialog.form_category_id := ""; ExpenseDialog.form_date := "2024-03-01" |}
    None None Store.Ok
  = [Effects.toast_error "Please select a category"].
Proof.
  refine (submit_first_message parseFloatPlain ExpenseDialog.uuidShape
            {| ExpenseDialog.form_amount := "12.50";
               ExpenseDialog.form_description := Examples.accented;
               ExpenseDialog.form_category_id := "";
               ExpenseDialog.form_date := "2024-03-01" |}
            None None Store.Ok ["Please select a category"] _).
  vm_compute. reflexivity.
Defined.

(** Editing and saving unchanged.  When the text [toString] gives the
    amount reads back as that amount, and the stored expense has a
    positive amount, a description whose [length] is from 1 to 200, a
    category that passes the uuid test and a date, opening it in the form and
    submitting at once sends the update of that expense with the very
    same fields, reports success and closes the dialog. *)
Theorem edit_unchanged_updates_same_fields (parseFloat : string -> float)
  (toString : float -> string) (isUuid : string -> bool) (now : Z)
  (e : Store.Expense float) (d c user : string) :
  parseFloat (toString (Store.amount e)) = Store.amount e ->
  isNaN (Store.amount e) = false -> PrimFloat.ltb 0 (Store.amount e) = true ->
  Store.description e = Some d -> (1 <= String_length d <= 200)%nat ->
  Store.category_id e = Some c -> isUuid c = true ->
  (1 <= String.length (Store.date e))%nat ->
  ExpenseDialog.handleSubmit parseFloat isUuid
    (ExpenseDialog.formFor toString (Some e) now) (Some (Store.id e)) (Some user) Store.Ok
  = [Effects.update_expense (Store.id e)
       {| Effects.f_amount := Store.amount e; Effects.f_description := d;
          Effects.f_category_id := c; Effects.f_date := Store.date e |};
     Effects.toast_success "Expense updated successfully";
     Effects.onOpenChange_called false].
Proof.
  intros Hround Hnan Hpos Hdesc Hlen Hcat Huuid Hdate.
  assert (Hd : orString (Some d) "" = d) by (destruct d; reflexivity).
  assert (Hc : orString (Some c) "" = c) by (destruct c; reflexivity).
  unfold ExpenseDialog.handleSubmit, ExpenseDialog.formFor, ExpenseDialog.expenseSchema_parse.
  cbn [ExpenseDialog.form_amount ExpenseDialog.form_description
       ExpenseDialog.form_category_id ExpenseDialog.form_date].
  rewrite Hround, Hdesc, Hcat, Hd, Hc.
  unfold ExpenseDialog.amountIssues, ExpenseDialog.descriptionIssues,
    ExpenseDialog.categoryIssues, ExpenseDialog.dateIssues.
  rewrite Hnan, Hpos, Huuid.
  destruct (Nat.ltb_spec (String_length d) 1); [lia|].
  destruct (Nat.ltb_spec 200 (String_length d)); [lia|].
  destruct (Nat.ltb_spec (String.length (Store.date e)) 1); [lia|].
  reflexivity.
Qed.

(** The stored lunch of 12.5, opened and saved unchanged; the amount is
    written "12.5". *)
Lemma edit_unchanged_updates_same_fields_witness :
  ExpenseDialog.handleSubmit parseFloatPlain ExpenseDialog.uuidShape
    (ExpenseDialog.formFor (fun _ => "12.5")
       (Some {| Store.id := "e1"; Store.user_id := "u1";
                Store.category_id := Some Examples.foodId; Store.amount := 12.5%float;
                Store.description := Some "Lunch"; Store.date := "2024-03-01";
                Store.expense_categories := Some Examples.food |}) Examples.march2)
    (Some "e1") (Some "u1") Store.Ok
  = [Effects.update_expense "e1"
       {| Effects.f_amount := 12.5%float; Effects.f_description := "Lunch";
          Effects.f_category_id := Examples.foodId; Effects.f_date := "2024-03-01" |};
     Effects.toast_success "Expense updated successfully";
     Effects.onOpenChange_called false].
Proof.
  apply (edit_unchanged_updates_same_fields parseFloatPlain (fun _ => "12.5")
           ExpenseDialog.uuidShape Examples.march2
           {| Store.id := "e1"; Store.user_id := "u1";
              Store.category_id := Some Examples.foodId; Store.amount := 12.5%float;
              Store.description := Some "Lunch"; Store.date := "2024-03-01";
              Store.expense_categories := Some Examples.food |}
           "Lunch" Examples.foodId "u1");
    try (vm_compute; reflexivity); vm_compute; lia.
Defined.

(** An expense stored without description (the column is nullable) or
    without category cannot be saved from the form as it is: with a
    valid amount, opening it and submitting at once is rejected with
    "Description is required", or, when only the category is missing and
    the empty text fails the uuid test, with "Please select a category";
    nothing is sent to the store. *)
Theorem edit_of_incomplete_expense_rejected (parseFloat : string -> float)
  (toString : float -> string) (isUuid : string -> bool) (now : Z)
  (e : Store.Expense float) (session : option string) (resp : Store.Response) :
  ExpenseDialog.amountIssues (parseFloat (toString (Store.amount e))) = [] ->
  (Store.description e = None \/ Store.description e = Some "" ->
   ExpenseDialog.handleSubmit parseFloat isUuid
     (ExpenseDialog.formFor toString (Some e) now) (Some (Store.id e)) session resp
   = [Effects.toast_error "Description is required"])
  /\ (forall d, Store.description e = Some d -> (1 <= String_length d <= 200)%nat ->
      Store.category_id e = None -> isUuid "" = false ->
      ExpenseDialog.handleSubmit parseFloat isUuid
        (ExpenseDialog.formFor toString (Some e) now) (Some (Store.id e)) session resp
      = [Effects.toast_error "Please select a category"]).
Proof.
  intros Hamount. split.
  - intros Hdesc.
    assert (Hd : orString (Store.description e) "" = "")
      by (destruct Hdesc as [-> | ->]; reflexivity).
    unfold ExpenseDialog.handleSubmit, ExpenseDialog.formFor,
      ExpenseDialog.expenseSchema_parse.
    cbn [ExpenseDialog.form_amount ExpenseDialog.form_description
         ExpenseDialog.form_category_id ExpenseDialog.form_date].
    rewrite Hamount, Hd. reflexivity.
  - intros d Hdesc Hlen Hcat Hempty.
    assert (Hd : orString (Some d) "" = d) by (destruct d; reflexivity).
    unfold ExpenseDialog.handleSubmit, ExpenseDialog.formFor,
      ExpenseDialog.expenseSchema_parse.
    cbn [ExpenseDialog.form_amount ExpenseDialog.form_description
         ExpenseDialog.form_category_id ExpenseDialog.form_date].
    rewrite Hamount, Hdesc, Hcat, Hd.
    unfold ExpenseDialog.descriptionIssues, ExpenseDialog.categoryIssues.
    cbn [orString]. rewrite Hempty.
    destruct (Nat.ltb_spec (String_length d) 1); [lia|].
    destruct (Nat.ltb_spec 200 (String_length d)); [lia|].
    reflexivity.
Qed.

(** An expense of 12.5 stored without description. *)
Lemma edit_of_incomplete_expense_rejected_witness :
  ExpenseDialog.handleSubmit parseFloatPlain ExpenseDialog.uuidShape
    (ExpenseDialog.formFor (fun _ => "12.5")
       (Some (Examples.expenseOf "e1" 12.5%float "2024-03-01" (Some Examples.food)))
       Examples.march2)
    (Some "e1") (Some "u1") Store.Ok
  = [Effects.toast_error "Description is required"].
Proof.
  refine (proj1 (edit_of_incomplete_expense_rejected parseFloatPlain (fun _ => "12.5")
                   ExpenseDialog.uuidShape Examples.march2
                   (Examples.expenseOf "e1" 12.5%float "2024-03-01" (Some Examples.food))
                   (Some "u1") Store.Ok _) _).
  - vm_compute. reflexivity.
  - left. reflexivity.
Defined.

(* ================================================================== *)
(** * BudgetTracker: what setting a budget leaves alone *)
(* ================================================================== *)

Section UpsertFrame.
Import Store.

Lemma upsert_other_key (row : Budget) (user m : string) (table : list Budget) :
  keyOf row <> (user, m) ->
  budgetsOf user m (upsert row table) = budgetsOf user m table.
Proof.
  intros Hne.
  assert (Hrow : sameKey user m row = false).
  { destruct (sameKey user m row) eqn:H; [|reflexivity].
    apply sameKey_keyOf in H. contradiction. }
  induction table as [|b table IH]; simpl.
  - now rewrite Hrow.
  - destruct (sameKey (budget_user_id row) (month row) b) eqn:Hkey; simpl.
    + rewrite Hrow. apply sameKey_keyOf in Hkey.
      destruct (sameKey user m b) eqn:Hb; [|reflexivity].
      apply sameKey_keyOf in Hb. exfalso. apply Hne.
      unfold keyOf at 1. congruence.
    + now rewrite IH.
Qed.

Lemma upsert_length (row : Budget) (table : list Budget) :
  (List.length table <= List.length (upsert row table) <= S (List.length table))%nat.
Proof.
  induction table as [|b table IH]; simpl; [lia|].
  destruct (sameKey (budget_user_id row) (month row) b); simpl; lia.
Qed.

End UpsertFrame.

(** Whatever is typed, whoever is signed in and whatever the store
    answers, setting a budget leaves the rows of every other user and of
    every other month as they were, changes the number of rows by one at
    most, keeps the keys of the table distinct, and changes nothing at
    all when the store refuses the upsert.  Every upsert that is sent
    carries a number above 0 and the id of the signed-in user. *)
Theorem set_budget_frame (parseFloat : string -> float) (tz : TimeZone) (now : Z)
  (session : option string) (resp : Store.Response) (table : list Store.Budget)
  (st : BudgetTracker.State) :
  let result := BudgetTracker.handleSetBudget parseFloat tz now session resp table st in
  (forall user m,
     session <> Some user \/ m <> BudgetTracker.monthKey tz now ->
     Store.budgetsOf user m (BudgetTracker.tableAfter result) = Store.budgetsOf user m table)
  /\ (List.length table <= List.length (BudgetTracker.tableAfter result)
      <= S (List.length table))%nat
  /\ (Store.uniqueKeys table -> Store.uniqueKeys (BudgetTracker.tableAfter result))
  /\ (forall message, resp = Store.Error message ->
        BudgetTracker.tableAfter result = table /\ BudgetTracker.stateAfter result = st)
  /\ (forall row, In (Effects.upsert_budget row) (BudgetTracker.effectsOf result) ->
        isNaN (Store.limit_amount row) = false
        /\ PrimFloat.leb (Store.limit_amount row) 0 = false
        /\ session = Some (Store.budget_user_id row)
        /\ Store.month row = BudgetTracker.monthKey tz now
        /\ Page.allowedFor (Store.budget_user_id row) (Effects.upsert_budget row) = true).
Proof.
  intros result. unfold result, BudgetTracker.handleSetBudget, BudgetTracker.invalidAmount.
  assert (Hsame : forall effects : list Effects.Effect,
            (forall row, ~ In (Effects.upsert_budget row) effects) ->
            (forall user m,
               session <> Some user \/ m <> BudgetTracker.monthKey tz now ->
               Store.budgetsOf user m (BudgetTracker.tableAfter (effects, table, st))
               = Store.budgetsOf user m table)
            /\ (List.length table
                <= List.length (BudgetTracker.tableAfter (effects, table, st))
                <= S (List.length table))%nat
            /\ (Store.uniqueKeys table ->
                Store.uniqueKeys (BudgetTracker.tableAfter (effects, table, st)))
            /\ (forall message, resp = Store.Error message ->
                  BudgetTracker.tableAfter (effects, table, st) = table
                  /\ BudgetTracker.stateAfter (effects, table, st) = st)
            /\ (forall row,
                  In (Effects.upsert_budget row)
                     (BudgetTracker.effectsOf (effects, table, st)) ->
                  isNaN (Store.limit_amount row) = false
                  /\ PrimFloat.leb (Store.limit_amount row) 0 = false
                  /\ session = Some (Store.budget_user_id row)
                  /\ Store.month row = BudgetTracker.monthKey tz now
                  /\ Page.allowedFor (Store.budget_user_id row)
                       (Effects.upsert_budget row) = true)).
  { intros effects Hnone.
    cbn [BudgetTracker.tableAfter BudgetTracker.stateAfter BudgetTracker.effectsOf fst snd].
    split; [reflexivity|]. split; [lia|]. split; [auto|]. split; [auto|].
    intros row Hin. exfalso. exact (Hnone row Hin). }
  destruct (isNaN (parseFloat (BudgetTracker.budgetAmount st))) eqn:Hnan.
  { apply Hsame. intros row [Hin|[]]. discriminate Hin. }
  destruct (PrimFloat.leb (parseFloat (BudgetTracker.budgetAmount st)) 0) eqn:Hle.
  { apply Hsame. intros row [Hin|[]]. discriminate Hin. }
  cbn [orb]. clear Hsame.
  destruct session as [user|];
    [|cbn; repeat split; auto; try lia; intros; tauto].
  destruct resp as [|message];
    cbn [BudgetTracker.tableAfter BudgetTracker.stateAfter BudgetTracker.effectsOf fst snd].
  - split; [|split; [|split; [|split]]].
    + intros user' m Hother. apply upsert_other_key. unfold Store.keyOf. simpl.
      intros Heq. inversion Heq. destruct Hother; congruence.
    + apply upsert_length.
    + apply upsert_uniqueKeys.
    + intros message Hresp. discriminate Hresp.
    + intros row [Hin|[Hin|[Hin|[]]]]; try discriminate Hin.
      inversion Hin. subst row. simpl.
      repeat split; auto. unfold Store.ownBudget. apply String.eqb_refl.
  - split; [|split; [|split; [|split]]]; auto; try lia.
    intros row [Hin|[Hin|[]]]; try discriminate Hin.
    inversion Hin. subst row. simpl.
    repeat split; auto. unfold Store.ownBudget. apply String.eqb_refl.
Qed.

(** User u1 sets 100 for March 2024: the row of user u2 stays. *)
Lemma set_budget_frame_witness :
  Store.budgetsOf "u2" "2024-03-01"
    (BudgetTracker.tableAfter
       (BudgetTracker.handleSetBudget parseFloatPlain Examples.utcMinus5 Examples.march2
          (Some "u1") Store.Ok Examples.budgets (Examples.typed "100")))
  = Store.budgetsOf "u2" "2024-03-01" Examples.budgets.
Proof.
  apply (proj1 (set_budget_frame parseFloatPlain Examples.utcMinus5 Examples.march2
                  (Some "u1") Store.Ok Examples.budgets (Examples.typed "100"))).
  left. discriminate.
Defined.

(** After a budget is set.  On a table with distinct keys, a valid
    amount sent by a signed-in user and accepted by the store, followed
    by the fetch the handler calls, leaves the card showing a budget
    with that amount as limit, the dialog closed and the field holding
    the text of the amount; the percentage is the spending over that
    amount, times 100. *)
Theorem budget_shown_after_set (parseFloat : string -> float) (toString : float -> string)
  (tz : TimeZone) (now : Z) (user : string) (table : list Store.Budget)
  (st : BudgetTracker.State) :
  Store.uniqueKeys table ->
  BudgetTracker.invalidAmount (parseFloat (BudgetTracker.budgetAmount st)) = false ->
  let amount := parseFloat (BudgetTracker.budgetAmount st) in
  let result := BudgetTracker.handleSetBudget parseFloat tz now (Some user) Store.Ok table st in
  let st' :=
    BudgetTracker.fetchBudget toString
      (BudgetTracker.budgetQuery tz now user (BudgetTracker.tableAfter result))
      (BudgetTracker.stateAfter result) in
  BudgetTracker.budget st'
  = Some {| Store.budget_user_id := user;
            Store.month := BudgetTracker.monthKey tz now;
            Store.limit_amount := amount |}
  /\ BudgetTracker.dialogOpen st' = false
  /\ BudgetTracker.budgetAmount st' = toString amount
  /\ BudgetTracker.monthlySpending st' = BudgetTracker.monthlySpending st
  /\ BudgetTracker.render st' <> None
  /\ BudgetTracker.percentage st'
     = (BudgetTracker.monthlySpending st / amount * 100)%float.
Proof.
  intros Huniq Hvalid amount result st'.
  assert (Hquery :
    BudgetTracker.budgetQuery tz now user (BudgetTracker.tableAfter result)
    = Some {| Store.budget_user_id := user;
              Store.month := BudgetTracker.monthKey tz now;
              Store.limit_amount := amount |}).
  { unfold result, BudgetTracker.handleSetBudget, BudgetTracker.budgetQuery.
    rewrite Hvalid. cbn [BudgetTracker.tableAfter fst snd].
    pose proof (upsert_budgetsOf
                  {| Store.budget_user_id := user;
                     Store.month := BudgetTracker.monthKey tz now;
                     Store.limit_amount := amount |} table Huniq) as Hrows.
    cbn [Store.budget_user_id Store.month] in Hrows.
    fold amount. rewrite Hrows. reflexivity. }
  unfold st'. rewrite Hquery.
  unfold result, BudgetTracker.handleSetBudget. rewrite Hvalid.
  unfold BudgetTracker.render, BudgetTracker.percentage.
  cbn. repeat split; try reflexivity. discriminate.
Qed.

Lemma budget_shown_after_set_witness :
  BudgetTracker.budget
    (BudgetTracker.fetchBudget (fun _ => "100")
       (BudgetTracker.budgetQuery Examples.utcMinus5 Examples.march2 "u1"
          (BudgetTracker.tableAfter
             (BudgetTracker.handleSetBudget parseFloatPlain Examples.utcMinus5
                Examples.march2 (Some "u1") Store.Ok Examples.budgets
                (Examples.typed "100"))))
       (BudgetTracker.stateAfter
          (BudgetTracker.handleSetBudget parseFloatPlain Examples.utcMinus5
             Examples.march2 (Some "u1") Store.Ok Examples.budgets
             (Examples.typed "100"))))
  = Some {| Store.budget_user_id := "u1"; Store.month := "2024-03-01";
            Store.limit_amount := 100%float |}.
Proof.
  refine (proj1 (budget_shown_after_set parseFloatPlain (fun _ => "100")
                   Examples.utcMinus5 Examples.march2 "u1" Examples.budgets
                   (Examples.typed "100") _ _)).
  - unfold Store.uniqueKeys. simpl.
    repeat constructor; simpl; intuition discriminate.
  - vm_compute. reflexivity.
Defined.

(* ================================================================== *)
(** * BudgetTracker: the bar and the alerts *)
(* ================================================================== *)

Section NumberTotalOrder.
Import SpecFloat.

Lemma SFcompare_defined (x y : spec_float) :
  SFcompare x x = Some Eq -> SFcompare y y = Some Eq ->
  exists c, SFcompare x y = Some c.
Proof.
  destruct x as [sx|sx| |sx mx ex], y as [sy|sy| |sy my ey]; simpl;
    intros Hx Hy; try discriminate; eauto.
Qed.

(** Two numbers neither of which is NaN are comparable. *)
Lemma number_not_gt_le (p q : float) :
  isNaN p = false -> isNaN q = false ->
  PrimFloat.ltb q p = false -> PrimFloat.leb p q = true.
Proof.
  unfold isNaN. intros Hp Hq.
  apply negb_false_iff in Hp, Hq.
  rewrite FloatAxioms.eqb_spec in Hp, Hq. unfold SFeqb in Hp, Hq.
  assert (Hpp : SFcompare (Prim2SF p) (Prim2SF p) = Some Eq)
    by (destruct (SFcompare (Prim2SF p) (Prim2SF p)) as [[| |]|]; congruence).
  assert (Hqq : SFcompare (Prim2SF q) (Prim2SF q) = Some Eq)
    by (destruct (SFcompare (Prim2SF q) (Prim2SF q)) as [[| |]|]; congruence).
  destruct (SFcompare_defined _ _ Hpp Hqq) as [c Hc].
  rewrite FloatAxioms.ltb_spec, FloatAxioms.leb_spec. unfold SFltb, SFleb.
  rewrite (SFcompare_antisym (Prim2SF p) (Prim2SF q)), Hc.
  destruct c; simpl; congruence.
Qed.

End NumberTotalOrder.

(** The card.  Without a budget nothing is rendered and the percentage
    is 0.  With one, at most one alert shows; the bar shows the
    percentage itself up to 100 and stops at 100 above it, so that it
    never exceeds 100 when the percentage is a number; and the colour of
    the bar goes with the alert. *)
Theorem budget_card_bounds (st : BudgetTracker.State) :
  (BudgetTracker.budget st = None ->
     BudgetTracker.render st = None
     /\ BudgetTracker.percentage st = 0%float)
  /\ (forall b view,
        BudgetTracker.budget st = Some b -> BudgetTracker.render st = Some view ->
        (List.length (BudgetTracker.alerts view) <= 1)%nat
        /\ (PrimFloat.ltb 100 (BudgetTracker.percentage st) = true ->
              BudgetTracker.progressValue view = 100%float
              /\ BudgetTracker.progressClass view = "bg-destructive/20")
        /\ (PrimFloat.ltb 100 (BudgetTracker.percentage st) = false ->
              BudgetTracker.progressValue view = BudgetTracker.percentage st)
        /\ (isNaN (BudgetTracker.percentage st) = false ->
              PrimFloat.leb (BudgetTracker.progressValue view) 100 = true)
        /\ (BudgetTracker.alerts view = [] <->
              BudgetTracker.progressClass view = "")).
Proof.
  split.
  - intros Hnone. unfold BudgetTracker.render, BudgetTracker.percentage.
    now rewrite Hnone.
  - intros b view Hb Hrender. unfold BudgetTracker.render in Hrender.
    rewrite Hb in Hrender. inversion Hrender as [Hview]. clear Hrender.
    cbn [BudgetTracker.alerts BudgetTracker.progressValue BudgetTracker.progressClass].
    unfold BudgetTracker.isOverBudget, Math_min.
    destruct (PrimFloat.ltb 100 (BudgetTracker.percentage st)) eqn:Hover;
      destruct (BudgetTracker.isNearLimit st) eqn:Hnear;
      cbn [andb negb app List.length].
    all: split; [lia|].
    all: split; [intros H; first [discriminate H | split; reflexivity]|].
    all: split; [intros H; first [discriminate H | reflexivity]|].
    all: split; [intros Hnan; first [reflexivity | now apply number_not_gt_le]|].
    all: split; intros H; first [discriminate H | reflexivity].
Qed.

(** 120 spent of 100: the bar stops at 100. *)
Lemma budget_card_bounds_witness :
  PrimFloat.leb
    (Math_min
       (BudgetTracker.percentage
          (BudgetTracker.showing
             {| Store.budget_user_id := "u1"; Store.month := "2024-03-01";
                Store.limit_amount := 100%float |} 120%float false "")) 100) 100
  = true.
Proof.
  refine (proj1 (proj2 (proj2 (proj2
    (proj2 (budget_card_bounds
              (BudgetTracker.showing
                 {| Store.budget_user_id := "u1"; Store.month := "2024-03-01";
                    Store.limit_amount := 100%float |} 120%float false ""))
       {| Store.budget_user_id := "u1"; Store.month := "2024-03-01";
          Store.limit_amount := 100%float |}
       _ eq_refl eq_refl)))) _).
  vm_compute. reflexivity.
Defined.

(* ================================================================== *)
(** * ExpenseList: the order and the rows *)
(* ================================================================== *)

Section ListFacts.
Import Store.
Context {A : Type}.

Lemma descending_firstn (n : nat) (l : list (Expense A)) :
  descending l -> descending (firstn n l).
Proof.
  unfold descending. revert l. induction n as [|n IH]; intros l Hs; simpl.
  - constructor.
  - destruct l as [|x l]; [constructor|].
    inversion Hs as [|? ? Hl Hx]; subst. constructor; [now apply IH|].
    rewrite Forall_forall in *. intros y Hy. apply Hx.
    rewrite <- (firstn_skipn n l). apply in_or_app. now left.
Qed.

Lemma reachable_descending (st : ExpenseList.State A) :
  ExpenseList.reachable st -> descending (ExpenseList.expenses st).
Proof.
  induction 1 as [|st st' _ IH Hstep].
  - constructor.
  - destruct Hstep; simpl; try assumption.
    unfold ExpenseList.query, limit. apply descending_firstn.
    apply orderByDateDesc_descending.
Qed.

Lemma query_incl (rows : list (Expense A)) (e : Expense A) :
  In e (ExpenseList.query rows) -> In e rows.
Proof.
  unfold ExpenseList.query, limit. intros Hin.
  apply (Permutation_in _ (orderByDateDesc_Permutation rows)).
  rewrite <- (firstn_skipn 50 (orderByDateDesc rows)). apply in_or_app. now left.
Qed.

End ListFacts.

(** Whatever the fetches return and whatever the user does with the
    dialog, the expenses the list holds are in the order of most recent
    date first, and opening, editing or closing the dialog, or a fetch
    that returns nothing, leave them as they are. *)
Theorem expense_list_keeps_order {A : Type} (st : ExpenseList.State A) :
  ExpenseList.reachable st ->
  Store.descending (ExpenseList.expenses st)
  /\ (forall e,
        ExpenseList.expenses (ExpenseList.handleEdit e st) = ExpenseList.expenses st
        /\ ExpenseList.handleDialogClose (ExpenseList.handleEdit e st)
           = ExpenseList.handleDialogClose st)
  /\ ExpenseList.expenses (ExpenseList.openDialog st) = ExpenseList.expenses st
  /\ ExpenseList.expenses (ExpenseList.handleDialogClose st) = ExpenseList.expenses st
  /\ ExpenseList.fetchExpenses None st = st.
Proof.
  intros Hreach. split; [now apply reachable_descending|].
  repeat split.
Qed.

(** The list after a fetch against the three expenses of March. *)
Lemma expense_list_keeps_order_witness :
  Store.descending
    (ExpenseList.expenses
       (ExpenseList.fetchExpenses (Some (ExpenseList.query Examples.marchMinor))
          ExpenseList.initialState)).
Proof.
  refine (proj1 (expense_list_keeps_order _ _)).
  apply (ExpenseList.reach_step ExpenseList.initialState).
  - apply ExpenseList.reach_initial.
  - apply ExpenseList.step_fetch.
Defined.

(** The rows of the list.  A row always has a title, a category name
    and an icon: "Untitled", "Other" and the money bag stand in for a
    missing or empty description, category and icon.  The category name
    of a row is the name under which the dashboard counts the expense,
    so every name the list shows after a fetch is a bucket of the
    dashboard's summary of the same table.  For an expense without
    category the background is the text "undefined20", which is no
    colour. *)
Theorem expense_rows {A : Type} {AR : Arith A} (rows : list (Store.Expense A))
  (e : Store.Expense A) :
  ExpenseList.row_title (ExpenseList.renderRow e) <> ""
  /\ ExpenseList.row_category (ExpenseList.renderRow e) <> ""
  /\ ExpenseList.row_icon (ExpenseList.renderRow e) <> ""
  /\ ExpenseList.row_category (ExpenseList.renderRow e) = Dashboard.categoryOf e
  /\ (In e (ExpenseList.query rows) ->
        In (ExpenseList.row_category (ExpenseList.renderRow e))
           (map Dashboard.category
              (Dashboard.calcCategorySummary (Dashboard.query rows))))
  /\ (Store.expense_categories e = None ->
        ExpenseList.row_background (ExpenseList.renderRow e) = "undefined20"
        /\ ExpenseList.row_category (ExpenseList.renderRow e) = "Other"
        /\ ExpenseList.row_icon (ExpenseList.renderRow e) = "💰")
  /\ (forall c, Store.expense_categories e = Some c ->
        ExpenseList.row_background (ExpenseList.renderRow e) = Store.color c ++ "20").
Proof.
  assert (Hor : forall (a : option string) (d : string), d <> "" -> orString a d <> "").
  { intros [[|c s]|] d Hd; simpl; congruence. }
  split; [apply Hor; discriminate|].
  split; [apply Hor; discriminate|].
  split; [apply Hor; discriminate|].
  split; [reflexivity|].
  split.
  - intros Hin. apply calcCategorySummary_covers. exists e. split; [|reflexivity].
    unfold Dashboard.query.
    apply (Permutation_in _ (Permutation_sym (orderByDateDesc_Permutation rows))).
    now apply query_incl.
  - split.
    + intros Hnone. unfold ExpenseList.renderRow. rewrite Hnone. repeat split.
    + intros c Hc. unfold ExpenseList.renderRow. rewrite Hc. reflexivity.
Qed.

(** The first of the three expenses of March, as listed. *)
Lemma expense_rows_witness :
  In "Food"
     (map Dashboard.category
        (Dashboard.calcCategorySummary (Dashboard.query Examples.marchMinor))).
Proof.
  refine (proj1 (proj2 (proj2 (proj2 (proj2
            (expense_rows Examples.marchMinor
               (Examples.expenseOf "e1" 1000 "2024-03-01" (Some Examples.food))))))) _).
  vm_compute. tauto.
Defined.

(** The body of the card is the invitation to add a first expense
    exactly when the list holds no expense; otherwise it has one row per
    expense, 50 at most. *)
Theorem expense_list_body {A : Type} (st : ExpenseList.State A) :
  ExpenseList.reachable st ->
  (ExpenseList.renderBody st = ExpenseList.no_expenses_yet
   <-> ExpenseList.expenses st = [])
  /\ (forall l, ExpenseList.renderBody st = ExpenseList.rows l ->
        List.length l = List.length (ExpenseList.expenses st)
        /\ (1 <= List.length l <= 50)%nat).
Proof.
  intros Hreach. pose proof (reachable_at_most_50 st Hreach) as Hmax.
  unfold ExpenseList.renderBody.
  destruct (ExpenseList.expenses st) as [|e es] eqn:Hes.
  - split; [tauto|]. intros l H. discriminate H.
  - split; [split; intros H; discriminate H|].
    intros l H. injection H as <-. cbn [map List.length] in *.
    rewrite length_map. lia.
Qed.

Lemma expense_list_body_witness :
  ExpenseList.renderBody (@ExpenseList.initialState Z) = ExpenseList.no_expenses_yet
  <-> ExpenseList.expenses (@ExpenseList.initialState Z) = [].
Proof.
  refine (proj1 (expense_list_body _ _)). apply ExpenseList.reach_initial.
Defined.
